(** * MINDLY backend: counsellor appointment lifecycle, availability and
    insights handlers of [python_backend/app.py]

    The Flask handlers are embedded as programs of a small state-and-exception
    monad over a model of the Firestore client.  Documents are dictionaries
    (finite maps from field names to dynamically typed values), exactly as
    [to_dict()] returns them; a Python exception is the [Exn] outcome and
    every [try/except] of the source is a [try_except] here. *)

From Stdlib Require Import ZArith QArith Qround Lqa String Ascii List DecimalString.
From Stdlib Require OrderedTypeEx.
From stdpp Require Import gmap strings list fin_maps sorting.

Local Open Scope Z_scope.
Local Open Scope string_scope.

(* ================================================================== *)
(** ** Python values *)
(* ================================================================== *)

(** Values nested inside a map-valued field (one level of nesting, which is
    all the handlers look at: [sentiment.score]). *)
Inductive atom :=
| ANull
| ABool (b : bool)
| AInt (z : Z)
| AFloat (q : Q)
| AStr (s : string)
| ATime (t : Z).

(** Field values of a document or of a JSON body.  [VFloat] idealises a
    Python float by a rational; [VTime t] is a datetime, [t] microseconds
    since the epoch in UTC. *)
Inductive value :=
| VNull
| VBool (b : bool)
| VInt (z : Z)
| VFloat (q : Q)
| VStr (s : string)
| VTime (t : Z)
| VMap (m : gmap string atom).

Definition value_of_atom (a : atom) : value :=
  match a with
  | ANull => VNull
  | ABool b => VBool b
  | AInt z => VInt z
  | AFloat q => VFloat q
  | AStr s => VStr s
  | ATime t => VTime t
  end.

(** A document, [dict] in Python. *)
Abbreviation doc := (gmap string value).

(** [d.get(k)]: the value, [None] when the key is missing. *)
Definition dget (d : doc) (k : string) : value := default VNull (d !! k).

(** [d.get(k, dflt)] *)
Definition dget_or (d : doc) (k : string) (dflt : value) : value :=
  default dflt (d !! k).

(** [bool(v)]: Python truthiness. *)
Definition truthy (v : value) : bool :=
  match v with
  | VNull => false
  | VBool b => b
  | VInt z => negb (z =? 0)%Z
  | VFloat q => negb (Qeq_bool q 0)
  | VStr s => negb (String.eqb s "")
  | VTime _ => true
  | VMap m => negb (bool_decide (m = ∅))
  end.

(** [a or b] *)
Definition py_or (a b : value) : value := if truthy a then a else b.

(** Numeric reading shared by [bool], [int] and [float]. *)
Definition num_of (v : value) : option Q :=
  match v with
  | VBool b => Some (if b then 1%Q else 0%Q)
  | VInt z => Some (inject_Z z)
  | VFloat q => Some q
  | _ => None
  end.

Definition atom_eqb (a b : atom) : bool :=
  match num_of (value_of_atom a), num_of (value_of_atom b) with
  | Some x, Some y => Qeq_bool x y
  | None, None =>
      match a, b with
      | ANull, ANull => true
      | AStr s, AStr t => String.eqb s t
      | ATime s, ATime t => Z.eqb s t
      | _, _ => false
      end
  | _, _ => false
  end.

Definition option_eqb {A} (eqb : A -> A -> bool) (x y : option A) : bool :=
  match x, y with
  | Some a, Some b => eqb a b
  | None, None => true
  | _, _ => false
  end.

(** Dictionaries are equal when they have the same keys with equal values. *)
Definition map_eqb (m1 m2 : gmap string atom) : bool :=
  forallb (fun k => option_eqb atom_eqb (m1 !! k) (m2 !! k))
          (elements (dom m1 ∪ dom m2)).

(** [a == b]: numbers (booleans included) compare by value across types. *)
Definition py_eqb (a b : value) : bool :=
  match num_of a, num_of b with
  | Some x, Some y => Qeq_bool x y
  | None, None =>
      match a, b with
      | VNull, VNull => true
      | VStr s, VStr t => String.eqb s t
      | VTime s, VTime t => Z.eqb s t
      | VMap m1, VMap m2 => map_eqb m1 m2
      | _, _ => false
      end
  | _, _ => false
  end.

(** Firestore's equality filter: as [==] except that a boolean is not a
    number. *)
Definition fs_eqb (a b : value) : bool :=
  match a, b with
  | VBool x, VBool y => Bool.eqb x y
  | VBool _, _ | _, VBool _ => false
  | _, _ => py_eqb a b
  end.

(** [a < b]: [None] is the [TypeError] of an unordered pair of types. *)
Definition py_ltb (a b : value) : option bool :=
  match num_of a, num_of b with
  | Some x, Some y => Some (negb (Qle_bool y x))
  | None, None =>
      match a, b with
      | VStr s, VStr t => Some (String.ltb s t)
      | VTime s, VTime t => Some (s <? t)%Z
      | _, _ => None
      end
  | _, _ => None
  end.

(** [a > b] *)
Definition py_gtb (a b : value) : option bool := py_ltb b a.

(* ------------------------------------------------------------------ *)
(** *** Strings *)

(** A [str] is its UTF-8 byte sequence; comparing byte sequences
    lexicographically orders strings as Python does (by code point). *)

Definition nl : string := String "010"%char "".
Definition emdash : string :=
  String "226"%char (String "128"%char (String "148"%char "")).

Fixpoint str_map (f : ascii -> ascii) (s : string) : string :=
  match s with
  | EmptyString => EmptyString
  | String c s' => String (f c) (str_map f s')
  end.

Definition lower_char (c : ascii) : ascii :=
  let n := nat_of_ascii c in
  if ((65 <=? n) && (n <=? 90))%nat then ascii_of_nat (n + 32) else c.

Definition upper_char (c : ascii) : ascii :=
  let n := nat_of_ascii c in
  if ((97 <=? n) && (n <=? 122))%nat then ascii_of_nat (n - 32) else c.

(** [s.lower()] and [s.upper()] on the ASCII letters.  Python also maps
    non-ASCII letters; none of the words the handlers compare the result
    with ([pending], [approved], [confirmed], [cancelled], [canceled],
    [true], [yes], [PHQ-9], [GAD-7]) can be produced from a string holding a
    non-ASCII character, because they contain none of the letters (k, I, S)
    that a non-ASCII character maps to. *)
Definition py_lower : string -> string := str_map lower_char.
Definition py_upper : string -> string := str_map upper_char.

(** [s.replace('.', ':')] *)
Definition dot_to_colon (c : ascii) : ascii :=
  if Ascii.eqb c "."%char then ":"%char else c.
Definition replace_dots : string -> string := str_map dot_to_colon.

Definition bytes (l : list nat) : string :=
  fold_right (fun n s => String (ascii_of_nat n) s) "" l.

(** The characters [str.strip()] removes, in UTF-8. *)
Definition whitespace : list string :=
  map bytes
    [ [9]; [10]; [11]; [12]; [13]; [28]; [29]; [30]; [31]; [32];
      [194; 133]; [194; 160]; [225; 154; 128];
      [226; 128; 128]; [226; 128; 129]; [226; 128; 130]; [226; 128; 131];
      [226; 128; 132]; [226; 128; 133]; [226; 128; 134]; [226; 128; 135];
      [226; 128; 136]; [226; 128; 137]; [226; 128; 138];
      [226; 128; 168]; [226; 128; 169]; [226; 128; 175];
      [226; 129; 159]; [227; 128; 128] ]%nat.

Fixpoint drop_prefix (p s : string) : option string :=
  match p, s with
  | EmptyString, _ => Some s
  | String a p', String b s' => if Ascii.eqb a b then drop_prefix p' s' else None
  | String _ _, EmptyString => None
  end.

Fixpoint drop_any (toks : list string) (s : string) : option string :=
  match toks with
  | [] => None
  | t :: toks' =>
      match drop_prefix t s with
      | Some r => Some r
      | None => drop_any toks' s
      end
  end.

Fixpoint lstrip_with (toks : list string) (fuel : nat) (s : string) : string :=
  match fuel with
  | O => s
  | S fuel' =>
      match drop_any toks s with
      | Some r => lstrip_with toks fuel' r
      | None => s
      end
  end.

Definition py_lstrip (s : string) : string :=
  lstrip_with whitespace (String.length s) s.

Definition py_rstrip (s : string) : string :=
  String.rev
    (lstrip_with (map String.rev whitespace) (String.length s) (String.rev s)).

(** [s.strip()] *)
Definition py_strip (s : string) : string := py_rstrip (py_lstrip s).

Definition digit_of (c : ascii) : option Z :=
  let n := nat_of_ascii c in
  if ((48 <=? n) && (n <=? 57))%nat then Some (Z.of_nat (n - 48)) else None.

(** Digits with single underscores between them. *)
Fixpoint parse_digits (s : string) (acc : Z) (after_digit : bool) : option Z :=
  match s with
  | EmptyString => if after_digit then Some acc else None
  | String c s' =>
      if Ascii.eqb c "_"%char
      then (if after_digit then parse_digits s' acc false else None)
      else match digit_of c with
           | Some d => parse_digits s' (10 * acc + d) true
           | None => None
           end
  end.

(** [int(s)] for a decimal literal in ASCII digits; [None] is [ValueError]. *)
Definition py_int (s : string) : option Z :=
  match py_strip s with
  | String "-"%char r => Z.opp <$> parse_digits r 0 false
  | String "+"%char r => parse_digits r 0 false
  | r => parse_digits r 0 false
  end.

(** [x in (w1, w2, ...)] for strings. *)
Definition str_in (x : string) (ws : list string) : bool :=
  existsb (String.eqb x) ws.

(** [needle in haystack] for strings. *)
Fixpoint substring_of (needle hay : string) : bool :=
  match drop_prefix needle hay with
  | Some _ => true
  | None =>
      match hay with
      | EmptyString => false
      | String _ hay' => substring_of needle hay'
      end
  end.


(* ================================================================== *)
(** ** The document store and the world around a handler *)
(* ================================================================== *)

(** The Firestore collections the handlers touch. *)
Inductive coll :=
| Appointments | Slots | Users | Notifications
| MoodScores | Moods | ChatConversations | Assessments | Notes.

Inductive access := Read | Write.

(** A slot document lives at
    [counsellors/{id}/availability/{dateKey}/slots/{time}] and a note at
    [appointments/{id}/notes/{counsellorId}]; the model addresses them by
    the variable path segments.  The collections that are only queried or
    appended to are lists in the order the query streams them. *)
Abbreviation slot_key := (string * string * string)%type.
Abbreviation note_key := (string * string)%type.

Record store := Store {
  appointments : gmap string doc;
  slots : gmap slot_key doc;
  users : gmap string doc;
  notes : gmap note_key doc;
  notifications : list doc;
  mood_scores : list doc;
  moods : list doc;
  chat_conversations : list doc;
  assessments : list doc
}.

Definition set_appointments (f : gmap string doc -> gmap string doc) (s : store) : store :=
  Store (f (appointments s)) (slots s) (users s) (notes s) (notifications s)
        (mood_scores s) (moods s) (chat_conversations s) (assessments s).
Definition set_slots (f : gmap slot_key doc -> gmap slot_key doc) (s : store) : store :=
  Store (appointments s) (f (slots s)) (users s) (notes s) (notifications s)
        (mood_scores s) (moods s) (chat_conversations s) (assessments s).
Definition set_users (f : gmap string doc -> gmap string doc) (s : store) : store :=
  Store (appointments s) (slots s) (f (users s)) (notes s) (notifications s)
        (mood_scores s) (moods s) (chat_conversations s) (assessments s).
Definition set_notes (f : gmap note_key doc -> gmap note_key doc) (s : store) : store :=
  Store (appointments s) (slots s) (users s) (f (notes s)) (notifications s)
        (mood_scores s) (moods s) (chat_conversations s) (assessments s).
Definition set_notifications (f : list doc -> list doc) (s : store) : store :=
  Store (appointments s) (slots s) (users s) (notes s) (f (notifications s))
        (mood_scores s) (moods s) (chat_conversations s) (assessments s).

(** A keyed collection: where it lives in the store. *)
Record table (K : Type) `{Countable K} := Table {
  t_coll : coll;
  t_get : store -> gmap K doc;
  t_set : (gmap K doc -> gmap K doc) -> store -> store
}.
Arguments t_coll {K _ _} _.
Arguments t_get {K _ _} _ _.
Arguments t_set {K _ _} _ _ _.

Definition appointments_tbl : table string := Table _ _ _ Appointments appointments set_appointments.
Definition slots_tbl : table slot_key := Table _ _ _ Slots slots set_slots.
Definition users_tbl : table string := Table _ _ _ Users users set_users.
Definition notes_tbl : table note_key := Table _ _ _ Notes notes set_notes.

(** A queried collection. *)
Definition docs_of (c : coll) (s : store) : list doc :=
  match c with
  | MoodScores => mood_scores s
  | Moods => moods s
  | ChatConversations => chat_conversations s
  | Assessments => assessments s
  | Notifications => notifications s
  | _ => []
  end.

(** The SMTP settings [send_email] reads from the environment; [None] is an
    unset variable. *)
Record smtp_env := SmtpEnv {
  SMTP_HOST : option string;
  SMTP_PORT : option string;
  SMTP_USER : option string;
  SMTP_PASS : option string;
  SMTP_FROM : option string
}.

Record email := Email {
  mail_from : string;
  mail_to : string;
  mail_subject : string;
  mail_html : string;
  mail_text : string
}.

(** Everything a handler can observe or change.
    - [db]: the module-level client, [None] when initialisation failed;
    - [failing c a]: whether a store call of kind [a] on collection [c]
      raises (the remote store is unreachable, refuses the call, ...);
    - [clock]: the successive readings of the system clock (UTC,
      microseconds), [ticks] of which have been consumed;
    - [tz_offset]: what [datetime.now()] adds to UTC;
    - [trace]: the store calls made so far, latest first;
    - [outbox]: the mail handed to the SMTP server, latest first. *)
Record world := World {
  db : option store;
  failing : coll -> access -> bool;
  smtp : smtp_env;
  smtp_failing : bool;
  clock : nat -> Z;
  ticks : nat;
  tz_offset : Z;
  trace : list (coll * access);
  outbox : list email
}.

Definition set_db (d : option store) (w : world) : world :=
  World d (failing w) (smtp w) (smtp_failing w) (clock w) (ticks w)
        (tz_offset w) (trace w) (outbox w).
Definition tick (w : world) : world :=
  World (db w) (failing w) (smtp w) (smtp_failing w) (clock w) (S (ticks w))
        (tz_offset w) (trace w) (outbox w).
Definition log (e : coll * access) (w : world) : world :=
  World (db w) (failing w) (smtp w) (smtp_failing w) (clock w) (ticks w)
        (tz_offset w) (e :: trace w) (outbox w).
Definition post (m : email) (w : world) : world :=
  World (db w) (failing w) (smtp w) (smtp_failing w) (clock w) (ticks w)
        (tz_offset w) (trace w) (m :: outbox w).

(* ------------------------------------------------------------------ *)
(** *** The handler monad: state and exceptions *)

Inductive outcome (A : Type) :=
| Ok (a : A)
| Exn.
Arguments Ok {A} a.
Arguments Exn {A}.

Definition M (A : Type) : Type := world -> outcome A * world.

Definition ret {A} (a : A) : M A := fun w => (Ok a, w).

Definition raise {A} : M A := fun w => (Exn, w).

Definition bind {A B} (c : M A) (k : A -> M B) : M B :=
  fun w =>
    match c w with
    | (Ok a, w') => k a w'
    | (Exn, w') => (Exn, w')
    end.

(** [try: c  except Exception: h]; what [c] did before raising stays done. *)
Definition try_except {A} (c : M A) (h : M A) : M A :=
  fun w =>
    match c w with
    | (Ok a, w') => (Ok a, w')
    | (Exn, w') => h w'
    end.

Declare Scope handler_scope.
Delimit Scope handler_scope with handler.
Notation "x <- c ;; k" := (bind c (fun x => k))
  (at level 100, c at next level, right associativity) : handler_scope.
Notation "c ;;; k" := (bind c (fun _ => k))
  (at level 100, right associativity) : handler_scope.
Local Open Scope handler_scope.

(** [if c: body] for a statement. *)
Definition when (c : bool) (body : M unit) : M unit :=
  if c then body else ret tt.

(** [datetime.utcnow()] and [datetime.now()]: each call reads the clock. *)
Definition utcnow : M Z :=
  fun w => (Ok (clock w (ticks w)), tick w).
Definition now : M Z :=
  fun w => (Ok (clock w (ticks w) + tz_offset w)%Z, tick w).

(** [db] as a condition: [if db] / [if not db]. *)
Definition db_ready : M bool :=
  fun w => (Ok (match db w with Some _ => true | None => false end), w).

(** A call on the client: recorded, raising when the client is [None]
    (attribute error) or the call fails, and leaving the store as it was
    in both cases. *)
Definition store_call {A} (c : coll) (a : access)
    (f : store -> outcome A * store) : M A :=
  fun w =>
    let w1 := log (c, a) w in
    match db w1 with
    | None => (Exn, w1)
    | Some s =>
        if failing w1 c a then (Exn, w1)
        else let '(r, s') := f s in (r, set_db (Some s') w1)
    end.

Section Tables.
Context {K : Type} `{Countable K}.

(** [ref.get()]: [None] when [snap.exists] is false, else [snap.to_dict()]. *)
Definition get_doc (t : table K) (k : K) : M (option doc) :=
  store_call (t_coll t) Read (fun s => (Ok (t_get t s !! k), s)).

(** [ref.update(fields)]: the listed fields are overwritten, the others
    kept; Firestore raises [NotFound] when the document does not exist. *)
Definition update_doc (t : table K) (k : K) (fields : doc) : M unit :=
  store_call (t_coll t) Write (fun s =>
    match t_get t s !! k with
    | Some d => (Ok tt, t_set t (insert k (fields ∪ d)) s)
    | None => (Exn, s)
    end).

(** [ref.set(fields)]: the document becomes exactly [fields]. *)
Definition set_doc (t : table K) (k : K) (fields : doc) : M unit :=
  store_call (t_coll t) Write (fun s => (Ok tt, t_set t (insert k fields) s)).

(** [ref.set(fields, merge=True)]: created if absent, else as [update]. *)
Definition set_doc_merge (t : table K) (k : K) (fields : doc) : M unit :=
  store_call (t_coll t) Write (fun s =>
    (Ok tt, t_set t (insert k (fields ∪ default ∅ (t_get t s !! k))) s)).

(** [ref.delete()] *)
Definition delete_doc (t : table K) (k : K) : M unit :=
  store_call (t_coll t) Write (fun s => (Ok tt, t_set t (delete k) s)).

End Tables.

(** [db.collection('notifications').add(d)]: a new document with a fresh id. *)
Definition add_notification (d : doc) : M unit :=
  store_call Notifications Write (fun s =>
    (Ok tt, set_notifications (fun l => (l ++ [d])%list) s)).

(** [db.collection(c).where(field, '==', v).stream()], fully consumed. *)
Definition stream_where (c : coll) (field : string) (v : value) : M (list doc) :=
  store_call c Read (fun s =>
    (Ok (List.filter (fun d => fs_eqb (dget d field) v) (docs_of c s)), s)).

(* ================================================================== *)
(** ** HTTP responses *)
(* ================================================================== *)

(** The JSON bodies the handlers produce.  A mood-trend entry is a day
    (days since the epoch, standing for its ISO date) with its average,
    [None] for [null]. *)
Inductive body :=
| JError (msg : string)
| JSuccess
| JAppointments (items : list doc)
| JSlots (items : list doc)
| JNote (note : option doc)
| JInsights (moodTrend : list (Z * option Q)) (phq9 gad7 : option doc).

Record response := Response {
  status_code : Z;
  json : body
}.

(** [jsonify(b)] and [jsonify({'error': msg}), code] *)
Definition jsonify (b : body) : response := Response 200 b.
Definition error (code : Z) (msg : string) : response := Response code (JError msg).

(** The outermost [try/except Exception] of every handler. *)
Definition handler (c : M response) : world -> response * world :=
  fun w =>
    match c w with
    | (Ok r, w') => (r, w')
    | (Exn, w') => (error 500 "Internal server error", w')
    end.

(* ------------------------------------------------------------------ *)
(** *** Email helper *)

(** [os.getenv(name) or dflt] *)
Definition getenv_or (v : option string) (dflt : string) : string :=
  match v with
  | Some s => if String.eqb s "" then dflt else s
  | None => dflt
  end.

(** [send_email]: [False] without effect when SMTP is not configured or the
    recipient is empty; a failure while sending is caught and gives [False].
    Only a malformed [SMTP_PORT] raises, outside its [try]. *)
Definition send_email (to_email : value) (subject html_body text_body : string) : M bool :=
  fun w =>
    let host := getenv_or (SMTP_HOST (smtp w)) "" in
    match py_int (getenv_or (SMTP_PORT (smtp w)) "0") with
    | None => (Exn, w)
    | Some port =>
        let from_email :=
          match SMTP_FROM (smtp w) with
          | Some f => f
          | None => getenv_or (SMTP_USER (smtp w)) ""
          end in
        if negb (negb (String.eqb host "") && negb (port =? 0)%Z
                 && negb (String.eqb from_email "") && truthy to_email)
        then (Ok false, w)
        else
          match to_email with
          | VStr rcpt =>
              if smtp_failing w then (Ok false, w)
              else (Ok true, post (Email from_email rcpt subject html_body text_body) w)
          | _ => (Ok false, w)
          end
    end.

(* ================================================================== *)
(** ** The handlers *)
(* ================================================================== *)

Section Handlers.

(** Two conversions of the Python runtime are left abstract: how [str()]
    prints a float, a datetime or a dict, and how [float()] reads a string. *)
Variable str_other : value -> string.
Variable float_of_str : string -> option Q.

(** [str(v)], also what an f-string substitutes. *)
Definition py_str (v : value) : string :=
  match v with
  | VStr s => s
  | VNull => "None"
  | VBool true => "True"
  | VBool false => "False"
  | VInt z => NilZero.string_of_int (Z.to_int z)
  | _ => str_other v
  end.

(** [float(v)]; [None] is the [TypeError] or [ValueError]. *)
Definition py_float (v : value) : option Q :=
  match v with
  | VStr s => float_of_str s
  | _ => num_of v
  end.

(** Path of a slot document from the three substituted values. *)
Definition slot_path (counsellor_id date_key time : value) : slot_key :=
  (py_str counsellor_id, py_str date_key, py_str time).

(* ------------------------------------------------------------------ *)
(** *** PATCH /api/counsellor/appointments/<id>/start *)

Definition counsellor_start_appointment (appointment_id : string) (data : doc)
    : world -> response * world :=
  handler (
    up <- db_ready;;
    if negb up then ret (error 500 "Database not available") else
    let counsellor_id := dget data "counsellorId" in
    if negb (truthy counsellor_id) then ret (error 400 "counsellorId is required") else
    snap <- get_doc appointments_tbl appointment_id;;
    match snap with
    | None => ret (error 404 "Not found")
    | Some appt =>
        if negb (py_eqb (dget appt "counsellorId") counsellor_id)
        then ret (error 403 "Not your appointment") else
        t <- now;;
        update_doc appointments_tbl appointment_id
          {[ "status" := VStr "in_progress"; "updatedAt" := VTime t ]};;;
        ret (jsonify JSuccess)
    end).

(* ------------------------------------------------------------------ *)
(** *** Student contact details read off an appointment *)

(** [appt.get('studentId') or appt.get('userId')] *)
Definition student_id_of (appt : doc) : value :=
  py_or (dget appt "studentId") (dget appt "userId").

(** [appt.get('studentEmail') or appt.get('email') or ''] *)
Definition student_email_of (appt : doc) : value :=
  py_or (py_or (dget appt "studentEmail") (dget appt "email")) (VStr "").

(** The look-up in [users] when the appointment carries no email: returns
    the email and name to use.  Any failure in it is caught and leaves
    both as they were. *)
Definition lookup_user_email (student_id student_email student_name : value)
    : M (value * value) :=
  up <- db_ready;;
  if negb (truthy student_email) && up && truthy student_id then
    try_except
      (usnap <- match student_id with
                | VStr uid => get_doc users_tbl uid
                | _ => raise
                end;;
       match usnap with
       | Some u =>
           let email := dget_or u "email" (VStr "") in
           if negb (truthy student_name)
           then ret (email, py_or (py_or (dget u "name") (dget u "displayName")) (VStr ""))
           else ret (email, student_name)
       | None => ret (student_email, student_name)
       end)
      (ret (student_email, student_name))
  else ret (student_email, student_name).

Definition indent8 : string := "        ".
Definition indent10 : string := "          ".

(** The HTML alternative shared by the three mails. *)
Definition html_mail (student_name counsellor_name : value) (sentence closing : string)
    : string :=
  String.concat ""
    [ nl; indent8; "<div>"; nl;
      indent10; "<p>Hi "; py_str (py_or student_name (VStr "there")); ",</p>"; nl;
      indent10; "<p>"; sentence; "</p>"; nl;
      indent10; "<p>"; closing; "</p>"; nl;
      indent10; "<p>"; emdash; " MINDLY</p>"; nl;
      indent8; "</div>"; nl; indent8 ].

(* ------------------------------------------------------------------ *)
(** *** PATCH /api/counsellor/appointments/<id>/complete *)

Definition counsellor_complete_appointment (appointment_id : string) (data : doc)
    : world -> response * world :=
  handler (
    up <- db_ready;;
    if negb up then ret (error 500 "Database not available") else
    let counsellor_id := dget data "counsellorId" in
    if negb (truthy counsellor_id) then ret (error 400 "counsellorId is required") else
    snap <- get_doc appointments_tbl appointment_id;;
    match snap with
    | None => ret (error 404 "Not found")
    | Some appt =>
        if negb (py_eqb (dget appt "counsellorId") counsellor_id)
        then ret (error 403 "Not your appointment") else
        t <- now;;
        update_doc appointments_tbl appointment_id
          {[ "status" := VStr "completed"; "updatedAt" := VTime t ]};;;
        let student_id := student_id_of appt in
        let student_email := student_email_of appt in
        let student_name := py_or (dget appt "studentName") (VStr "") in
        let counsellor_name := py_or (dget appt "counsellorName") (VStr "") in
        let date_str := py_str (py_or (dget appt "appointmentDate") (VStr "")) in
        let time_str := py_str (py_or (dget appt "appointmentTime") (VStr "")) in
        let subject := "We value your feedback for today's session" in
        let html_body :=
          html_mail student_name counsellor_name
            (String.concat ""
               [ "Your session with <strong>";
                 py_str (py_or counsellor_name (VStr "your counsellor"));
                 "</strong> on <strong>"; date_str; "</strong> at <strong>"; time_str;
                 "</strong> is now marked as <strong>completed</strong>." ])
            "Please open Mindly and leave quick feedback for your counsellor." in
        let text_body :=
          String.concat ""
            [ "Hi "; py_str (py_or student_name (VStr "there")); ","; nl;
              "Your session on "; date_str; " at "; time_str;
              " is completed. Please open Mindly and leave feedback."; nl;
              emdash; " MINDLY" ] in
        when (truthy student_email)
          (send_email student_email subject html_body text_body;;; ret tt);;;
        when (truthy student_id)
          (try_except
             (t' <- now;;
              add_notification
                {[ "userId" := student_id;
                   "type" := VStr "appointment_completed";
                   "title" := VStr "Session completed";
                   "body" := VStr "Please leave quick feedback for your counsellor.";
                   "appointmentId" := VStr appointment_id;
                   "createdAt" := VTime t';
                   "read" := VBool false ]})
             (ret tt));;;
        ret (jsonify JSuccess)
    end).

(* ------------------------------------------------------------------ *)
(** *** DELETE /api/counsellor/appointments/<id> *)

(** The fields written to a slot that is freed. *)
Definition freed_fields (t : Z) : doc :=
  {[ "booked" := VBool false; "bookedBy" := VNull; "sessionId" := VNull;
     "updatedAt" := VTime t ]}.

(** "Free the availability slot if exists", with its own [try/except]. *)
Definition free_slot (owner_id date_key time_str : value) : M unit :=
  when (truthy date_key && truthy time_str && truthy owner_id)
    (try_except
       (let slot_ref := slot_path owner_id date_key time_str in
        snap <- get_doc slots_tbl slot_ref;;
        match snap with
        | Some _ =>
            t <- now;;
            update_doc slots_tbl slot_ref (freed_fields t)
        | None => ret tt
        end)
       (ret tt)).

Definition counsellor_delete_appointment (appointment_id : string) (data : doc)
    : world -> response * world :=
  handler (
    up <- db_ready;;
    if negb up then ret (error 500 "Database not available") else
    let counsellor_id := dget data "counsellorId" in
    if negb (truthy counsellor_id) then ret (error 400 "counsellorId is required") else
    snap <- get_doc appointments_tbl appointment_id;;
    match snap with
    | None => ret (jsonify JSuccess)
    | Some appt =>
        if negb (py_eqb (dget appt "counsellorId") counsellor_id)
        then ret (error 403 "Not your appointment") else
        let date_key := dget appt "appointmentDate" in
        let time_str := dget appt "appointmentTime" in
        let owner_id := dget appt "counsellorId" in
        free_slot owner_id date_key time_str;;;
        let student_id := student_id_of appt in
        let counsellor_name := py_or (dget appt "counsellorName") (VStr "") in
        let date_str := py_str (py_or date_key (VStr "")) in
        let time_disp := py_str (py_or time_str (VStr "")) in
        contact <- lookup_user_email student_id (student_email_of appt)
                     (py_or (dget appt "studentName") (VStr ""));;
        let '(student_email, student_name) := contact in
        let subject :=
          String.concat ""
            [ "Your session on "; date_str; " "; time_disp; " was cancelled" ] in
        let html_body :=
          html_mail student_name counsellor_name
            (String.concat ""
               [ "Your counselling session with <strong>";
                 py_str (py_or counsellor_name (VStr "your counsellor"));
                 "</strong> on <strong>"; date_str; "</strong> at <strong>"; time_disp;
                 "</strong> was <strong>cancelled</strong>." ])
            "Please rebook another slot in the app if needed." in
        let text_body :=
          String.concat ""
            [ "Hi "; py_str (py_or student_name (VStr "there")); ","; nl;
              "Your counselling session on "; date_str; " at "; time_disp;
              " was cancelled."; nl;
              "Please rebook another slot if needed."; nl;
              emdash; " MINDLY" ] in
        when (truthy student_email)
          (send_email student_email subject html_body text_body;;; ret tt);;;
        when (truthy student_id)
          (try_except
             (t' <- now;;
              add_notification
                {[ "userId" := student_id;
                   "type" := VStr "appointment_deleted";
                   "title" := VStr "Appointment cancelled";
                   "body" := VStr (String.concat ""
                       [ "Your session on "; date_str; " at "; time_disp;
                         " was cancelled." ]);
                   "appointmentId" := VStr appointment_id;
                   "createdAt" := VTime t';
                   "read" := VBool false ]})
             (ret tt));;;
        delete_doc appointments_tbl appointment_id;;;
        ret (jsonify JSuccess)
    end).

(* ------------------------------------------------------------------ *)
(** *** PATCH /api/counsellor/appointments/<id>/status *)

Definition valid_statuses : list string :=
  [ "pending"; "approved"; "confirmed"; "cancelled"; "canceled" ].

(** The display form of a status used in the mail and the notification. *)
Definition status_nice (status : string) : string :=
  if str_in status [ "approved"; "confirmed" ] then "confirmed"
  else if str_in status [ "cancelled"; "canceled" ] then "cancelled"
  else status.

(** [(data.get('status') or '').lower()]; only a string has [lower]. *)
Definition lowered_status (data : doc) : M string :=
  match py_or (dget data "status") (VStr "") with
  | VStr s => ret (py_lower s)
  | _ => raise
  end.

Definition counsellor_update_status (appointment_id : string) (data : doc)
    : world -> response * world :=
  handler (
    up <- db_ready;;
    if negb up then ret (error 500 "Database not available") else
    status <- lowered_status data;;
    let counsellor_id := dget data "counsellorId" in
    if negb (str_in status valid_statuses) then ret (error 400 "Invalid status") else
    if negb (truthy counsellor_id) then ret (error 400 "counsellorId is required") else
    snap <- get_doc appointments_tbl appointment_id;;
    match snap with
    | None => ret (error 404 "Not found")
    | Some appt =>
        if negb (py_eqb (dget appt "counsellorId") counsellor_id)
        then ret (error 403 "Not your appointment") else
        t <- now;;
        update_doc appointments_tbl appointment_id
          {[ "status" := VStr status; "updatedAt" := VTime t ]};;;
        let student_id := student_id_of appt in
        let counsellor_name := py_or (dget appt "counsellorName") (VStr "") in
        let date_str := py_str (py_or (dget appt "appointmentDate") (VStr "")) in
        let time_str := py_str (py_or (dget appt "appointmentTime") (VStr "")) in
        contact <- lookup_user_email student_id (student_email_of appt)
                     (py_or (dget appt "studentName") (VStr ""));;
        let '(student_email, student_name) := contact in
        let nice := status_nice status in
        let subject :=
          String.concat ""
            [ "Your session on "; date_str; " "; time_str; " was "; nice ] in
        let html_body :=
          html_mail student_name counsellor_name
            (String.concat ""
               [ "Your counselling session with <strong>";
                 py_str (py_or counsellor_name (VStr "your counsellor"));
                 "</strong> on <strong>"; date_str; "</strong> at <strong>"; time_str;
                 "</strong> was <strong>"; nice; "</strong>." ])
            "Please check your bookings page for details." in
        let text_body :=
          String.concat ""
            [ "Hi "; py_str (py_or student_name (VStr "there")); ","; nl;
              "Your counselling session on "; date_str; " at "; time_str;
              " was "; nice; "."; nl;
              "Please check your bookings page for details."; nl;
              emdash; " MINDLY" ] in
        when (truthy student_email)
          (send_email student_email subject html_body text_body;;; ret tt);;;
        try_except
          (up' <- db_ready;;
           when (up' && truthy student_id)
             (t' <- now;;
              add_notification
                {[ "userId" := student_id;
                   "type" := VStr "appointment_status";
                   "title" := VStr (String.concat "" [ "Appointment "; nice ]);
                   "body" := VStr (String.concat ""
                       [ "Your session on "; date_str; " at "; time_str;
                         " is "; nice; "." ]);
                   "appointmentId" := VStr appointment_id;
                   "status" := VStr status;
                   "createdAt" := VTime t';
                   "read" := VBool false ]}))
          (ret tt);;;
        ret (jsonify JSuccess)
    end).

(* ------------------------------------------------------------------ *)
(** *** PATCH /api/counsellor/appointments/<id>/reschedule *)

Definition counsellor_reschedule (appointment_id : string) (data : doc)
    : world -> response * world :=
  handler (
    up <- db_ready;;
    if negb up then ret (error 500 "Database not available") else
    let new_date := dget data "appointmentDate" in
    let new_time := dget data "appointmentTime" in
    let counsellor_id := dget data "counsellorId" in
    if negb (truthy new_date) || negb (truthy new_time)
    then ret (error 400 "appointmentDate and appointmentTime required") else
    if negb (truthy counsellor_id) then ret (error 400 "counsellorId is required") else
    snap <- get_doc appointments_tbl appointment_id;;
    match snap with
    | None => ret (error 404 "Not found")
    | Some appt =>
        if negb (py_eqb (dget appt "counsellorId") counsellor_id)
        then ret (error 403 "Not your appointment") else
        t <- now;;
        update_doc appointments_tbl appointment_id
          {[ "appointmentDate" := new_date; "appointmentTime" := new_time;
             "updatedAt" := VTime t ]};;;
        ret (jsonify JSuccess)
    end).

(* ------------------------------------------------------------------ *)
(** *** Availability slots *)

(** POST /api/counsellor/availability/slot *)
Definition counsellor_upsert_availability_slot (data : doc) : world -> response * world :=
  handler (
    up <- db_ready;;
    if negb up then ret (error 500 "Database not available") else
    let counsellor_id := dget data "counsellorId" in
    let date_key := dget data "dateKey" in
    let time := dget data "time" in
    if negb (truthy counsellor_id) || negb (truthy date_key) || negb (truthy time)
    then ret (error 400 "counsellorId, dateKey and time are required") else
    t <- now;;
    set_doc_merge slots_tbl (slot_path counsellor_id date_key time)
      {[ "time" := time; "booked" := VBool false; "updatedAt" := VTime t ]};;;
    ret (jsonify JSuccess)).

(** PATCH /api/counsellor/availability/toggle *)
Definition counsellor_toggle_availability (data : doc) : world -> response * world :=
  handler (
    up <- db_ready;;
    if negb up then ret (error 500 "Database not available") else
    let counsellor_id := dget data "counsellorId" in
    let date_key := dget data "dateKey" in
    let time := dget data "time" in
    let active := truthy (dget data "active") in
    if negb (truthy counsellor_id) || negb (truthy date_key) || negb (truthy time)
    then ret (error 400 "counsellorId, dateKey and time are required") else
    let ref := slot_path counsellor_id date_key time in
    snap <- get_doc slots_tbl ref;;
    match snap with
    | None => set_doc slots_tbl ref {[ "time" := time; "booked" := VBool false ]}
    | Some _ => ret tt
    end;;;
    t <- now;;
    update_doc slots_tbl ref {[ "active" := VBool active; "updatedAt" := VTime t ]};;;
    ret (jsonify JSuccess)).

(** [list.sort(key=...)] is stable: elements with equal keys keep their
    order.  Insertion from the right, each element placed before the first
    one that is not smaller, computes that unique result. *)
Fixpoint insert_by {A} (le : A -> A -> bool) (x : A) (l : list A) : list A :=
  match l with
  | [] => [x]
  | y :: l' => if le x y then x :: l else y :: insert_by le x l'
  end.

Definition sort_by {A} (le : A -> A -> bool) (l : list A) : list A :=
  fold_right (insert_by le) [] l.

(** A collection streams its documents in the order of their ids. *)
Definition stream_ids {K} `{Countable K} (id_of : K -> string) (m : gmap K doc)
    : list (string * doc) :=
  sort_by (fun a b => String.leb a.1 b.1)
          (map (fun kd => (id_of kd.1, kd.2)) (map_to_list m)).

(** [db.collection(f"counsellors/{c}/availability/{d}/slots").stream()] *)
Definition stream_slots (counsellor_id date_key : string) : M (list (string * doc)) :=
  store_call Slots Read (fun s =>
    (Ok (stream_ids (fun k : slot_key => k.2)
           (filter (fun kd : slot_key * doc =>
                      kd.1.1.1 = counsellor_id ∧ kd.1.1.2 = date_key) (slots s))), s)).

(** [norm_time] *)
Definition norm_time (t : value) : string :=
  replace_dots (py_strip (py_str (py_or t (VStr "")))).

(** The key the slots are sorted by: [str(x.get('time') or '')]. *)
Definition time_key (x : doc) : string :=
  py_str (py_or (dget x "time") (VStr "")).

(** One listed slot: the document with its id, then its time normalised. *)
Definition slot_item (d : string * doc) : doc :=
  let it := <[ "id" := VStr d.1 ]> d.2 in
  <[ "time" := VStr (norm_time (py_or (dget it "time") (dget it "id"))) ]> it.

(** GET /api/counsellor/availability *)
Definition counsellor_get_availability (args : gmap string string)
    : world -> response * world :=
  handler (
    up <- db_ready;;
    if negb up then ret (error 500 "Database not available") else
    let counsellor_id := default "" (args !! "counsellorId") in
    let date_key := default "" (args !! "dateKey") in
    if String.eqb counsellor_id "" || String.eqb date_key ""
    then ret (error 400 "counsellorId and dateKey are required") else
    snap <- stream_slots counsellor_id date_key;;
    let items := map slot_item snap in
    ret (jsonify (JSlots (sort_by (fun x y => String.leb (time_key x) (time_key y)) items)))).

(* ------------------------------------------------------------------ *)
(** *** GET /api/counsellor/appointments *)

(** The query [where('counsellorId', '==', id).limit(n).stream()]; a
    negative limit is refused by the store. *)
Definition stream_appointments (counsellor_id : string) (limit_n : Z)
    : M (list (string * doc)) :=
  store_call Appointments Read (fun s =>
    if (limit_n <? 0)%Z then (Exn, s)
    else
      (Ok (take (Z.to_nat limit_n)
             (List.filter (fun d => fs_eqb (dget d.2 "counsellorId") (VStr counsellor_id))
                (stream_ids id (appointments s)))), s)).

(** Sort key [(str(date or ''), str(time or ''))], compared as a tuple. *)
Definition date_time_key (x : doc) : string * string :=
  (py_str (py_or (dget x "appointmentDate") (VStr "")),
   py_str (py_or (dget x "appointmentTime") (VStr ""))).

Definition pair_leb (a b : string * string) : bool :=
  match String.compare a.1 b.1 with
  | Lt => true
  | Gt => false
  | Eq => String.leb a.2 b.2
  end.

Definition list_counsellor_appointments (args : gmap string string)
    : world -> response * world :=
  handler (
    let counsellor_id := default "" (args !! "counsellorId") in
    match py_int (default "100" (args !! "limit")) with
    | None => raise
    | Some limit_n =>
        if String.eqb counsellor_id "" then ret (error 400 "counsellorId is required") else
        up <- db_ready;;
        if negb up then ret (jsonify (JAppointments [])) else
        docs <- stream_appointments counsellor_id limit_n;;
        let items := map (fun d : string * doc => <[ "id" := VStr d.1 ]> d.2) docs in
        ret (jsonify (JAppointments
               (sort_by (fun x y => pair_leb (date_time_key x) (date_time_key y)) items)))
    end).

(* ------------------------------------------------------------------ *)
(** *** Session notes *)

(** GET /api/counsellor/appointments/<id>/notes/<counsellor_id> *)
Definition counsellor_get_note (appointment_id counsellor_id : string)
    : world -> response * world :=
  handler (
    up <- db_ready;;
    if negb up then ret (error 500 "Database not available") else
    snap <- get_doc notes_tbl (appointment_id, counsellor_id);;
    match snap with
    | None => ret (jsonify (JNote None))
    | Some data => ret (jsonify (JNote (Some (<[ "id" := VStr counsellor_id ]> data))))
    end).

(** PUT /api/counsellor/appointments/<id>/notes/<counsellor_id> *)
Definition counsellor_put_note (appointment_id counsellor_id : string) (body : doc)
    : world -> response * world :=
  handler (
    up <- db_ready;;
    if negb up then ret (error 500 "Database not available") else
    let text := dget_or body "text" (VStr "") in
    t <- now;;
    set_doc_merge notes_tbl (appointment_id, counsellor_id)
      {[ "text" := text; "updatedAt" := VTime t ]};;;
    ret (jsonify JSuccess)).

(* ------------------------------------------------------------------ *)
(** *** GET /api/counsellor/appointments/<id>/insights *)

(** One day, in the unit of [VTime]. *)
Definition day_us : Z := 86400000000.

(** [dt.date()], as a day number. *)
Definition date_of (t : Z) : Z := (t / day_us)%Z.

(** Firestore hands out UTC datetimes; dropping the zone keeps the instant. *)
Definition to_naive_utc (dt : value) : value := dt.

(** The two dictionaries [daily] and [counts] the handler fills. *)
Record buckets := Buckets {
  daily : gmap Z Q;
  counts : gmap Z nat
}.

(** How a loop body ends: normally, or by an exception that leaves the loop;
    either way with the dictionaries as filled so far. *)
Inductive step (A : Type) :=
| Next (a : A)
| Abort (a : A).
#[global] Arguments Next {A} a.
#[global] Arguments Abort {A} a.

Definition state_of {A} (s : step A) : A :=
  match s with Next a | Abort a => a end.

Fixpoint for_each {D A} (body : D -> A -> step A) (l : list D) (a : A) : step A :=
  match l with
  | [] => Next a
  | d :: l' =>
      match body d a with
      | Next a' => for_each body l' a'
      | Abort a' => Abort a'
      end
  end.

(** [try: for doc in query: body  except Exception: log] *)
Definition try_scan {A} (query : M (list doc)) (body : doc -> A -> step A) (a : A)
    : M (step A) :=
  try_except (docs <- query;; ret (for_each body docs a)) (ret (Abort a)).

(** [add_point(dt, score)]; comparing a non-datetime with [start] raises. *)
Definition add_point (start : Z) (dt score : value) (b : buckets) : step buckets :=
  match dt with
  | VNull => Next b
  | _ =>
      match py_ltb dt (VTime start), dt with
      | Some true, _ => Next b
      | Some false, VTime t =>
          let day := date_of t in
          match py_float score with
          | None => Next b
          | Some val =>
              Next (Buckets (<[ day := (default 0 (daily b !! day) + val)%Q ]> (daily b))
                            (<[ day := (default 0 (counts b !! day) + 1)%nat ]> (counts b)))
          end
      | _, _ => Abort b
      end
  end.

(** Source A, [mood_scores]: the loop body, counting the points it adds. *)
Definition mood_scores_body (start : Z) (d : doc) (st : buckets * nat)
    : step (buckets * nat) :=
  let ts := py_or (dget d "recordedAt") (dget d "createdAt") in
  let dt := to_naive_utc ts in
  let before := counts st.1 in
  match add_point start dt (dget d "score") st.1 with
  | Next b => Next (b, if bool_decide (counts b ≠ before) then S st.2 else st.2)
  | Abort b => Abort (b, st.2)
  end.

(** Source B, [moods]. *)
Definition moods_body (start : Z) (d : doc) (b : buckets) : step buckets :=
  let ts := py_or (dget d "timestamp") (dget d "createdAt") in
  let dt := to_naive_utc ts in
  let score := dget_or d "score" (dget d "mood_score") in
  add_point start dt score b.

(** The rescaling applied to a chat sentiment score. *)
Definition chat_norm (fs : Q) : Q :=
  if Qle_bool (-1) fs && Qle_bool fs 1 then ((fs + 1) / 2 * 100)%Q else fs.

(** Source C, [chat_conversations]. *)
Definition chats_body (start : Z) (d : doc) (b : buckets) : step buckets :=
  let ts := py_or (dget d "timestamp") (dget d "createdAt") in
  let dt := to_naive_utc ts in
  match py_or (dget d "sentiment") (VMap ∅) with
  | VMap sent =>
      let score := default VNull (value_of_atom <$> sent !! "score") in
      let norm :=
        match py_float score with
        | Some fs => VFloat (chat_norm fs)
        | None => VNull
        end in
      add_point start dt norm b
  | _ => Abort b
  end.

(** The fallback block: both [moods] queries under one [try], then the
    chat query under its own. *)
Definition fallback_sources (student_id : value) (start : Z) (b : buckets) : M buckets :=
  r1 <- try_scan (stream_where Moods "user_id" student_id) (moods_body start) b;;
  b2 <- match r1 with
        | Abort b1 => ret b1
        | Next b1 =>
            r2 <- try_scan (stream_where Moods "userId" student_id) (moods_body start) b1;;
            ret (state_of r2)
        end;;
  r3 <- try_scan (stream_where ChatConversations "user_id" student_id)
          (chats_body start) b2;;
  ret (state_of r3).

(** [round(x, 2)], half to even. *)
Definition round_half_even (x : Q) : Z :=
  let f := Qfloor x in
  match (x - inject_Z f ?= 1 # 2)%Q with
  | Lt => f
  | Gt => (f + 1)%Z
  | Eq => if Z.even f then f else (f + 1)%Z
  end.

Definition round2 (x : Q) : Q := (inject_Z (round_half_even (x * 100)) / 100)%Q.

(** The average reported for a day. *)
Definition day_avg (b : buckets) (day : Z) : option Q :=
  match daily b !! day with
  | Some total =>
      let n := default 0%nat (counts b !! day) in
      if (0 <? n)%nat then Some (round2 (total / inject_Z (Z.of_nat n))) else None
  | None => None
  end.

(** [for i in range(days_param - 1, -1, -1)] *)
Definition countdown (n : Z) : list Z :=
  map Z.of_nat (rev (seq 0 (Z.to_nat n))).

Definition mood_trend (now_utc days_param : Z) (b : buckets) : list (Z * option Q) :=
  map (fun i => let day := date_of (now_utc - i * day_us) in (day, day_avg b day))
      (countdown days_param).

(** [int(args.get('days', '30'))], 30 when it does not parse, then clamped. *)
Definition days_of (args : gmap string string) : Z :=
  let days_param := default 30%Z (py_int (default "30" (args !! "days"))) in
  Z.max 7 (Z.min 30 days_param).

Definition fallback_of (args : gmap string string) : bool :=
  str_in (py_lower (default "false" (args !! "fallback"))) [ "1"; "true"; "yes" ].

(** Whether an assessment dated [dt] replaces the one dated [prev]. *)
Definition replaces (dt prev : value) : option bool :=
  match prev with
  | VNull => Some true
  | _ => if truthy dt && truthy prev then py_gtb dt prev else Some false
  end.

(** The dictionaries [latest] and [latest_ts]; a missing key is [None]. *)
Definition assessments_body (a : doc) (st : gmap string doc * doc)
    : step (gmap string doc * doc) :=
  let t := py_upper (py_str (py_or (dget a "type") (VStr ""))) in
  if negb (str_in t [ "PHQ-9"; "GAD-7" ]) then Next st else
  let ts := py_or (dget a "timestamp") (dget a "createdAt") in
  let dt := to_naive_utc ts in
  let prev := dget st.2 t in
  match replaces dt prev with
  | Some true =>
      Next (<[ t := {[ "score" := dget a "score";
                       "severity" := py_or (dget a "severity") (VStr "") ]} ]> st.1,
            <[ t := dt ]> st.2)
  | Some false => Next st
  | None => Abort st
  end.

(** One pass of [for field in ('user_id', 'userId')]; not under a [try]. *)
Definition scan_assessments (field : string) (student_id : value)
    (st : gmap string doc * doc) : M (gmap string doc * doc) :=
  docs <- stream_where Assessments field student_id;;
  match for_each assessments_body docs st with
  | Next st' => ret st'
  | Abort _ => raise
  end.

Definition counsellor_appointment_insights (appointment_id : string)
    (args : gmap string string) : world -> response * world :=
  handler (
    up <- db_ready;;
    if negb up then ret (error 500 "Database not available") else
    let counsellor_id := default "" (args !! "counsellorId") in
    if String.eqb counsellor_id "" then ret (error 400 "counsellorId is required") else
    appt_snap <- get_doc appointments_tbl appointment_id;;
    match appt_snap with
    | None => ret (error 404 "Appointment not found")
    | Some appt =>
        if negb (py_eqb (dget appt "counsellorId") (VStr counsellor_id))
        then ret (error 403 "Forbidden") else
        let student_id := dget appt "studentId" in
        if negb (truthy student_id) then ret (error 400 "Appointment missing studentId") else
        now_utc <- utcnow;;
        let days_param := days_of args in
        let start := (now_utc - days_param * day_us)%Z in
        let fallback := fallback_of args in
        r <- try_scan (stream_where MoodScores "userId" student_id)
               (mood_scores_body start) (Buckets ∅ ∅, 0%nat);;
        let '(b, points_before_fallback) := state_of r in
        b' <- (if fallback && (points_before_fallback =? 0)%nat
               then fallback_sources student_id start b
               else ret b);;
        let days := mood_trend now_utc days_param b' in
        st1 <- scan_assessments "user_id" student_id (∅, ∅);;
        st2 <- scan_assessments "userId" student_id st1;;
        ret (jsonify (JInsights days (st2.1 !! "PHQ-9") (st2.1 !! "GAD-7")))
    end).

(* ------------------------------------------------------------------ *)
(** *** The transition operations as one family *)

Inductive transition := OpStart | OpComplete | OpUpdateStatus | OpReschedule | OpDelete.

Definition run_transition (op : transition) (appointment_id : string) (data : doc)
    : world -> response * world :=
  match op with
  | OpStart => counsellor_start_appointment appointment_id data
  | OpComplete => counsellor_complete_appointment appointment_id data
  | OpUpdateStatus => counsellor_update_status appointment_id data
  | OpReschedule => counsellor_reschedule appointment_id data
  | OpDelete => counsellor_delete_appointment appointment_id data
  end.

End Handlers.

(** Whether a request body gets past the checks a transition makes before it
    looks the appointment up: a counsellor id, and for a status update one
    of the accepted statuses, for a reschedule a date and a time. *)
Definition passes_validation (op : transition) (data : doc) : bool :=
  truthy (dget data "counsellorId") &&
  match op with
  | OpUpdateStatus =>
      match py_or (dget data "status") (VStr "") with
      | VStr s => str_in (py_lower s) valid_statuses
      | _ => false
      end
  | OpReschedule =>
      truthy (dget data "appointmentDate") && truthy (dget data "appointmentTime")
  | _ => true
  end.

(* ================================================================== *)
(** ** Sample data *)
(* ================================================================== *)

Definition demo_str : value -> string := fun _ => "".
Definition demo_float : string -> option Q := fun _ => None.

Definition demo_appt : doc :=
  {[ "counsellorId" := VStr "c1"; "studentId" := VStr "s1";
     "studentName" := VStr "Sam"; "appointmentDate" := VStr "2025-01-15";
     "appointmentTime" := VStr "10:00"; "status" := VStr "pending" ]}.

Definition demo_slot : doc :=
  {[ "time" := VStr "10:00"; "booked" := VBool true; "bookedBy" := VStr "s1";
     "sessionId" := VStr "a1"; "active" := VBool true ]}.

Definition demo_store : store :=
  Store {[ "a1" := demo_appt ]} {[ ("c1", "2025-01-15", "10:00") := demo_slot ]}
        ∅ ∅ [] [] [] [] [].

Definition no_smtp : smtp_env := SmtpEnv None None None None None.

(** A clock started on day 40 whose first readings are one microsecond
    apart. *)
Definition demo_clock (n : nat) : Z :=
  match n with
  | O => 40 * day_us
  | S O => 40 * day_us + 1
  | S (S _) => 40 * day_us + 2
  end%Z.

Definition demo_world : world :=
  World (Some demo_store) (fun _ _ => false) no_smtp false demo_clock 0 0 [] [].

(** The same server with the Firestore client not initialised. *)
Definition demo_world_nodb : world :=
  World None (fun _ _ => false) no_smtp false demo_clock 0 0 [] [].


(** Two worlds that differ at most in the trace of store calls and in the
    mail sent. *)
Definition same_setting (w w' : world) : Prop :=
  db w' = db w /\ failing w' = failing w /\ smtp w' = smtp w
  /\ smtp_failing w' = smtp_failing w /\ clock w' = clock w
  /\ ticks w' = ticks w /\ tz_offset w' = tz_offset w.

(** The SMTP port setting is unset or a number, so that [send_email] does
    not raise. *)
Definition smtp_port_ok (w : world) : Prop :=
  is_Some (py_int (getenv_or (SMTP_PORT (smtp w)) "0")).

(** [returns c w Q]: run from [w], the computation [c] ends without raising,
    with a result and in a world that satisfy [Q]. *)
Definition returns {A} (c : M A) (w : world) (Q : A -> world -> Prop) : Prop :=
  match c w with
  | (Ok a, w') => Q a w'
  | (Exn, _) => False
  end.

(** The demo server while every call on the slots collection fails. *)
Definition demo_world_slots_down : world :=
  World (Some demo_store)
        (fun c _ => match c with Slots => true | _ => false end)
        no_smtp false demo_clock 0 0 [] [].

Definition demo_toggle : doc :=
  {[ "counsellorId" := VStr "c1"; "dateKey" := VStr "2025-01-15";
     "time" := VStr "10:00"; "active" := VBool false ]}.

(** A day with three slots: one written with a dot, one without a time
    field, one regular. *)
Definition demo_day_store : store :=
  Store ∅
        {[ ("c1", "2025-01-15", "9.30") := {[ "time" := VStr "9.30"; "booked" := VBool false ]} : doc;
           ("c1", "2025-01-15", "11:45") := {[ "booked" := VBool false ]} : doc;
           ("c1", "2025-01-15", "10:00") := {[ "time" := VStr "10:00"; "booked" := VBool true ]} : doc;
           ("c1", "2025-01-16", "08:00") := {[ "time" := VStr "08:00" ]} : doc ]}
        ∅ ∅ [] [] [] [] [].

Definition demo_day_world : world :=
  World (Some demo_day_store) (fun _ _ => false) no_smtp false demo_clock 0 0 [] [].

Definition demo_day_args : gmap string string :=
  {[ "counsellorId" := "c1"; "dateKey" := "2025-01-15" ]}.

(* ================================================================== *)
(** ** Notions used to state the properties of the insights *)
(* ================================================================== *)

(** The linear map that sends the interval [lo, hi] onto [0, 100]. *)
Definition linear_rescale (lo hi s : Q) : Q := ((s - lo) / (hi - lo) * 100)%Q.

(** The timestamp a sample is filed under: the named field, else
    [createdAt]. *)
Definition sample_time (field : string) (d : doc) : value :=
  py_or (dget d field) (dget d "createdAt").

Definition is_time_or_null (v : value) : bool :=
  match v with
  | VNull | VTime _ => true
  | _ => false
  end.


(** The reads of the two legacy collections recorded in a trace. *)
Definition is_legacy (e : coll * access) : bool :=
  match e.1 with
  | Moods | ChatConversations => true
  | _ => false
  end.

Definition legacy_reads (tr : list (coll * access)) : list (coll * access) :=
  List.filter is_legacy tr.

(** A chat record scored 0.5 on a scale from 0 to 1, and a mood score of
    the same student. *)
Definition demo_chat : doc :=
  {[ "user_id" := VStr "s1"; "timestamp" := VTime (39 * day_us);
     "sentiment" := VMap {[ "score" := AFloat (1 # 2); "label" := AStr "neutral" ]} ]}.

Definition demo_mood : doc :=
  {[ "userId" := VStr "s1"; "recordedAt" := VTime (38 * day_us + 5); "score" := VInt 60 ]}.



Definition demo_assessment : doc :=
  {[ "user_id" := VStr "s1"; "type" := VStr "phq-9"; "score" := VInt 11;
     "severity" := VStr "moderate"; "timestamp" := VTime (37 * day_us) ]}.

(** The demo store with a primary mood score, a legacy chat record and an
    assessment of student [s1]. *)
Definition demo_insights_store : store :=
  Store {[ "a1" := demo_appt ]} ∅ ∅ ∅ [] [ demo_mood ] [] [ demo_chat ] [ demo_assessment ].

Definition demo_insights_world : world :=
  World (Some demo_insights_store) (fun _ _ => false) no_smtp false demo_clock 0 0 [] [].

(** The same store without the primary mood score. *)
Definition demo_legacy_world : world :=
  World (Some (Store {[ "a1" := demo_appt ]} ∅ ∅ ∅ [] [] [] [ demo_chat ] [ demo_assessment ]))
        (fun _ _ => false) no_smtp false demo_clock 0 0 [] [].

Definition demo_insights_args : gmap string string :=
  {[ "counsellorId" := "c1"; "days" := "3"; "fallback" := "true" ]}.

(* ================================================================== *)
(** ** Notions used to state what a handler leaves alone *)
(* ================================================================== *)

(** [preserves R c]: whether it returns or raises, [c] ends in a world
    related by [R] to the one it started from. *)
Definition preserves {A} (R : world -> world -> Prop) (c : M A) : Prop :=
  forall w, R w (c w).2.

(** The store and the outgoing mail are as before. *)
Definition untouched (w w' : world) : Prop :=
  db w' = db w /\ outbox w' = outbox w.

(** The part [proj] of the store is as before. *)
Definition keeps {X} (proj : store -> X) (w w' : world) : Prop :=
  proj <$> db w' = proj <$> db w.

(** No mail was handed to the SMTP server. *)
Definition no_mail (w w' : world) : Prop := outbox w' = outbox w.

(** Whether the request body of a transition is stopped by the checks made
    before any store call: the status of a status update is a string (or
    nothing) and the request does not pass validation. *)
Definition stopped_by_validation (op : transition) (data : doc) : bool :=
  negb (passes_validation op data) &&
  match op with
  | OpUpdateStatus =>
      match py_or (dget data "status") (VStr "") with
      | VStr _ => true
      | _ => false
      end
  | _ => true
  end.

(** An appointment that carries the student's email address, alone in its
    store. *)
Definition demo_mail_appt : doc :=
  <[ "studentEmail" := VStr "sam@example.org" ]> demo_appt.

Definition demo_mail_store : store :=
  Store {[ "a1" := demo_mail_appt ]} ∅ ∅ ∅ [] [] [] [] [].

(** A server whose SMTP port setting is not a number. *)
Definition demo_bad_port_world : world :=
  World (Some demo_mail_store)
        (fun _ _ => false)
        (SmtpEnv (Some "smtp.example.org") (Some "smtp") None None (Some "noreply@example.org"))
        false demo_clock 0 0 [] [].

(** The assessment type as the insights loop reads it, and the record the
    loop keeps for an assessment. *)
Definition assessment_kind (str_other : value -> string) (a : doc) : string :=
  py_upper (py_str str_other (py_or (dget a "type") (VStr ""))).

Definition assessment_record (a : doc) : doc :=
  {[ "score" := dget a "score"; "severity" := py_or (dget a "severity") (VStr "") ]}.

(** The day and the score a primary mood record is counted with, if it is
    counted: its timestamp is a datetime not before [start] and its score
    is a number. *)
Definition counted_on (float_of_str : string -> option Q) (start : Z) (d : doc)
    : option (Z * Q) :=
  match sample_time "recordedAt" d with
  | VTime t =>
      if (start <=? t)%Z
      then option_map (pair (date_of t)) (py_float float_of_str (dget d "score"))
      else None
  | _ => None
  end.

(** The scores of the records counted under [day], in order. *)
Definition scores_on (float_of_str : string -> option Q) (start day : Z)
    (docs : list doc) : list Q :=
  omap (fun d => match counted_on float_of_str start d with
                 | Some (day', v) => if (day' =? day)%Z then Some v else None
                 | None => None
                 end) docs.

Definition Qsum (l : list Q) : Q := fold_right Qplus 0%Q l.

(** What the loop has retained for the assessment type [kind] after the
    records [seen]: nothing when none of them has that type, else the
    record of one of them that no other of that type is dated after. *)
Definition retains_latest (str_other : value -> string) (kind : string)
    (seen : list doc) (s : gmap string doc * doc) : Prop :=
  match s.1 !! kind, s.2 !! kind with
  | Some rec, Some (VTime p) =>
      (exists d, In d seen /\ assessment_kind str_other d = kind
                 /\ sample_time "timestamp" d = VTime p /\ rec = assessment_record d)
      /\ (forall d q, In d seen -> assessment_kind str_other d = kind ->
                      sample_time "timestamp" d = VTime q -> (q <= p)%Z)
  | None, None => forall d, In d seen -> assessment_kind str_other d <> kind
  | _, _ => False
  end.

(** The sender address [send_email] uses: [SMTP_FROM] when it is set, even
    to the empty string, and else [SMTP_USER]. *)
Definition sender_of (e : smtp_env) : string :=
  match SMTP_FROM e with
  | Some f => f
  | None => getenv_or (SMTP_USER e) ""
  end.

(** Mail can go out: a host is named, the port is a number other than 0 and
    the sender address is not empty. *)
Definition smtp_configured (e : smtp_env) : bool :=
  negb (String.eqb (getenv_or (SMTP_HOST e) "") "")
  && match py_int (getenv_or (SMTP_PORT e) "0") with
     | Some port => negb (port =? 0)%Z
     | None => false
     end
  && negb (String.eqb (sender_of e) "").

(** The SMTP settings are as before, and without a usable configuration no
    mail was handed over. *)
Definition silent_unless_configured (w w' : world) : Prop :=
  smtp w' = smtp w /\ (smtp_configured (smtp w) = false -> outbox w' = outbox w).

(** A server with SMTP configured, the sender given by [SMTP_USER] only. *)
Definition demo_mail_world : world :=
  World (Some demo_mail_store)
        (fun _ _ => false)
        (SmtpEnv (Some "smtp.example.org") (Some "587") (Some "mindly@example.org") None None)
        false demo_clock 0 0 [] [].

(** A later assessment of the same student, typed in upper case and dated
    by [createdAt]. *)
Definition demo_assessment_later : doc :=
  {[ "userId" := VStr "s1"; "type" := VStr "PHQ-9"; "score" := VInt 4;
     "severity" := VStr "minimal"; "createdAt" := VTime (39 * day_us) ]}.

(** A computation that ends a delete request either removes the appointment
    [id] and answers 200, or leaves the appointments as they are and
    answers something else (or raises). *)
Definition all_or_nothing (id : string) (c : M response) : Prop :=
  forall w st, db w = Some st ->
    exists st', db (c w).2 = Some st'
      /\ appointments st'
         = match (c w).1 with
           | Ok r => if (status_code r =? 200)%Z then delete id (appointments st)
                     else appointments st
           | Exn => appointments st
           end.

(** A server with SMTP configured whose appointment carries no address,
    the student's address being on file in [users]. *)
Definition demo_user : doc :=
  {[ "email" := VStr "sam@example.org"; "name" := VStr "Sam" ]}.

Definition demo_users_store : store :=
  Store {[ "a1" := demo_appt ]} ∅ {[ "s1" := demo_user ]} ∅ [] [] [] [] [].

Definition demo_users_world : world :=
  World (Some demo_users_store)
        (fun _ _ => false)
        (SmtpEnv (Some "smtp.example.org") (Some "587") (Some "mindly@example.org") None None)
        false demo_clock 0 0 [] [].
(* ================================================================== *)
(** ** Properties *)
(* ================================================================== *)

(** *** Running the store calls *)

Lemma db_log e w : db (log e w) = db w.
Proof. reflexivity. Qed.

Lemma run_get_doc {K} `{Countable K} (t : table K) (k : K) (w : world) (st : store) :
  db w = Some st ->
  get_doc t k w =
    (if failing w (t_coll t) Read then Exn else Ok (t_get t st !! k),
     log (t_coll t, Read) w).
Proof.
  intros Hdb. unfold get_doc, store_call. cbn. rewrite Hdb.
  destruct (failing w (t_coll t) Read); [reflexivity |].
  destruct w; cbn in *; subst; reflexivity.
Qed.

Lemma run_get_doc_nodb {K} `{Countable K} (t : table K) (k : K) (w : world) :
  db w = None -> get_doc t k w = (Exn, log (t_coll t, Read) w).
Proof. intros Hdb. unfold get_doc, store_call. cbn. rewrite Hdb. reflexivity. Qed.

Lemma run_db_ready w st : db w = Some st -> db_ready w = (Ok true, w).
Proof. intros Hdb. unfold db_ready. rewrite Hdb. reflexivity. Qed.

Lemma run_db_ready_nodb w : db w = None -> db_ready w = (Ok false, w).
Proof. intros Hdb. unfold db_ready. rewrite Hdb. reflexivity. Qed.

Lemma run_update_doc {K} `{Countable K} (t : table K) (k : K) (fields d : doc)
    (w : world) (st : store) :
  db w = Some st ->
  failing w (t_coll t) Write = false ->
  t_get t st !! k = Some d ->
  update_doc t k fields w =
    (Ok tt, set_db (Some (t_set t (insert k (fields ∪ d)) st)) (log (t_coll t, Write) w)).
Proof.
  intros Hdb Hf Hl. unfold update_doc, store_call. cbn. rewrite Hdb, Hf, Hl. reflexivity.
Qed.

Lemma run_delete_doc {K} `{Countable K} (t : table K) (k : K) (w : world) (st : store) :
  db w = Some st ->
  failing w (t_coll t) Write = false ->
  delete_doc t k w =
    (Ok tt, set_db (Some (t_set t (delete k) st)) (log (t_coll t, Write) w)).
Proof.
  intros Hdb Hf. unfold delete_doc, store_call. cbn. rewrite Hdb, Hf. reflexivity.
Qed.

Lemma run_add_notification (d : doc) (w : world) (st : store) :
  db w = Some st ->
  add_notification d w =
    if failing w Notifications Write then (Exn, log (Notifications, Write) w)
    else (Ok tt, set_db (Some (set_notifications (fun l => l ++ [d])%list st))
                   (log (Notifications, Write) w)).
Proof.
  intros Hdb. unfold add_notification, store_call. cbn. rewrite Hdb.
  destruct (failing w Notifications Write); reflexivity.
Qed.

Lemma same_setting_refl w : same_setting w w.
Proof. repeat split. Qed.

Lemma same_setting_trans w1 w2 w3 :
  same_setting w1 w2 -> same_setting w2 w3 -> same_setting w1 w3.
Proof.
  unfold same_setting. intros (?&?&?&?&?&?&?) (?&?&?&?&?&?&?).
  repeat split; congruence.
Qed.


Lemma same_setting_post m w : same_setting w (post m w).
Proof. repeat split. Qed.

(** [send_email] never touches the store, and raises only on a malformed
    port setting. *)
Lemma send_email_quiet to_email subject html text w :
  smtp_port_ok w ->
  exists b w', send_email to_email subject html text w = (Ok b, w')
               /\ same_setting w w' /\ trace w' = trace w.
Proof.
  intros [port Hp]. unfold send_email. rewrite Hp.
  destruct (negb _).
  { eexists _, _. split; [reflexivity |]. split; [apply same_setting_refl | reflexivity]. }
  destruct to_email;
    try (eexists _, _; split; [reflexivity |];
         split; [apply same_setting_refl | reflexivity]).
  destruct (smtp_failing w); eexists _, _; (split; [reflexivity |]);
    (split; [first [apply same_setting_refl | apply same_setting_post] | reflexivity]).
Qed.

Lemma get_doc_quiet {K} `{Countable K} (t : table K) (k : K) (w : world) :
  exists r w', get_doc t k w = (r, w') /\ same_setting w w'.
Proof.
  unfold get_doc, store_call. cbn.
  destruct (db w) as [st |] eqn:Hdb.
  - destruct (failing w (t_coll t) Read); eexists _, _; (split; [reflexivity |]);
      repeat split; cbn; congruence.
  - eexists _, _. split; [reflexivity |]. repeat split; cbn; congruence.
Qed.

(** The look-up of the student's email only reads. *)
Lemma lookup_user_email_quiet sid e n w :
  exists r w', lookup_user_email sid e n w = (Ok r, w') /\ same_setting w w'.
Proof.
  unfold lookup_user_email, bind, db_ready.
  destruct (negb (truthy e) && _ && truthy sid).
  2: { eexists _, _. split; [reflexivity | apply same_setting_refl]. }
  unfold try_except, bind.
  destruct sid as [| | | |uid| |];
    try (eexists _, _; split; [reflexivity | apply same_setting_refl]).
  destruct (get_doc_quiet users_tbl uid w) as (r & w' & E & Hs). rewrite E.
  destruct r as [[u |] |]; [destruct (negb (truthy n)) | |];
    eexists _, _; (split; [reflexivity | exact Hs]).
Qed.

(** *** Reasoning about a run, one statement at a time *)

Lemma returns_ret {A} (a : A) w (Q : A -> world -> Prop) :
  Q a w -> returns (ret a) w Q.
Proof. intros HQ. exact HQ. Qed.

Lemma returns_bind {A B} (c : M A) (k : A -> M B) w (Q : B -> world -> Prop) :
  returns c w (fun a w' => returns (k a) w' Q) -> returns (bind c k) w Q.
Proof.
  unfold returns, bind. destruct (c w) as [[a |] w']; [trivial | contradiction].
Qed.

Lemma returns_mono {A} (c : M A) w (Q Q' : A -> world -> Prop) :
  returns c w Q -> (forall a w', Q a w' -> Q' a w') -> returns c w Q'.
Proof.
  unfold returns. destruct (c w) as [[a |] w']; [auto | contradiction].
Qed.

Lemma returns_eq {A} (c : M A) w (a : A) w' (Q : A -> world -> Prop) :
  c w = (Ok a, w') -> Q a w' -> returns c w Q.
Proof. intros E HQ. unfold returns. rewrite E. exact HQ. Qed.

Lemma returns_handler (c : M response) w (P : response * world -> Prop) :
  returns c w (fun r w' => P (r, w')) -> P (handler c w).
Proof.
  unfold returns, handler. destruct (c w) as [[r |] w']; [trivial | contradiction].
Qed.

Lemma returns_quiet {A} (c : M A) w (Q : A -> world -> Prop) :
  (exists a w', c w = (Ok a, w') /\ same_setting w w') ->
  (forall a w', same_setting w w' -> Q a w') ->
  returns c w Q.
Proof.
  intros (a & w' & E & Hs) HQ. unfold returns. rewrite E. apply HQ, Hs.
Qed.

(** [if cond: send_email(...)]: the store and the clock are as before. *)
Lemma maybe_send_quiet (cond : bool) to_email subject html text w :
  smtp_port_ok w ->
  exists u w', when cond (bind (send_email to_email subject html text) (fun _ => ret tt)) w
                 = (Ok u, w') /\ same_setting w w'.
Proof.
  intros Hp. destruct cond; cbn [when].
  - unfold bind.
    destruct (send_email_quiet to_email subject html text w Hp) as (b & w' & E & Hs & _).
    rewrite E. eexists _, _. split; [reflexivity | exact Hs].
  - eexists _, _. split; [reflexivity | apply same_setting_refl].
Qed.

Lemma smtp_port_ok_same w w' : same_setting w w' -> smtp_port_ok w -> smtp_port_ok w'.
Proof. intros (_ & _ & E & _) H. unfold smtp_port_ok in *. rewrite E. exact H. Qed.

Section Properties.

Variable str_other : value -> string.
Variable float_of_str : string -> option Q.

(** *** Missing appointments *)

(** C2. For a request that names its counsellor, on a store that answers
    the read: deleting an appointment id that does not exist returns
    [{success: true}] with status 200 and changes nothing in the store,
    while starting or completing it returns 404. *)
Theorem delete_absent_succeeds_start_complete_not_found
    (id : string) (data : doc) (w : world) (st : store) :
  db w = Some st ->
  failing w Appointments Read = false ->
  truthy (dget data "counsellorId") = true ->
  appointments st !! id = None ->
  (counsellor_delete_appointment str_other id data w).1 = Response 200 JSuccess
  /\ db (counsellor_delete_appointment str_other id data w).2 = Some st
  /\ (counsellor_start_appointment id data w).1 = Response 404 (JError "Not found")
  /\ (counsellor_complete_appointment str_other id data w).1
       = Response 404 (JError "Not found").
Proof.
  intros Hdb Hf Hc Hl.
  unfold counsellor_delete_appointment, counsellor_start_appointment,
    counsellor_complete_appointment, handler, bind.
  rewrite (run_db_ready _ _ Hdb), Hc. cbn [negb].
  rewrite (run_get_doc appointments_tbl _ _ _ Hdb). cbn [t_coll appointments_tbl].
  rewrite Hf. cbn [t_get appointments_tbl]. rewrite Hl. cbn.
  repeat split; try reflexivity. exact Hdb.
Qed.


(** *** Ownership *)

(** The look-up and the ownership test shared by the transitions, for a
    caller who is not the owner. *)
Ltac ownership_check Hdb Hl Hne :=
  rewrite (run_get_doc appointments_tbl _ _ _ Hdb);
  cbn [t_coll t_get appointments_tbl];
  match goal with
  | |- context [failing ?w Appointments Read] =>
      destruct (failing w Appointments Read)
  end;
  [ cbn; repeat split; auto; discriminate
  | rewrite Hl, Hne; cbn; repeat split; auto ].

(** C1 (as amended). On an existing appointment and with a counsellor id
    that differs from the stored one, every transition leaves the store
    (appointments, slots, notifications) and the outgoing mail unchanged;
    and it answers 403 whenever the request gets past the checks made before
    the look-up (a counsellor id is present, a status update carries an
    accepted status, a reschedule carries a date and a time) and the store
    answers the read. *)
Theorem non_owner_forbidden_no_change
    (op : transition) (id : string) (data : doc) (w : world) (st : store) (appt : doc) :
  db w = Some st ->
  appointments st !! id = Some appt ->
  py_eqb (dget appt "counsellorId") (dget data "counsellorId") = false ->
  (failing w Appointments Read = false ->
   passes_validation op data = true ->
   (run_transition str_other op id data w).1
     = Response 403 (JError "Not your appointment"))
  /\ db (run_transition str_other op id data w).2 = Some st
  /\ outbox (run_transition str_other op id data w).2 = outbox w.
Proof.
  intros Hdb Hl Hne.
  unfold passes_validation.
  destruct op; cbn [run_transition];
    unfold counsellor_start_appointment, counsellor_complete_appointment,
      counsellor_update_status, counsellor_reschedule,
      counsellor_delete_appointment, handler, bind, lowered_status;
    rewrite (run_db_ready _ _ Hdb); cbn [negb].
  - destruct (truthy (dget data "counsellorId")); cbn [negb andb].
    2: { cbn. repeat split; auto; discriminate. }
    ownership_check Hdb Hl Hne.
  - destruct (truthy (dget data "counsellorId")); cbn [negb andb].
    2: { cbn. repeat split; auto; discriminate. }
    ownership_check Hdb Hl Hne.
  - destruct (py_or (dget data "status") (VStr "")) as [| | | |s| |];
      try (cbn; rewrite andb_false_r; repeat split; auto; discriminate).
    change (ret (py_lower s) w) with (Ok (py_lower s), w); cbv beta iota.
    destruct (str_in (py_lower s) valid_statuses); cbn [negb].
    2: { cbn. rewrite andb_false_r. repeat split; auto; discriminate. }
    destruct (truthy (dget data "counsellorId")); cbn [negb andb].
    2: { cbn. repeat split; auto; discriminate. }
    ownership_check Hdb Hl Hne.
  - destruct (truthy (dget data "appointmentDate")); cbn [negb andb orb].
    2: { cbn. rewrite andb_false_r. repeat split; auto; discriminate. }
    destruct (truthy (dget data "appointmentTime")); cbn [negb andb orb].
    2: { cbn. rewrite andb_false_r. repeat split; auto; discriminate. }
    destruct (truthy (dget data "counsellorId")); cbn [negb andb].
    2: { cbn. repeat split; auto; discriminate. }
    ownership_check Hdb Hl Hne.
  - destruct (truthy (dget data "counsellorId")); cbn [negb andb].
    2: { cbn. repeat split; auto; discriminate. }
    ownership_check Hdb Hl Hne.
Qed.

(** *** The store client is missing *)

(** C3 (as amended). With the Firestore client not initialised, every
    counsellor endpoint other than the appointment listing answers 500
    "Database not available" and does nothing else; the listing, given a
    counsellor id and a limit that parses, answers 200 with an empty list. *)
Theorem no_db_is_500_except_listing
    (id cid : string) (data : doc) (args : gmap string string) (w : world) :
  db w = None ->
  let unavailable := (Response 500 (JError "Database not available"), w) in
  counsellor_start_appointment id data w = unavailable
  /\ counsellor_complete_appointment str_other id data w = unavailable
  /\ counsellor_delete_appointment str_other id data w = unavailable
  /\ counsellor_update_status str_other id data w = unavailable
  /\ counsellor_reschedule id data w = unavailable
  /\ counsellor_appointment_insights str_other float_of_str id args w = unavailable
  /\ counsellor_upsert_availability_slot str_other data w = unavailable
  /\ counsellor_toggle_availability str_other data w = unavailable
  /\ counsellor_get_availability str_other args w = unavailable
  /\ counsellor_get_note id cid w = unavailable
  /\ counsellor_put_note id cid data w = unavailable
  /\ (default "" (args !! "counsellorId") <> "" ->
      is_Some (py_int (default "100" (args !! "limit"))) ->
      list_counsellor_appointments str_other args w
        = (Response 200 (JAppointments []), w)).
Proof.
  intros Hdb unavailable. subst unavailable.
  unfold counsellor_start_appointment, counsellor_complete_appointment,
    counsellor_delete_appointment, counsellor_update_status,
    counsellor_reschedule, counsellor_appointment_insights,
    counsellor_upsert_availability_slot, counsellor_toggle_availability,
    counsellor_get_availability, counsellor_get_note, counsellor_put_note,
    list_counsellor_appointments, handler, bind.
  rewrite (run_db_ready_nodb _ Hdb). cbn [negb].
  repeat (split; [reflexivity |]).
  intros Hcid [n Hn]. rewrite Hn.
  destruct (String.eqb_spec (default "" (args !! "counsellorId")) ""); [contradiction |].
  rewrite (run_db_ready_nodb _ Hdb). reflexivity.
Qed.

(** *** Status updates *)

Lemma substring_of_self n b : substring_of n (n ++ b) = true.
Proof.
  assert (H : drop_prefix n (n ++ b) = Some b).
  { induction n as [| c n IH]; [reflexivity |].
    change (String c n ++ b) with (String c (n ++ b)). cbn [drop_prefix].
    rewrite Ascii.eqb_refl. exact IH. }
  destruct (n ++ b); cbn [substring_of]; rewrite H; reflexivity.
Qed.

Lemma substring_of_app a n b : substring_of n (a ++ n ++ b) = true.
Proof.
  induction a as [| c a IH].
  - change ("" ++ n ++ b) with (n ++ b). apply substring_of_self.
  - change (String c a ++ n ++ b) with (String c (a ++ n ++ b)). cbn [substring_of].
    destruct (drop_prefix n (String c (a ++ n ++ b))); [reflexivity | exact IH].
Qed.

Lemma substring_of_skip a n r :
  substring_of n r = true -> substring_of n (a ++ r) = true.
Proof.
  intros Hr. induction a as [| c a IH]; [exact Hr |].
  change (String c a ++ r) with (String c (a ++ r)). cbn [substring_of].
  destruct (drop_prefix n (String c (a ++ r))); [reflexivity | exact IH].
Qed.

Lemma string_app_nil_r (s : string) : s ++ "" = s.
Proof.
  induction s as [| c s IH]; [reflexivity |].
  change (String c s ++ "") with (String c (s ++ "")). rewrite IH. reflexivity.
Qed.

Lemma concat_cons (x : string) (l : list string) :
  String.concat "" (x :: l) = x ++ String.concat "" l.
Proof. destruct l; [symmetry; apply string_app_nil_r | reflexivity]. Qed.

(** A word that is one of the pieces of a concatenation occurs in it. *)
Lemma substring_of_concat n (l1 l2 : list string) :
  substring_of n (String.concat "" (l1 ++ n :: l2)%list) = true.
Proof.
  induction l1 as [| x l1 IH].
  - change ([] ++ n :: l2)%list with (n :: l2). rewrite concat_cons.
    apply substring_of_self.
  - change ((x :: l1) ++ n :: l2)%list with (x :: (l1 ++ n :: l2))%list.
    rewrite concat_cons. apply substring_of_skip, IH.
Qed.

Theorem update_status_validates_and_normalises
    (id : string) (data : doc) (s : string) (w : world) (st : store) :
  db w = Some st ->
  py_or (dget data "status") (VStr "") = VStr s ->
  (str_in (py_lower s) valid_statuses = false ->
   counsellor_update_status str_other id data w
     = (Response 400 (JError "Invalid status"), w))
  /\ (forall appt : doc,
        str_in (py_lower s) valid_statuses = true ->
        truthy (dget data "counsellorId") = true ->
        appointments st !! id = Some appt ->
        py_eqb (dget appt "counsellorId") (dget data "counsellorId") = true ->
        truthy (student_id_of appt) = true ->
        failing w Appointments Read = false ->
        failing w Appointments Write = false ->
        failing w Notifications Write = false ->
        smtp_port_ok w ->
        exists (wf : world) (st' : store) (appt' note : doc) (text : string),
          counsellor_update_status str_other id data w = (Response 200 JSuccess, wf)
          /\ db wf = Some st'
          /\ appointments st' !! id = Some appt'
          /\ appt' !! "status" = Some (VStr (py_lower s))
          /\ (forall k, k <> "status" -> k <> "updatedAt" -> appt' !! k = appt !! k)
          /\ notifications st' = (notifications st ++ [note])%list
          /\ note !! "status" = Some (VStr (py_lower s))
          /\ note !! "body" = Some (VStr text)
          /\ substring_of (status_nice (py_lower s)) text = true)
  /\ py_lower "Approved" = "approved"
  /\ status_nice "approved" = "confirmed".
Proof.
  intros Hdb Hs. split; [| split; [| split; reflexivity]].
  - intros Hbad.
    unfold counsellor_update_status, handler, bind, lowered_status.
    rewrite (run_db_ready _ _ Hdb), Hs. cbn [negb].
    change (ret (py_lower s) w) with (Ok (py_lower s), w). cbv beta iota.
    rewrite Hbad. reflexivity.
  - intros appt Hok Hc Hl Hown Hsid Hr Hw Hn Hport.
    unfold counsellor_update_status.
    apply (returns_handler _ _ (fun p =>
      exists (wf : world) (st' : store) (appt' note : doc) (text : string),
        p = (Response 200 JSuccess, wf)
        /\ db wf = Some st'
        /\ appointments st' !! id = Some appt'
        /\ appt' !! "status" = Some (VStr (py_lower s))
        /\ (forall k, k <> "status" -> k <> "updatedAt" -> appt' !! k = appt !! k)
        /\ notifications st' = (notifications st ++ [note])%list
        /\ note !! "status" = Some (VStr (py_lower s))
        /\ note !! "body" = Some (VStr text)
        /\ substring_of (status_nice (py_lower s)) text = true)).
    apply returns_bind, (returns_eq _ _ _ _ _ (run_db_ready _ _ Hdb)). cbn [negb].
    apply returns_bind. unfold lowered_status. rewrite Hs. apply returns_ret.
    rewrite Hok, Hc. cbn [negb].
    apply returns_bind. eapply returns_eq.
    { rewrite (run_get_doc appointments_tbl _ _ _ Hdb).
      cbn [t_coll t_get appointments_tbl]. rewrite Hr. reflexivity. }
    cbn [t_get appointments_tbl]. rewrite Hl, Hown. cbn [negb].
    apply returns_bind. eapply returns_eq; [reflexivity |].
    apply returns_bind. eapply returns_eq.
    { apply (run_update_doc appointments_tbl id _ appt _ st); cbn; assumption. }
    apply returns_bind.
    apply returns_quiet; [apply lookup_user_email_quiet |].
    intros [email name] w1 Hs1.
    apply returns_bind.
    apply returns_quiet.
    { apply maybe_send_quiet. eapply smtp_port_ok_same; [exact Hs1 |]. exact Hport. }
    intros _ w2 Hs2.
    pose proof (same_setting_trans _ _ _ Hs1 Hs2) as (Hdb2 & Hf2 & _).
    cbn [db set_db log tick failing] in Hdb2, Hf2.
    apply returns_bind. eapply returns_eq.
    { unfold try_except, bind, db_ready. rewrite Hdb2, Hsid. cbn [andb when].
      unfold now. rewrite (run_add_notification _ (tick w2) _ Hdb2).
      cbn [failing tick]. rewrite Hf2, Hn. reflexivity. }
    apply returns_ret.
    eexists _, _, _, _, _. split; [reflexivity |].
    cbn [db set_db]. split; [reflexivity |].
    cbn [appointments set_notifications t_set appointments_tbl set_appointments
         notifications].
    split; [apply lookup_insert_eq |].
    split.
    { apply lookup_union_Some_l, lookup_insert_eq. }
    split.
    { intros k Hk1 Hk2. rewrite lookup_union_r; [reflexivity |].
      rewrite lookup_insert_ne by congruence. apply lookup_singleton_ne. congruence. }
    split; [reflexivity |].
    split; [reflexivity |].
    split; [reflexivity |].
    apply (substring_of_concat _ [_; _; _; _; _] [_]).
Qed.

(** *** Deleting an appointment *)

(** The slot-freeing step never raises.  When the slot exists and both store
    calls succeed it overwrites the four fields; when a call fails the
    store is left as it was. *)
Lemma run_free_slot (c d t : string) (slot : doc) (w : world) (st : store) :
  db w = Some st ->
  c <> "" -> d <> "" -> t <> "" ->
  slots st !! (c, d, t) = Some slot ->
  exists w',
    free_slot str_other (VStr c) (VStr d) (VStr t) w = (Ok tt, w')
    /\ failing w' = failing w /\ smtp w' = smtp w
    /\ db w' = Some (if failing w Slots Read || failing w Slots Write then st
                     else set_slots
                            (insert (c, d, t)
                               (freed_fields (clock w (ticks w) + tz_offset w) ∪ slot)) st).
Proof.
  intros Hdb Hc Hd Ht Hl. unfold free_slot.
  assert (Htr : truthy (VStr d) && truthy (VStr t) && truthy (VStr c) = true).
  { cbn [truthy]. apply String.eqb_neq in Hc, Hd, Ht. rewrite Hc, Hd, Ht. reflexivity. }
  rewrite Htr. cbn [when]. unfold try_except, bind, slot_path. cbn [py_str].
  rewrite (run_get_doc slots_tbl _ _ _ Hdb). cbn [t_coll t_get slots_tbl].
  destruct (failing w Slots Read) eqn:Hr; cbn [orb].
  { eexists. split; [reflexivity |]. repeat split. exact Hdb. }
  rewrite Hl. unfold now.
  unfold update_doc, store_call. cbn. rewrite Hdb, Hl.
  destruct (failing w Slots Write) eqn:Hw.
  - eexists. split; [reflexivity |]. repeat split. cbn. exact Hdb.
  - eexists. split; [reflexivity |]. repeat split.
Qed.

(** Writing the notification is attempted and its failure ignored; either
    way only the notifications can have changed. *)
Lemma run_notify_best_effort (cond : bool) (mk : Z -> doc) (w : world) (st : store) :
  db w = Some st ->
  exists w' st',
    when cond (try_except (bind now (fun t => add_notification (mk t))) (ret tt)) w
      = (Ok tt, w')
    /\ failing w' = failing w /\ db w' = Some st'
    /\ appointments st' = appointments st /\ slots st' = slots st.
Proof.
  intros Hdb. destruct cond; cbn [when].
  2: { eexists _, _. split; [reflexivity |]. repeat split. exact Hdb. }
  unfold try_except, bind, now.
  rewrite (run_add_notification _ (tick w) _ Hdb). cbn [failing tick].
  destruct (failing w Notifications Write).
  - eexists _, _. split; [reflexivity |]. repeat split. exact Hdb.
  - eexists _, _. split; [reflexivity |]. repeat split.
Qed.

(** C5. Deleting an appointment one owns, on a store where the appointment
    itself can be read and deleted, returns success and removes the
    appointment whatever happens to the slot step.  When the slot of the
    appointment exists and the slot calls go through, the slot ends with
    [booked = false] and [bookedBy], [sessionId] null (only these and
    [updatedAt] change, other slots are untouched); when a slot call fails
    the failure is swallowed and the slots stay as they were. *)
Theorem delete_frees_slot_and_swallows_failure
    (id : string) (data appt : doc) (c d t : string) (slot : doc)
    (w : world) (st : store) :
  db w = Some st ->
  truthy (dget data "counsellorId") = true ->
  appointments st !! id = Some appt ->
  py_eqb (dget appt "counsellorId") (dget data "counsellorId") = true ->
  failing w Appointments Read = false ->
  failing w Appointments Write = false ->
  smtp_port_ok w ->
  appt !! "counsellorId" = Some (VStr c) ->
  appt !! "appointmentDate" = Some (VStr d) ->
  appt !! "appointmentTime" = Some (VStr t) ->
  c <> "" -> d <> "" -> t <> "" ->
  slots st !! (c, d, t) = Some slot ->
  exists (wf : world) (st' : store),
    counsellor_delete_appointment str_other id data w = (Response 200 JSuccess, wf)
    /\ db wf = Some st'
    /\ appointments st' !! id = None
    /\ (failing w Slots Read || failing w Slots Write = true -> slots st' = slots st)
    /\ (failing w Slots Read || failing w Slots Write = false ->
        exists slot' : doc,
          slots st' !! (c, d, t) = Some slot'
          /\ slot' !! "booked" = Some (VBool false)
          /\ slot' !! "bookedBy" = Some VNull
          /\ slot' !! "sessionId" = Some VNull
          /\ (forall k, k <> "booked" -> k <> "bookedBy" -> k <> "sessionId" ->
                        k <> "updatedAt" -> slot' !! k = slot !! k)
          /\ (forall k', k' <> (c, d, t) -> slots st' !! k' = slots st !! k')).
Proof.
  intros Hdb Hc Hl Hown Hr Hw Hport Hac Had Hat Hce Hde Hte Hsl.
  unfold counsellor_delete_appointment.
  apply (returns_handler _ _ (fun p => exists (wf : world) (st' : store),
    p = (Response 200 JSuccess, wf) /\ db wf = Some st' /\ _)).
  apply returns_bind, (returns_eq _ _ _ _ _ (run_db_ready _ _ Hdb)). cbn [negb].
  rewrite Hc. cbn [negb].
  apply returns_bind. eapply returns_eq.
  { rewrite (run_get_doc appointments_tbl _ _ _ Hdb).
    cbn [t_coll t_get appointments_tbl]. rewrite Hr. reflexivity. }
  cbn [t_get appointments_tbl]. rewrite Hl, Hown. cbn [negb].
  assert (Ec : dget appt "counsellorId" = VStr c) by (unfold dget; rewrite Hac; reflexivity).
  assert (Ed : dget appt "appointmentDate" = VStr d) by (unfold dget; rewrite Had; reflexivity).
  assert (Et : dget appt "appointmentTime" = VStr t) by (unfold dget; rewrite Hat; reflexivity).
  rewrite Ec, Ed, Et.
  destruct (run_free_slot c d t slot (log (Appointments, Read) w) st Hdb Hce Hde Hte Hsl)
    as (w1 & E1 & Hf1 & Hsm1 & Hdb1).
  cbn [failing log clock ticks tz_offset smtp] in Hf1, Hsm1, Hdb1.
  apply returns_bind. eapply returns_eq; [exact E1 |].
  apply returns_bind.
  apply returns_quiet; [apply lookup_user_email_quiet |].
  intros [email name] w2 Hs2.
  apply returns_bind.
  apply returns_quiet.
  { apply maybe_send_quiet. eapply smtp_port_ok_same; [exact Hs2 |].
    unfold smtp_port_ok. rewrite Hsm1. exact Hport. }
  intros _ w3 Hs3.
  pose proof (same_setting_trans _ _ _ Hs2 Hs3) as (Hdb3 & Hf3 & _).
  rewrite Hdb1 in Hdb3. rewrite Hf1 in Hf3.
  apply returns_bind.
  match goal with
  | |- returns (when _ (try_except (bind now ?k) _)) _ _ =>
      destruct (run_notify_best_effort (truthy (student_id_of appt))
                  (fun t' => {[ "userId" := student_id_of appt;
                     "type" := VStr "appointment_deleted";
                     "title" := VStr "Appointment cancelled";
                     "body" := VStr (String.concat ""
                         [ "Your session on "; py_str str_other (py_or (VStr d) (VStr ""));
                           " at "; py_str str_other (py_or (VStr t) (VStr ""));
                           " was cancelled." ]);
                     "appointmentId" := VStr id;
                     "createdAt" := VTime t';
                     "read" := VBool false ]}) w3 _ Hdb3)
        as (w4 & st4 & E4 & Hf4 & Hdb4 & Hap4 & Hsl4)
  end.
  eapply returns_eq; [exact E4 |].
  apply returns_bind. eapply returns_eq.
  { apply (run_delete_doc appointments_tbl id w4 st4 Hdb4).
    cbn [t_coll appointments_tbl]. rewrite Hf4, Hf3. exact Hw. }
  apply returns_ret.
  eexists _, _. split; [reflexivity |].
  cbn [db set_db]. split; [reflexivity |].
  cbn [t_set appointments_tbl set_appointments appointments slots].
  split; [apply lookup_delete_eq |].
  rewrite Hsl4.
  split.
  - intros Hfail. rewrite Hfail. reflexivity.
  - intros Hfine. rewrite Hfine. cbn [slots set_slots].
    eexists. split; [apply lookup_insert_eq |].
    split; [apply lookup_union_Some_l; reflexivity |].
    split; [apply lookup_union_Some_l; reflexivity |].
    split; [apply lookup_union_Some_l; reflexivity |].
    split.
    + intros k K1 K2 K3 K4. rewrite lookup_union_r; [reflexivity |].
      unfold freed_fields.
      rewrite !lookup_insert_ne by congruence. apply lookup_singleton_ne. congruence.
    + intros k' Hk'. apply lookup_insert_ne. congruence.
Qed.

(** *** Toggling a slot *)

Lemma run_set_doc {K} `{Countable K} (t : table K) (k : K) (fields : doc)
    (w : world) (st : store) :
  db w = Some st ->
  failing w (t_coll t) Write = false ->
  set_doc t k fields w =
    (Ok tt, set_db (Some (t_set t (insert k fields) st)) (log (t_coll t, Write) w)).
Proof.
  intros Hdb Hf. unfold set_doc, store_call. cbn. rewrite Hdb, Hf. reflexivity.
Qed.

(** C10. Toggling a slot that already exists rewrites [active] and
    [updatedAt] and nothing else: every other field, [booked], [bookedBy]
    and [sessionId] among them, keeps its value, and no other slot changes.
    Only when the slot did not exist is it created, with [booked = false]. *)
Theorem toggle_changes_only_active_and_updatedAt
    (data : doc) (w : world) (st : store) :
  db w = Some st ->
  truthy (dget data "counsellorId") = true ->
  truthy (dget data "dateKey") = true ->
  truthy (dget data "time") = true ->
  failing w Slots Read = false ->
  failing w Slots Write = false ->
  let key := slot_path str_other (dget data "counsellorId") (dget data "dateKey")
               (dget data "time") in
  exists (wf : world) (st' : store) (slot' : doc),
    counsellor_toggle_availability str_other data w = (Response 200 JSuccess, wf)
    /\ db wf = Some st'
    /\ slots st' !! key = Some slot'
    /\ slot' !! "active" = Some (VBool (truthy (dget data "active")))
    /\ (forall k', k' <> key -> slots st' !! k' = slots st !! k')
    /\ match slots st !! key with
       | Some slot =>
           (forall k, k <> "active" -> k <> "updatedAt" -> slot' !! k = slot !! k)
           /\ slot' !! "booked" = slot !! "booked"
           /\ slot' !! "bookedBy" = slot !! "bookedBy"
           /\ slot' !! "sessionId" = slot !! "sessionId"
       | None =>
           slot' !! "booked" = Some (VBool false)
           /\ slot' !! "time" = Some (dget data "time")
       end.
Proof.
  intros Hdb Hc Hd Ht Hr Hw key.
  unfold counsellor_toggle_availability.
  apply (returns_handler _ _ (fun p => exists (wf : world) (st' : store) (slot' : doc),
    p = (Response 200 JSuccess, wf) /\ db wf = Some st' /\ _)).
  apply returns_bind, (returns_eq _ _ _ _ _ (run_db_ready _ _ Hdb)). cbn [negb].
  rewrite Hc, Hd, Ht. cbn [negb orb]. fold key.
  apply returns_bind. eapply returns_eq.
  { rewrite (run_get_doc slots_tbl _ _ _ Hdb).
    cbn [t_coll t_get slots_tbl]. rewrite Hr. reflexivity. }
  cbn [t_get slots_tbl].
  assert (Hframe : forall (fields slot : doc) (k : string),
            k <> "active" -> k <> "updatedAt" ->
            forall a u, ({[ "active" := a; "updatedAt" := u ]} ∪ slot) !! k = slot !! k).
  { intros fields slot k K1 K2 a u. rewrite lookup_union_r; [reflexivity |].
    rewrite lookup_insert_ne by congruence. apply lookup_singleton_ne. congruence. }
  destruct (slots st !! key) as [slot |] eqn:Hl.
  - apply returns_bind, returns_ret.
    apply returns_bind. eapply returns_eq; [reflexivity |].
    apply returns_bind. eapply returns_eq.
    { apply (run_update_doc slots_tbl key _ slot _ st); cbn; assumption. }
    apply returns_ret.
    eexists _, _, _. split; [reflexivity |].
    cbn [db set_db]. split; [reflexivity |].
    cbn [t_set slots_tbl set_slots slots].
    split; [apply lookup_insert_eq |].
    split; [apply lookup_union_Some_l, lookup_insert_eq |].
    split; [intros k' Hk'; apply lookup_insert_ne; congruence |].
    split; [intros k K1 K2; apply (Hframe ∅); assumption |].
    repeat split; apply (Hframe ∅); discriminate.
  - apply returns_bind. eapply returns_eq.
    { apply (run_set_doc slots_tbl key _ _ st); cbn; assumption. }
    apply returns_bind. eapply returns_eq; [reflexivity |].
    apply returns_bind. eapply returns_eq.
    { eapply (run_update_doc slots_tbl key _ _ _ _); cbn; try assumption; try reflexivity.
      apply lookup_insert_eq. }
    apply returns_ret.
    eexists _, _, _. split; [reflexivity |].
    cbn [db set_db]. split; [reflexivity |].
    cbn [t_set slots_tbl set_slots slots].
    split; [apply lookup_insert_eq |].
    split; [apply lookup_union_Some_l, lookup_insert_eq |].
    split.
    { intros k' Hk'. rewrite !lookup_insert_ne by congruence. reflexivity. }
    split.
    + rewrite (Hframe ∅) by discriminate. rewrite lookup_insert_ne by discriminate.
      apply lookup_singleton_eq.
    + rewrite (Hframe ∅) by discriminate. apply lookup_insert_eq.
Qed.

(** *** Sorting *)

Section Sorting.
Context {A : Type} (le : A -> A -> bool) (R : A -> A -> Prop).
Hypothesis le_R : forall x y, le x y = true -> R x y.
Hypothesis le_total : forall x y, le x y = false -> R y x.
Context `{!Transitive R}.

Lemma insert_by_perm (x : A) (l : list A) : insert_by le x l ≡ₚ x :: l.
Proof.
  induction l as [| y l IH]; cbn [insert_by]; [reflexivity |].
  destruct (le x y); [reflexivity |].
  rewrite IH. apply Permutation_swap.
Qed.

Lemma sort_by_perm (l : list A) : sort_by le l ≡ₚ l.
Proof.
  induction l as [| x l IH]; [reflexivity |].
  cbn [sort_by fold_right]. fold (sort_by le l).
  rewrite insert_by_perm, IH. reflexivity.
Qed.

Lemma insert_by_sorted (x : A) (l : list A) :
  StronglySorted R l -> StronglySorted R (insert_by le x l).
Proof.
  induction l as [| y l IH]; intros Hl; cbn [insert_by].
  - repeat constructor.
  - destruct (le x y) eqn:E.
    + apply StronglySorted_cons. split; [| exact Hl].
      apply StronglySorted_cons in Hl as [Hy _].
      constructor; [apply le_R, E |].
      eapply Forall_impl; [exact Hy |]. intros z Hz.
      transitivity y; [apply le_R, E | exact Hz].
    + apply StronglySorted_cons in Hl as [Hy Hl].
      apply StronglySorted_cons. split; [| apply IH, Hl].
      rewrite insert_by_perm. constructor; [apply le_total, E | exact Hy].
Qed.

Lemma sort_by_sorted (l : list A) : StronglySorted R (sort_by le l).
Proof.
  induction l as [| x l IH]; [constructor |].
  cbn [sort_by fold_right]. apply insert_by_sorted, IH.
Qed.

End Sorting.

(** *** Listing the slots of a day *)

Lemma elem_of_stream_ids {K} `{Countable K} (id_of : K -> string) (m : gmap K doc)
    (x : string * doc) :
  In x (stream_ids id_of m) <-> exists k, id_of k = x.1 /\ m !! k = Some x.2.
Proof.
  unfold stream_ids.
  rewrite <- list_elem_of_In, sort_by_perm, list_elem_of_In, in_map_iff.
  split.
  - intros ([k v] & <- & Hin). exists k. split; [reflexivity |].
    apply list_elem_of_In, elem_of_map_to_list in Hin. exact Hin.
  - intros (k & Hk & Hl). exists (k, x.2). split.
    + cbn. rewrite Hk. destruct x; reflexivity.
    + apply list_elem_of_In, elem_of_map_to_list. exact Hl.
Qed.

(** The slots streamed for a day are exactly the slot documents stored under
    that counsellor and date. *)
Lemma elem_of_day_slots (st : store) (c d t : string) (v : doc) :
  In (t, v) (stream_ids (fun k : slot_key => k.2)
                (filter (fun kd : slot_key * doc => kd.1.1.1 = c /\ kd.1.1.2 = d) (slots st)))
  <-> slots st !! (c, d, t) = Some v.
Proof.
  rewrite elem_of_stream_ids. cbn [fst snd]. split.
  - intros ([[c' d'] t'] & Ht & Hl). cbn in Ht. subst t'.
    apply map_lookup_filter_Some in Hl as (Hl & Hc & Hd). cbn in Hc, Hd. subst. exact Hl.
  - intros Hl. exists (c, d, t). split; [reflexivity |].
    apply map_lookup_filter_Some. split; [exact Hl | split; reflexivity].
Qed.

Lemma replace_dots_no_dot (s : string) : substring_of "." (replace_dots s) = false.
Proof.
  induction s as [| ch s IH]; [reflexivity |].
  cbn [replace_dots str_map]. fold (replace_dots s).
  cbn [substring_of drop_prefix]. unfold dot_to_colon at 1.
  destruct (Ascii.eqb ch ".") eqn:E.
  - cbn. exact IH.
  - rewrite Ascii.eqb_sym, E. exact IH.
Qed.

(** The time of a listed slot and the key it is sorted by. *)
Lemma slot_item_time (t : string) (v : doc) :
  slot_item str_other (t, v) !! "time"
    = Some (VStr (norm_time str_other (py_or (dget v "time") (VStr t))))
  /\ time_key str_other (slot_item str_other (t, v))
       = norm_time str_other (py_or (dget v "time") (VStr t)).
Proof.
  unfold slot_item. cbn [fst snd].
  assert (E1 : dget (<[ "id" := VStr t ]> v) "time" = dget v "time").
  { unfold dget. rewrite lookup_insert_ne by discriminate. reflexivity. }
  assert (E2 : dget (<[ "id" := VStr t ]> v) "id" = VStr t).
  { unfold dget. rewrite lookup_insert_eq. reflexivity. }
  rewrite E1, E2. split; [apply lookup_insert_eq |].
  unfold time_key, dget. rewrite lookup_insert_eq. cbn [default].
  set (n := norm_time str_other _). unfold py_or.
  cbn [default from_option id truthy].
  destruct (String.eqb_spec n "") as [E | E]; cbn [negb py_str];
    [symmetry; exact E | reflexivity].
Qed.

(** C8. The availability listing of a day answers 200 with the day's slot
    documents, each with its id and its time normalised, in ascending
    lexicographic order of the normalised time.  The normalised time is the
    stored time, or the document key when the stored time is missing or
    empty, printed, stripped of surrounding white space and with every dot
    replaced by a colon. *)
Theorem availability_sorted_by_normalised_time
    (args : gmap string string) (c d : string) (w : world) (st : store) :
  db w = Some st ->
  args !! "counsellorId" = Some c ->
  args !! "dateKey" = Some d ->
  c <> "" -> d <> "" ->
  failing w Slots Read = false ->
  exists (items : list doc) (day : list (string * doc)),
    counsellor_get_availability str_other args w
      = (Response 200 (JSlots items), log (Slots, Read) w)
    /\ (forall t v, In (t, v) day <-> slots st !! (c, d, t) = Some v)
    /\ items ≡ₚ map (slot_item str_other) day
    /\ StronglySorted
         (fun x y => String.leb (time_key str_other x) (time_key str_other y) = true) items
    /\ (forall t v,
          let shown := if truthy (dget v "time") then dget v "time" else VStr t in
          slot_item str_other (t, v) !! "time"
            = Some (VStr (replace_dots (py_strip (py_str str_other shown))))
          /\ time_key str_other (slot_item str_other (t, v))
            = replace_dots (py_strip (py_str str_other shown))
          /\ substring_of "." (replace_dots (py_strip (py_str str_other shown))) = false)
    /\ norm_time str_other (VStr "9.30") = "9:30".
Proof.
  intros Hdb Hc Hd Hce Hde Hr.
  unfold counsellor_get_availability, handler, bind.
  rewrite (run_db_ready _ _ Hdb), Hc, Hd. cbn [negb default from_option id].
  apply String.eqb_neq in Hce, Hde. rewrite Hce, Hde. cbn [orb].
  unfold stream_slots, store_call. cbn [db log failing]. rewrite Hdb, Hr.
  eexists _, _. split.
  { unfold ret. f_equal. destruct w; cbn in *; subst; reflexivity. }
  split; [intros t v; apply elem_of_day_slots |].
  split; [apply sort_by_perm |].
  split.
  { apply (sort_by_sorted _ _).
    - intros x y E. exact E.
    - intros x y E.
      destruct (String.leb_total (time_key str_other x) (time_key str_other y)) as [E' | E'];
        [congruence | exact E'].
    - intros x y z Hxy Hyz. apply Is_true_true.
      transitivity (time_key str_other y); apply Is_true_true; assumption. }
  split.
  { intros t v.
    set (shown := if truthy (dget v "time") then dget v "time" else VStr t).
    destruct (slot_item_time t v) as [E1 E2].
    assert (En : norm_time str_other (py_or (dget v "time") (VStr t))
                 = replace_dots (py_strip (py_str str_other shown))).
    { unfold norm_time, shown, py_or.
      destruct (truthy (dget v "time")) eqn:Et.
      - rewrite Et. reflexivity.
      - cbn [truthy]. destruct (negb (String.eqb t "")) eqn:Ee; [reflexivity |].
        apply negb_false_iff, String.eqb_eq in Ee. subst t. reflexivity. }
    rewrite E1, E2, En. repeat split. apply replace_dots_no_dot. }
  vm_compute. reflexivity.
Qed.

(** *** Chat sentiment scores *)

Lemma chat_norm_inside (fs : Q) :
  (-1 <= fs)%Q -> (fs <= 1)%Q -> chat_norm fs = ((fs + 1) / 2 * 100)%Q.
Proof.
  intros H1 H2. unfold chat_norm.
  apply Qle_bool_iff in H1, H2. rewrite H1, H2. reflexivity.
Qed.

Lemma chat_norm_outside (fs : Q) :
  ~ ((-1 <= fs)%Q /\ (fs <= 1)%Q) -> chat_norm fs = fs.
Proof.
  intros H. unfold chat_norm.
  destruct (Qle_bool (-1) fs) eqn:E1; [| reflexivity].
  destruct (Qle_bool fs 1) eqn:E2; [| reflexivity].
  exfalso. apply H. split; apply Qle_bool_iff; assumption.
Qed.

Lemma rescaled_affine (fs : Q) : ((fs + 1) / 2 * 100 == 50 * fs + 50)%Q.
Proof. field. Qed.

(** C9 (as amended). In the fallback path a chat record dated inside the
    window whose sentiment score reads as the number [fs] adds [chat_norm fs]
    to the sum of its day and one to its count.  For [-1 <= fs <= 1] that
    value is [(fs + 1) / 2 * 100], the linear rescaling of [-1, 1] onto
    [0, 100], whatever scale the score was recorded on: a score between 0 and
    1 therefore lands between 50 and 100.  Outside [-1, 1] the score is added
    as it is. *)
Theorem chat_score_rescaled_from_minus_one_one
    (start t : Z) (d : doc) (sent : gmap string atom) (sc : atom) (fs : Q) (b : buckets) :
  sample_time "timestamp" d = VTime t ->
  (start <= t)%Z ->
  py_or (dget d "sentiment") (VMap ∅) = VMap sent ->
  sent !! "score" = Some sc ->
  py_float float_of_str (value_of_atom sc) = Some fs ->
  chats_body float_of_str start d b
    = Next (Buckets
              (<[ date_of t := (default 0 (daily b !! date_of t) + chat_norm fs)%Q ]> (daily b))
              (<[ date_of t := (default 0 (counts b !! date_of t) + 1)%nat ]> (counts b)))
  /\ ((-1 <= fs)%Q -> (fs <= 1)%Q ->
      chat_norm fs = ((fs + 1) / 2 * 100)%Q
      /\ (chat_norm fs == linear_rescale (-1) 1 fs)%Q
      /\ (0 <= chat_norm fs)%Q /\ (chat_norm fs <= 100)%Q)
  /\ ((0 <= fs)%Q -> (fs <= 1)%Q -> (50 <= chat_norm fs)%Q /\ (chat_norm fs <= 100)%Q)
  /\ (~ ((-1 <= fs)%Q /\ (fs <= 1)%Q) -> chat_norm fs = fs).
Proof.
  intros Hts Hwin Hsent Hsc Hfs. split; [| split; [| split]].
  - unfold chats_body, to_naive_utc. unfold sample_time in Hts. rewrite Hts, Hsent, Hsc.
    cbn [fmap option_fmap option_map default from_option id]. rewrite Hfs.
    unfold add_point. cbn [py_ltb num_of py_float].
    assert (E : (t <? start)%Z = false) by (apply Z.ltb_ge; exact Hwin).
    rewrite E. reflexivity.
  - intros H1 H2. rewrite (chat_norm_inside fs H1 H2). unfold linear_rescale.
    split; [reflexivity |]. split; [field |].
    rewrite rescaled_affine. split; lra.
  - intros H1 H2. assert (H0 : (-1 <= fs)%Q) by lra.
    rewrite (chat_norm_inside fs H0 H2), rescaled_affine. split; lra.
  - apply chat_norm_outside.
Qed.

(** *** Insights: the scans *)














Lemma bind_eq {A B} (c : M A) (k : A -> M B) (w w' : world) (a : A) :
  c w = (Ok a, w') -> bind c k w = k a w'.
Proof. intros E. unfold bind. rewrite E. reflexivity. Qed.






(** *** Insights: counting the primary points *)



(** *** Insights: the handler *)



(** *** Insights: the trend *)






(** *** What a computation leaves alone *)

Section Frame.
Context (R : world -> world -> Prop) `{!PreOrder R}.

Lemma preserves_ret {A} (a : A) : preserves R (ret a).
Proof. intros w. reflexivity. Qed.

Lemma preserves_raise {A} : preserves R (@raise A).
Proof. intros w. reflexivity. Qed.

Lemma preserves_bind {A B} (c : M A) (k : A -> M B) :
  preserves R c -> (forall a, preserves R (k a)) -> preserves R (bind c k).
Proof.
  intros Hc Hk w. unfold bind. specialize (Hc w).
  destruct (c w) as [[a |] w']; cbn [snd] in *; [| exact Hc].
  transitivity w'; [exact Hc | apply Hk].
Qed.

Lemma preserves_try {A} (c h : M A) :
  preserves R c -> preserves R h -> preserves R (try_except c h).
Proof.
  intros Hc Hh w. unfold try_except. specialize (Hc w).
  destruct (c w) as [[a |] w']; cbn [snd] in *; [exact Hc |].
  transitivity w'; [exact Hc | apply Hh].
Qed.

Lemma preserves_when (cond : bool) (c : M unit) :
  preserves R c -> preserves R (when cond c).
Proof. intros Hc. destruct cond; [exact Hc | apply preserves_ret]. Qed.

Lemma preserves_try_scan {A} (q : M (list doc)) (body : doc -> A -> step A) (a : A) :
  preserves R q -> preserves R (try_scan q body a).
Proof.
  intros Hq. unfold try_scan. apply preserves_try; [| apply preserves_ret].
  apply preserves_bind; [exact Hq |]. intros docs. apply preserves_ret.
Qed.

Lemma preserves_db_ready : preserves R db_ready.
Proof. intros w. reflexivity. Qed.

Lemma preserves_handler (c : M response) (w : world) :
  preserves R c -> R w (handler c w).2.
Proof.
  intros Hc. unfold handler. specialize (Hc w).
  destruct (c w) as [[r |] w']; exact Hc.
Qed.

(** A store call preserves what its logging preserves and its effect on the
    store preserves. *)
Lemma preserves_store_call {A} (c : coll) (a : access) (f : store -> outcome A * store) :
  (forall w, R w (log (c, a) w)) ->
  (forall w s, db w = Some s -> R w (set_db (Some (f s).2) w)) ->
  preserves R (store_call c a f).
Proof.
  intros Hlog Hset w. unfold store_call.
  destruct (db (log (c, a) w)) as [s |] eqn:Hdb; cbn [snd]; [| apply Hlog].
  destruct (failing (log (c, a) w) c a); cbn [snd]; [apply Hlog |].
  specialize (Hset (log (c, a) w) s Hdb).
  destruct (f s) as [r s']; cbn [snd] in *.
  transitivity (log (c, a) w); [apply Hlog | exact Hset].
Qed.

End Frame.

Lemma set_db_same (w : world) (s : store) :
  db w = Some s -> set_db (Some s) w = w.
Proof. intros Hdb. destruct w; cbn in *; subst; reflexivity. Qed.

#[local] Instance untouched_preorder : PreOrder untouched.
Proof.
  split.
  - intros w. split; reflexivity.
  - intros w1 w2 w3 [H1 H2] [H3 H4]. split; congruence.
Qed.

#[local] Instance keeps_preorder {X} (proj : store -> X) : PreOrder (keeps proj).
Proof.
  split.
  - intros w. reflexivity.
  - intros w1 w2 w3 H1 H2. unfold keeps in *. congruence.
Qed.

#[local] Instance no_mail_preorder : PreOrder no_mail.
Proof.
  split.
  - intros w. reflexivity.
  - intros w1 w2 w3 H1 H2. unfold no_mail in *. congruence.
Qed.

(** Steps through the structure of a computation, leaving the store calls
    and clock readings to [base]. *)
Ltac frame_step base :=
  lazymatch goal with
  | |- preserves _ (ret _) => refine (preserves_ret _ _)
  | |- preserves _ raise => refine (preserves_raise _)
  | |- preserves _ db_ready => refine (preserves_db_ready _)
  | |- preserves _ (bind _ _) => refine (preserves_bind _ _ _ _ _); [| intros ?]
  | |- preserves _ (try_except _ _) => refine (preserves_try _ _ _ _ _)
  | |- preserves _ (when _ _) => refine (preserves_when _ _ _ _)
  | |- preserves _ (try_scan _ _ _) => refine (preserves_try_scan _ _ _ _ _)
  | |- preserves _ (let _ := _ in _) => cbv zeta
  | |- preserves _ (if ?b then _ else _) => destruct b
  | |- preserves _ (match ?x with _ => _ end) => destruct x
  | |- preserves _ _ => base
  end.

Ltac frame base := repeat frame_step base.

(** *** Reads change nothing *)

Lemma untouched_read {A} (c : coll) (g : store -> outcome A) :
  preserves untouched (store_call c Read (fun s => (g s, s))).
Proof.
  refine (preserves_store_call _ _ _ _ _ _).
  - intros w. split; reflexivity.
  - intros w s Hdb. cbn [snd]. rewrite (set_db_same w s Hdb). reflexivity.
Qed.

Lemma untouched_get_doc {K} `{Countable K} (t : table K) (k : K) :
  preserves untouched (get_doc t k).
Proof. apply (untouched_read _ (fun s => Ok (t_get t s !! k))). Qed.

Lemma untouched_stream_where (c : coll) (f : string) (v : value) :
  preserves untouched (stream_where c f v).
Proof.
  apply (untouched_read _
    (fun s => Ok (List.filter (fun d => fs_eqb (dget d f) v) (docs_of c s)))).
Qed.

Lemma untouched_stream_slots (c d : string) : preserves untouched (stream_slots c d).
Proof.
  apply (untouched_read _
    (fun s => Ok (stream_ids (fun k : slot_key => k.2)
                    (filter (fun kd : slot_key * doc => kd.1.1.1 = c /\ kd.1.1.2 = d)
                       (slots s))))).
Qed.

Lemma untouched_stream_appointments (c : string) (n : Z) :
  preserves untouched (stream_appointments c n).
Proof.
  intros w. unfold stream_appointments.
  assert (E : (fun s : store =>
             if (n <? 0)%Z then (@Exn (list (string * doc)), s)
             else (Ok (take (Z.to_nat n)
                     (List.filter (fun d => fs_eqb (dget d.2 "counsellorId") (VStr c))
                        (stream_ids id (appointments s)))), s))
           = (fun s => (if (n <? 0)%Z then Exn
                        else Ok (take (Z.to_nat n)
                          (List.filter (fun d => fs_eqb (dget d.2 "counsellorId") (VStr c))
                             (stream_ids id (appointments s)))), s))).
  { destruct (n <? 0)%Z; reflexivity. }
  rewrite E. apply untouched_read.
Qed.

Lemma untouched_clock : preserves untouched utcnow /\ preserves untouched now.
Proof. split; intros w; split; reflexivity. Qed.

Ltac reads :=
  first [ apply untouched_get_doc | apply untouched_stream_where
        | apply untouched_stream_slots | apply untouched_stream_appointments
        | apply (proj1 untouched_clock) | apply (proj2 untouched_clock) ].

(** X1. The four query endpoints are read-only: for every request, with or
    without a store client and whatever store call fails, the appointment
    listing, the availability listing, the insights and the note look-up
    leave the store exactly as it was and send no mail. *)
Theorem query_endpoints_are_read_only
    (id cid : string) (args : gmap string string) (w : world) :
  untouched w (list_counsellor_appointments str_other args w).2
  /\ untouched w (counsellor_get_availability str_other args w).2
  /\ untouched w (counsellor_appointment_insights str_other float_of_str id args w).2
  /\ untouched w (counsellor_get_note id cid w).2.
Proof.
  split; [| split; [| split]].
  - apply (preserves_handler untouched). frame reads.
  - apply (preserves_handler untouched). frame reads.
  - apply (preserves_handler untouched).
    unfold fallback_sources, scan_assessments. frame reads.
  - apply (preserves_handler untouched). frame reads.
Qed.

(** *** Writes change only their own collection *)

Section Keeps.
Context {X : Type} (proj : store -> X).

Lemma keeps_read {A} (c : coll) (g : store -> outcome A) :
  preserves (keeps proj) (store_call c Read (fun s => (g s, s))).
Proof.
  refine (preserves_store_call _ _ _ _ _ _).
  - intros w. reflexivity.
  - intros w s Hdb. cbn [snd]. rewrite (set_db_same w s Hdb). reflexivity.
Qed.

Lemma keeps_get_doc {K} `{Countable K} (t : table K) (k : K) :
  preserves (keeps proj) (get_doc t k).
Proof. apply (keeps_read _ (fun s => Ok (t_get t s !! k))). Qed.

Lemma keeps_clock : preserves (keeps proj) utcnow /\ preserves (keeps proj) now.
Proof. split; intros w; reflexivity. Qed.

Lemma keeps_send_email to_email subject html text :
  preserves (keeps proj) (send_email to_email subject html text).
Proof.
  intros w. unfold send_email.
  destruct (py_int _); [| reflexivity].
  destruct (negb _); [reflexivity |].
  destruct to_email; try reflexivity.
  destruct (smtp_failing w); reflexivity.
Qed.

(** A write to a table that [proj] does not look at. *)
Lemma keeps_write {A} (c : coll) (f : store -> outcome A * store) :
  (forall s, proj (f s).2 = proj s) ->
  preserves (keeps proj) (store_call c Write f).
Proof.
  intros Hf. refine (preserves_store_call _ _ _ _ _ _).
  - intros w. reflexivity.
  - intros w s Hdb. unfold keeps. cbn [db set_db]. rewrite Hdb. cbn. rewrite Hf. reflexivity.
Qed.

Section OtherTable.
Context {K : Type} `{Countable K} (t : table K).
Hypothesis apart : forall g s, proj (t_set t g s) = proj s.

Lemma keeps_update_doc (k : K) (fields : doc) :
  preserves (keeps proj) (update_doc t k fields).
Proof.
  apply keeps_write. intros s. destruct (t_get t s !! k); cbn [snd]; [apply apart | reflexivity].
Qed.

Lemma keeps_set_doc (k : K) (fields : doc) : preserves (keeps proj) (set_doc t k fields).
Proof. apply keeps_write. intros s. apply apart. Qed.

Lemma keeps_set_doc_merge (k : K) (fields : doc) :
  preserves (keeps proj) (set_doc_merge t k fields).
Proof. apply keeps_write. intros s. apply apart. Qed.

Lemma keeps_delete_doc (k : K) : preserves (keeps proj) (delete_doc t k).
Proof. apply keeps_write. intros s. apply apart. Qed.

End OtherTable.

Lemma keeps_add_notification (d : doc) :
  (forall g s, proj (set_notifications g s) = proj s) ->
  preserves (keeps proj) (add_notification d).
Proof. intros Hn. apply keeps_write. intros s. apply Hn. Qed.

End Keeps.

Lemma no_mail_store_call {A} (c : coll) (a : access) (f : store -> outcome A * store) :
  preserves no_mail (store_call c a f).
Proof. refine (preserves_store_call _ _ _ _ _ _); intros; reflexivity. Qed.

Lemma no_mail_clock : preserves no_mail utcnow /\ preserves no_mail now.
Proof. split; intros w; reflexivity. Qed.

(** Store calls and clock readings, for a part of the store other than the
    table written. *)
Ltac others :=
  first [ apply keeps_get_doc
        | apply (proj2 (keeps_clock _))
        | apply keeps_send_email
        | apply keeps_update_doc; reflexivity
        | apply keeps_set_doc; reflexivity
        | apply keeps_set_doc_merge; reflexivity
        | apply keeps_delete_doc; reflexivity
        | apply keeps_add_notification; reflexivity ].

Ltac mailless :=
  first [ apply no_mail_store_call | apply (proj2 no_mail_clock) ].

(** X2. Starting, completing, rescheduling an appointment and updating its
    status never touch the availability slots, for every request and
    whatever call fails; in particular a status update to [cancelled] does
    not free the slot, which only the delete endpoint does. *)
Theorem status_transitions_leave_slots_alone
    (op : transition) (id : string) (data : doc) (w : world) :
  op <> OpDelete ->
  keeps slots w (run_transition str_other op id data w).2.
Proof.
  intros Hop.
  destruct op; [| | | | contradiction]; cbn [run_transition];
    apply (preserves_handler (keeps slots));
    unfold lowered_status, lookup_user_email; frame others.
Qed.

(** X3. Starting or rescheduling an appointment, creating or toggling a
    slot and saving a note never write a notification and never send mail,
    for every request and whatever call fails. *)
Theorem quiet_endpoints_never_notify
    (id cid : string) (data : doc) (w : world) :
  let silent w' := keeps notifications w w' /\ no_mail w w' in
  silent (counsellor_start_appointment id data w).2
  /\ silent (counsellor_reschedule id data w).2
  /\ silent (counsellor_upsert_availability_slot str_other data w).2
  /\ silent (counsellor_toggle_availability str_other data w).2
  /\ silent (counsellor_put_note id cid data w).2.
Proof.
  cbv zeta. repeat split.
  1,3,5,7,9: apply (preserves_handler (keeps notifications)); frame others.
  all: apply (preserves_handler no_mail); frame mailless.
Qed.

(** *** What a successful transition writes *)

Lemma run_update_doc_failing {K} `{Countable K} (t : table K) (k : K) (fields : doc)
    (w : world) (st : store) :
  db w = Some st ->
  failing w (t_coll t) Write = true ->
  update_doc t k fields w = (Exn, log (t_coll t, Write) w).
Proof.
  intros Hdb Hf. unfold update_doc, store_call. cbn. rewrite Hdb, Hf. reflexivity.
Qed.

(** X4. Starting an appointment one owns rewrites its [status] to
    [in_progress] and its [updatedAt] to the time of the call and nothing
    else in the store; when the write is refused the answer is 500 and the
    store is as before. *)
Theorem start_writes_status_only
    (id : string) (data appt : doc) (w : world) (st : store) :
  db w = Some st ->
  truthy (dget data "counsellorId") = true ->
  appointments st !! id = Some appt ->
  py_eqb (dget appt "counsellorId") (dget data "counsellorId") = true ->
  failing w Appointments Read = false ->
  let t := (clock w (ticks w) + tz_offset w)%Z in
  let r := counsellor_start_appointment id data w in
  if failing w Appointments Write
  then r.1 = Response 500 (JError "Internal server error") /\ db r.2 = Some st
  else r.1 = Response 200 JSuccess
       /\ db r.2 = Some (set_appointments
                           (insert id ({[ "status" := VStr "in_progress";
                                          "updatedAt" := VTime t ]} ∪ appt)) st)
       /\ outbox r.2 = outbox w.
Proof.
  intros Hdb Hc Hl Hown Hr t r. subst r.
  unfold counsellor_start_appointment, handler.
  rewrite (bind_eq _ _ _ _ _ (run_db_ready _ _ Hdb)). cbn [negb]. rewrite Hc. cbn [negb].
  erewrite bind_eq.
  2: { rewrite (run_get_doc appointments_tbl _ _ _ Hdb).
       cbn [t_coll t_get appointments_tbl]. rewrite Hr, Hl. reflexivity. }
  cbv beta iota. rewrite Hown. cbn [negb].
  rewrite (bind_eq now _ (log (Appointments, Read) w) _ _ eq_refl).
  cbn [clock ticks tz_offset log]. fold t.
  destruct (failing w Appointments Write) eqn:Hw.
  - unfold bind. erewrite run_update_doc_failing; [| exact Hdb | exact Hw].
    split; [reflexivity | exact Hdb].
  - erewrite bind_eq.
    2: { apply (run_update_doc appointments_tbl id _ appt _ st); [exact Hdb | exact Hw | exact Hl]. }
    repeat split.
Qed.

(** The notification step, exactly: one document appended when it is
    attempted and the write goes through, nothing otherwise. *)
Lemma run_notify_exact (cond : bool) (mk : Z -> doc) (w : world) (st : store) :
  db w = Some st ->
  exists w',
    when cond (try_except (bind now (fun t => add_notification (mk t))) (ret tt)) w
      = (Ok tt, w')
    /\ failing w' = failing w
    /\ db w' = Some (if cond && negb (failing w Notifications Write)
                     then set_notifications
                            (fun l => l ++ [mk (clock w (ticks w) + tz_offset w)%Z])%list st
                     else st).
Proof.
  intros Hdb. destruct cond; cbn [when andb].
  2: { eexists. split; [reflexivity |]. split; [reflexivity | exact Hdb]. }
  unfold try_except, bind, now.
  rewrite (run_add_notification _ (tick w) _ Hdb). cbn [failing tick].
  destruct (failing w Notifications Write); cbn [negb].
  - eexists. split; [reflexivity |]. split; [reflexivity | exact Hdb].
  - eexists. split; [reflexivity |]. split; reflexivity.
Qed.

(** X5. Completing an appointment one owns answers success once the status
    is written, whatever becomes of the mail and of the notification: the
    appointment gets [status = completed], the slots are untouched, and the
    notifications grow by exactly one [appointment_completed] record for the
    student when a student id is known and the write goes through, by none
    otherwise. *)
Theorem complete_notifies_best_effort
    (id : string) (data appt : doc) (w : world) (st : store) :
  db w = Some st ->
  truthy (dget data "counsellorId") = true ->
  appointments st !! id = Some appt ->
  py_eqb (dget appt "counsellorId") (dget data "counsellorId") = true ->
  failing w Appointments Read = false ->
  failing w Appointments Write = false ->
  smtp_port_ok w ->
  exists (wf : world) (st' : store),
    counsellor_complete_appointment str_other id data w = (Response 200 JSuccess, wf)
    /\ db wf = Some st'
    /\ appointments st'
       = <[ id := {[ "status" := VStr "completed";
                     "updatedAt" := VTime (clock w (ticks w) + tz_offset w) ]} ∪ appt ]>
           (appointments st)
    /\ slots st' = slots st
    /\ notifications st'
       = if truthy (student_id_of appt) && negb (failing w Notifications Write)
         then (notifications st ++
               [ {[ "userId" := student_id_of appt;
                    "type" := VStr "appointment_completed";
                    "title" := VStr "Session completed";
                    "body" := VStr "Please leave quick feedback for your counsellor.";
                    "appointmentId" := VStr id;
                    "createdAt" := VTime (clock w (S (ticks w)) + tz_offset w);
                    "read" := VBool false ]} ])%list
         else notifications st.
Proof.
  intros Hdb Hc Hl Hown Hr Hw Hport.
  unfold counsellor_complete_appointment.
  apply (returns_handler _ _ (fun p => exists (wf : world) (st' : store),
    p = (Response 200 JSuccess, wf) /\ db wf = Some st' /\ _)).
  apply returns_bind, (returns_eq _ _ _ _ _ (run_db_ready _ _ Hdb)). cbn [negb].
  rewrite Hc. cbn [negb].
  apply returns_bind. eapply returns_eq.
  { rewrite (run_get_doc appointments_tbl _ _ _ Hdb).
    cbn [t_coll t_get appointments_tbl]. rewrite Hr. reflexivity. }
  cbn [t_get appointments_tbl]. rewrite Hl, Hown. cbn [negb].
  apply returns_bind. eapply returns_eq; [reflexivity |].
  apply returns_bind. eapply returns_eq.
  { apply (run_update_doc appointments_tbl id _ appt _ st); cbn; assumption. }
  cbn [clock ticks tz_offset log tick t_coll t_set appointments_tbl].
  cbv zeta.
  apply returns_bind.
  apply returns_quiet.
  { apply maybe_send_quiet. exact Hport. }
  intros _ w1 (Hdb1 & Hf1 & _ & _ & Hck1 & Htk1 & Htz1).
  cbn [db set_db failing clock ticks tz_offset log tick] in Hdb1, Hf1, Hck1, Htk1, Htz1.
  apply returns_bind.
  match goal with
  | |- returns (when _ (try_except (bind now (fun t' => add_notification (@?mk t'))) _)) _ _ =>
      destruct (run_notify_exact (truthy (student_id_of appt)) mk w1 _ Hdb1)
        as (w2 & E2 & Hf2 & Hdb2)
  end.
  eapply returns_eq; [exact E2 |].
  apply returns_ret.
  eexists _, _. split; [reflexivity |]. split; [exact Hdb2 |].
  rewrite Hf1, Hck1, Htk1, Htz1.
  destruct (truthy (student_id_of appt) && negb (failing w Notifications Write));
    repeat split.
Qed.

Lemma send_email_bad_port to_email subject html text (w : world) :
  py_int (getenv_or (SMTP_PORT (smtp w)) "0") = None ->
  send_email to_email subject html text w = (Exn, w).
Proof. intros Hp. unfold send_email. rewrite Hp. reflexivity. Qed.

(** X6. When the SMTP port setting is not a number and the appointment
    carries an email address, completing the appointment answers 500
    although the status has already been written: the appointment is left
    [completed], and no notification is written. *)
Theorem complete_with_malformed_port_fails_after_write
    (id : string) (data appt : doc) (w : world) (st : store) :
  db w = Some st ->
  truthy (dget data "counsellorId") = true ->
  appointments st !! id = Some appt ->
  py_eqb (dget appt "counsellorId") (dget data "counsellorId") = true ->
  failing w Appointments Read = false ->
  failing w Appointments Write = false ->
  truthy (student_email_of appt) = true ->
  py_int (getenv_or (SMTP_PORT (smtp w)) "0") = None ->
  exists (wf : world) (st' : store) (appt' : doc),
    counsellor_complete_appointment str_other id data w
      = (Response 500 (JError "Internal server error"), wf)
    /\ db wf = Some st'
    /\ appointments st' !! id = Some appt'
    /\ appt' !! "status" = Some (VStr "completed")
    /\ notifications st' = notifications st.
Proof.
  intros Hdb Hc Hl Hown Hr Hw Hmail Hport.
  unfold counsellor_complete_appointment, handler.
  rewrite (bind_eq _ _ _ _ _ (run_db_ready _ _ Hdb)). cbn [negb]. rewrite Hc. cbn [negb].
  erewrite bind_eq.
  2: { rewrite (run_get_doc appointments_tbl _ _ _ Hdb).
       cbn [t_coll t_get appointments_tbl]. rewrite Hr, Hl. reflexivity. }
  cbv beta iota. rewrite Hown. cbn [negb].
  rewrite (bind_eq now _ (log (Appointments, Read) w) _ _ eq_refl).
  erewrite bind_eq.
  2: { apply (run_update_doc appointments_tbl id _ appt _ st); cbn; assumption. }
  cbv zeta. rewrite Hmail. cbn [when].
  unfold bind at 1. unfold bind at 1.
  rewrite send_email_bad_port by exact Hport.
  eexists _, _, _. split; [reflexivity |].
  cbn [db set_db]. split; [reflexivity |].
  cbn [t_set appointments_tbl set_appointments appointments notifications].
  split; [apply lookup_insert_eq |].
  split; [apply lookup_union_Some_l, lookup_insert_eq | reflexivity].
Qed.

(** X7. Rescheduling an appointment one owns overwrites its date, its time
    and [updatedAt] and nothing else: the status and every other field keep
    their value, and nothing else in the store changes. *)
Theorem reschedule_overwrites_date_and_time
    (id : string) (data appt : doc) (w : world) (st : store) :
  db w = Some st ->
  truthy (dget data "appointmentDate") = true ->
  truthy (dget data "appointmentTime") = true ->
  truthy (dget data "counsellorId") = true ->
  appointments st !! id = Some appt ->
  py_eqb (dget appt "counsellorId") (dget data "counsellorId") = true ->
  failing w Appointments Read = false ->
  failing w Appointments Write = false ->
  exists (wf : world) (appt' : doc),
    counsellor_reschedule id data w = (Response 200 JSuccess, wf)
    /\ db wf = Some (set_appointments (insert id appt') st)
    /\ appt' !! "appointmentDate" = Some (dget data "appointmentDate")
    /\ appt' !! "appointmentTime" = Some (dget data "appointmentTime")
    /\ appt' !! "updatedAt" = Some (VTime (clock w (ticks w) + tz_offset w))
    /\ (forall k, k <> "appointmentDate" -> k <> "appointmentTime" -> k <> "updatedAt" ->
                  appt' !! k = appt !! k).
Proof.
  intros Hdb Hd Ht Hc Hl Hown Hr Hw.
  unfold counsellor_reschedule, handler.
  rewrite (bind_eq _ _ _ _ _ (run_db_ready _ _ Hdb)). cbn [negb]. cbv zeta.
  rewrite Hd, Ht, Hc. cbn [negb orb].
  erewrite bind_eq.
  2: { rewrite (run_get_doc appointments_tbl _ _ _ Hdb).
       cbn [t_coll t_get appointments_tbl]. rewrite Hr, Hl. reflexivity. }
  cbv beta iota. rewrite Hown. cbn [negb].
  rewrite (bind_eq now _ (log (Appointments, Read) w) _ _ eq_refl).
  erewrite bind_eq.
  2: { apply (run_update_doc appointments_tbl id _ appt _ st); cbn; assumption. }
  eexists _, _. split; [reflexivity |].
  cbn [db set_db t_set appointments_tbl]. split; [reflexivity |].
  split; [apply lookup_union_Some_l, lookup_insert_eq |].
  split.
  { apply lookup_union_Some_l. rewrite lookup_insert_ne by discriminate.
    apply lookup_insert_eq. }
  split.
  { apply lookup_union_Some_l. rewrite !lookup_insert_ne by discriminate.
    apply lookup_singleton_eq. }
  intros k K1 K2 K3. rewrite lookup_union_r; [reflexivity |].
  rewrite !lookup_insert_ne by congruence. apply lookup_singleton_ne. congruence.
Qed.

(** X8. A transition request that fails validation (no counsellor id; for a
    status update a status outside the accepted set; for a reschedule no
    date or no time) is answered 400 before any store call is made: the
    world, its trace of store calls included, is exactly as before. *)
Theorem invalid_request_is_400_without_store_call
    (op : transition) (id : string) (data : doc) (w : world) (st : store) :
  db w = Some st ->
  stopped_by_validation op data = true ->
  status_code (run_transition str_other op id data w).1 = 400%Z
  /\ (run_transition str_other op id data w).2 = w.
Proof.
  intros Hdb Hv. unfold stopped_by_validation, passes_validation in Hv.
  destruct op; cbn [run_transition];
    unfold counsellor_start_appointment, counsellor_complete_appointment,
      counsellor_update_status, counsellor_reschedule, counsellor_delete_appointment,
      handler, lowered_status;
    rewrite (bind_eq _ _ _ _ _ (run_db_ready _ _ Hdb)); cbn [negb]; cbv zeta.
  - destruct (truthy (dget data "counsellorId")); [discriminate Hv |]. split; reflexivity.
  - destruct (truthy (dget data "counsellorId")); [discriminate Hv |]. split; reflexivity.
  - destruct (py_or (dget data "status") (VStr "")) as [| | | |s| |];
      try (rewrite andb_false_r in Hv; discriminate Hv).
    rewrite (bind_eq (ret (py_lower s)) _ w w _ eq_refl).
    destruct (str_in (py_lower s) valid_statuses); cbn [negb]; [| split; reflexivity].
    destruct (truthy (dget data "counsellorId")); [discriminate Hv |]. split; reflexivity.
  - destruct (truthy (dget data "appointmentDate")); cbn [negb orb]; [| split; reflexivity].
    destruct (truthy (dget data "appointmentTime")); cbn [negb orb]; [| split; reflexivity].
    destruct (truthy (dget data "counsellorId")); [discriminate Hv |]. split; reflexivity.
  - destruct (truthy (dget data "counsellorId")); [discriminate Hv |]. split; reflexivity.
Qed.

(** *** Slots and notes: what is written is what is read back *)

Lemma run_set_doc_merge {K} `{Countable K} (t : table K) (k : K) (fields : doc)
    (w : world) (st : store) :
  db w = Some st ->
  failing w (t_coll t) Write = false ->
  set_doc_merge t k fields w =
    (Ok tt, set_db (Some (t_set t (insert k (fields ∪ default ∅ (t_get t st !! k))) st))
              (log (t_coll t, Write) w)).
Proof.
  intros Hdb Hf. unfold set_doc_merge, store_call. cbn. rewrite Hdb, Hf. reflexivity.
Qed.





(** X11. A note that is saved is the note that is read back: after a
    successful save, reading the note of the same appointment and counsellor
    answers 200 with the saved text, the counsellor id as [id], and every
    other field of an earlier note kept; a note never saved reads as null. *)
Theorem note_saved_is_note_read
    (id cid : string) (body : doc) (w : world) (st : store) :
  db w = Some st ->
  failing w Notes Read = false ->
  failing w Notes Write = false ->
  let w1 := (counsellor_put_note id cid body w).2 in
  (counsellor_put_note id cid body w).1 = Response 200 JSuccess
  /\ (exists note : doc,
        (counsellor_get_note id cid w1).1 = Response 200 (JNote (Some note))
        /\ note !! "text" = Some (dget_or body "text" (VStr ""))
        /\ note !! "id" = Some (VStr cid)
        /\ (forall k, k <> "text" -> k <> "updatedAt" -> k <> "id" ->
                      note !! k = notes st !! (id, cid) ≫= (fun old : doc => old !! k)))
  /\ (notes st !! (id, cid) = None ->
      (counsellor_get_note id cid w).1 = Response 200 (JNote None)).
Proof.
  intros Hdb Hr Hw w1.
  assert (Eput : counsellor_put_note id cid body w
            = (Response 200 JSuccess,
               set_db (Some (set_notes
                  (insert (id, cid)
                     ({[ "text" := dget_or body "text" (VStr "");
                         "updatedAt" := VTime (clock w (ticks w) + tz_offset w) ]}
                      ∪ default ∅ (notes st !! (id, cid)))) st))
                 (log (Notes, Write) (tick w)))).
  { unfold counsellor_put_note, handler.
    rewrite (bind_eq _ _ _ _ _ (run_db_ready _ _ Hdb)). cbn [negb]. cbv zeta.
    rewrite (bind_eq now _ w _ _ eq_refl).
    erewrite bind_eq.
    2: { apply (run_set_doc_merge notes_tbl (id, cid) _ _ st); cbn; assumption. }
    reflexivity. }
  subst w1. rewrite Eput. cbn [fst snd].
  split; [reflexivity |]. split.
  - set (note := {[ "text" := dget_or body "text" (VStr "");
                    "updatedAt" := VTime (clock w (ticks w) + tz_offset w) ]}
                 ∪ default ∅ (notes st !! (id, cid))).
    exists (<[ "id" := VStr cid ]> note).
    set (st2 := set_notes (insert (id, cid) note) st).
    set (w2 := set_db (Some st2) (log (Notes, Write) (tick w))).
    assert (Hdb2 : db w2 = Some st2) by reflexivity.
    split.
    { unfold counsellor_get_note, handler.
      rewrite (bind_eq _ _ _ _ _ (run_db_ready _ _ Hdb2)). cbn [negb].
      erewrite bind_eq.
      2: { rewrite (run_get_doc notes_tbl (id, cid) _ _ Hdb2).
           cbn [t_coll t_get notes_tbl notes set_notes failing set_db log tick st2 w2].
           rewrite Hr, lookup_insert_eq. reflexivity. }
      reflexivity. }
    split.
    { rewrite lookup_insert_ne by discriminate. apply lookup_union_Some_l, lookup_insert_eq. }
    split; [apply lookup_insert_eq |].
    intros k K1 K2 K3. rewrite lookup_insert_ne by congruence.
    subst note. rewrite lookup_union_r.
    + destruct (notes st !! (id, cid)); [reflexivity | apply lookup_empty].
    + rewrite lookup_insert_ne by congruence. apply lookup_singleton_ne. congruence.
  - intros Hnone. unfold counsellor_get_note, handler.
    rewrite (bind_eq _ _ _ _ _ (run_db_ready _ _ Hdb)). cbn [negb].
    erewrite bind_eq.
    2: { rewrite (run_get_doc notes_tbl (id, cid) _ _ Hdb).
         cbn [t_coll t_get notes_tbl]. rewrite Hr, Hnone. reflexivity. }
    reflexivity.
Qed.

(** *** Insights: refusals *)

(** X12. The insights endpoint refuses a request after at most one read of
    the appointment and before any mood or assessment record is read: 400
    without a counsellor id (no store call at all), 404 for an unknown
    appointment, 403 for a counsellor who does not own it, and 400 when the
    appointment has no [studentId], even if it names its student under the
    legacy [userId] field. *)
Theorem insights_refusals
    (id : string) (args : gmap string string) (w : world) (st : store) :
  db w = Some st ->
  failing w Appointments Read = false ->
  let cid := default "" (args !! "counsellorId") in
  let r := counsellor_appointment_insights str_other float_of_str id args w in
  let seen := log (Appointments, Read) w in
  (cid = "" -> r = (Response 400 (JError "counsellorId is required"), w))
  /\ (cid <> "" -> appointments st !! id = None ->
      r = (Response 404 (JError "Appointment not found"), seen))
  /\ (forall appt : doc,
        cid <> "" -> appointments st !! id = Some appt ->
        (py_eqb (dget appt "counsellorId") (VStr cid) = false ->
         r = (Response 403 (JError "Forbidden"), seen))
        /\ (py_eqb (dget appt "counsellorId") (VStr cid) = true ->
            truthy (dget appt "studentId") = false ->
            r = (Response 400 (JError "Appointment missing studentId"), seen))).
Proof.
  intros Hdb Hr cid r seen. subst r.
  unfold counsellor_appointment_insights, handler.
  rewrite (bind_eq _ _ _ _ _ (run_db_ready _ _ Hdb)). cbn [negb]. cbv zeta. fold cid.
  split; [intros E; rewrite E; reflexivity |].
  assert (Hget : forall o, appointments st !! id = o ->
            get_doc appointments_tbl id w = (Ok o, seen)).
  { intros o Ho. rewrite (run_get_doc appointments_tbl _ _ _ Hdb).
    cbn [t_coll t_get appointments_tbl]. rewrite Hr, Ho. reflexivity. }
  split.
  - intros Hc Hl. apply String.eqb_neq in Hc. rewrite Hc.
    rewrite (bind_eq _ _ _ _ _ (Hget _ Hl)). reflexivity.
  - intros appt Hc Hl. apply String.eqb_neq in Hc. rewrite Hc.
    rewrite (bind_eq _ _ _ _ _ (Hget _ Hl)). cbv beta iota.
    split.
    + intros Hown. rewrite Hown. reflexivity.
    + intros Hown Hsid. rewrite Hown, Hsid. reflexivity.
Qed.

(** *** Insights: the latest assessment *)

Lemma str_in_two (t : string) :
  str_in t [ "PHQ-9"; "GAD-7" ] = true -> t = "PHQ-9" \/ t = "GAD-7".
Proof.
  unfold str_in. cbn [existsb]. rewrite !orb_true_iff, !String.eqb_eq.
  intros [E | [E | E]]; [left | right | discriminate E]; exact E.
Qed.

Lemma in_snoc {A} (P : A -> Prop) (l : list A) (a : A) :
  P a -> (forall d, In d l -> P d) -> forall d, In d (l ++ [a]) -> P d.
Proof.
  intros Pa Pl d Hd. apply in_app_or in Hd as [Hd | [<- | []]]; auto.
Qed.

Lemma retains_other (kind : string) (seen : list doc) (a : doc)
    (s s' : gmap string doc * doc) :
  s'.1 !! kind = s.1 !! kind -> s'.2 !! kind = s.2 !! kind ->
  assessment_kind str_other a <> kind ->
  retains_latest str_other kind seen s ->
  retains_latest str_other kind (seen ++ [a]) s'.
Proof.
  intros E1 E2 Hne Hs. unfold retains_latest in *. rewrite E1, E2.
  destruct (s.1 !! kind) as [rec |], (s.2 !! kind) as [[| | | | |p|] |]; try contradiction.
  - destruct Hs as ((d & Hd & Hrest) & Hmax). split.
    + exists d. split; [apply in_or_app; left; exact Hd | exact Hrest].
    + intros d0 q0 Hd0. revert d0 Hd0 q0.
      apply (in_snoc (fun d0 => forall q0, _ -> _ -> _)); [| intros d0 Hd0 q0; apply Hmax, Hd0].
      intros q0 E. contradiction.
  - apply in_snoc; [exact Hne | exact Hs].
Qed.

Lemma retains_new (kind : string) (seen : list doc) (a : doc) (q : Z)
    (s' : gmap string doc * doc) :
  assessment_kind str_other a = kind ->
  sample_time "timestamp" a = VTime q ->
  s'.1 !! kind = Some (assessment_record a) -> s'.2 !! kind = Some (VTime q) ->
  (forall d p, In d seen -> assessment_kind str_other d = kind ->
               sample_time "timestamp" d = VTime p -> (p <= q)%Z) ->
  retains_latest str_other kind (seen ++ [a]) s'.
Proof.
  intros Hk Ha E1 E2 Hmax. unfold retains_latest. rewrite E1, E2. split.
  - exists a. split; [apply in_or_app; right; left; reflexivity | auto].
  - intros d0 q0 Hd0. revert d0 Hd0 q0.
    apply (in_snoc (fun d0 => forall q0, _ -> _ -> _)).
    + intros q0 _ Hq0. rewrite Ha in Hq0. injection Hq0 as <-. lia.
    + intros d0 Hd0 q0. apply Hmax, Hd0.
Qed.

Lemma assessments_body_retains (seen : list doc) (a : doc) (q : Z)
    (s : gmap string doc * doc) :
  sample_time "timestamp" a = VTime q ->
  (forall kind, kind = "PHQ-9" \/ kind = "GAD-7" -> retains_latest str_other kind seen s) ->
  exists s', assessments_body str_other a s = Next s'
             /\ forall kind, kind = "PHQ-9" \/ kind = "GAD-7" ->
                             retains_latest str_other kind (seen ++ [a]) s'.
Proof.
  intros Ha Hs. unfold assessments_body, to_naive_utc.
  fold (sample_time "timestamp" a). fold (assessment_kind str_other a).
  fold (assessment_record a). rewrite Ha.
  set (t := assessment_kind str_other a) in *.
  destruct (str_in t [ "PHQ-9"; "GAD-7" ]) eqn:Ht; cbn [negb].
  2: { exists s. split; [reflexivity |]. intros kind Hkind.
       apply (retains_other kind seen a s); [reflexivity | reflexivity | | apply Hs, Hkind].
       fold t. intros E. rewrite E in Ht.
       destruct Hkind; subst kind; discriminate Ht. }
  pose proof (Hs t (str_in_two t Ht)) as Hst. unfold retains_latest in Hst.
  unfold dget.
  destruct (s.1 !! t) as [rec |] eqn:E1, (s.2 !! t) as [[| | | | |p|] |] eqn:E2;
    try contradiction; cbn [default from_option Datatypes.id replaces].
  - destruct Hst as (_ & Hmax).
    cbn [truthy andb py_gtb py_ltb num_of].
    destruct (p <? q)%Z eqn:Hlt.
    + eexists. split; [reflexivity |]. intros kind Hkind.
      destruct (decide (t = kind)) as [<- | Hne].
      * apply (retains_new t seen a q); [reflexivity | exact Ha | | |].
        -- cbn [fst]. apply lookup_insert_eq.
        -- cbn [snd]. apply lookup_insert_eq.
        -- apply Z.ltb_lt in Hlt. intros d0 p0 Hd0 Hk0 Hp0.
           specialize (Hmax d0 p0 Hd0 Hk0 Hp0). lia.
      * apply (retains_other kind seen a s); [| | exact Hne | apply Hs, Hkind].
        -- cbn [fst]. apply lookup_insert_ne. exact Hne.
        -- cbn [snd]. apply lookup_insert_ne. exact Hne.
    + exists s. split; [reflexivity |]. intros kind Hkind.
      destruct (decide (t = kind)) as [<- | Hne].
      * apply Z.ltb_ge in Hlt. pose proof (Hs t (str_in_two t Ht)) as Hst.
        unfold retains_latest in *. rewrite E1, E2 in *.
        destruct Hst as ((d & Hd & Hrest) & _). split.
        -- exists d. split; [apply in_or_app; left; exact Hd | exact Hrest].
        -- intros d0 q0 Hd0. revert d0 Hd0 q0.
           apply (in_snoc (fun d0 => forall q0, _ -> _ -> _)).
           ++ intros q0 _ Hq0. rewrite Ha in Hq0. injection Hq0 as <-. exact Hlt.
           ++ intros d0 Hd0 q0. apply Hmax, Hd0.
      * apply (retains_other kind seen a s); [reflexivity | reflexivity | exact Hne |].
        apply Hs, Hkind.
  - eexists. split; [reflexivity |]. intros kind Hkind.
    destruct (decide (t = kind)) as [<- | Hne].
    + apply (retains_new t seen a q); [reflexivity | exact Ha | | |].
      * cbn [fst]. apply lookup_insert_eq.
      * cbn [snd]. apply lookup_insert_eq.
      * intros d0 p0 Hd0 Hk0. exfalso. exact (Hst d0 Hd0 Hk0).
    + apply (retains_other kind seen a s); [| | exact Hne | apply Hs, Hkind].
      * cbn [fst]. apply lookup_insert_ne. exact Hne.
      * cbn [snd]. apply lookup_insert_ne. exact Hne.
Qed.

Lemma assessments_loop_retains (docs seen : list doc) (s : gmap string doc * doc) :
  Forall (fun a => exists q, sample_time "timestamp" a = VTime q) docs ->
  (forall kind, kind = "PHQ-9" \/ kind = "GAD-7" -> retains_latest str_other kind seen s) ->
  exists s', for_each (assessments_body str_other) docs s = Next s'
             /\ forall kind, kind = "PHQ-9" \/ kind = "GAD-7" ->
                             retains_latest str_other kind (seen ++ docs) s'.
Proof.
  intros Hdocs. revert seen s.
  induction Hdocs as [| a docs (q & Ha) _ IH]; intros seen s Hs.
  - exists s. split; [reflexivity |]. rewrite app_nil_r. exact Hs.
  - destruct (assessments_body_retains seen a q s Ha Hs) as (s1 & E1 & H1).
    destruct (IH (seen ++ [a])%list s1 H1) as (s' & E' & H').
    exists s'. split.
    + cbn [for_each]. rewrite E1. exact E'.
    + intros kind Hkind. specialize (H' kind Hkind).
      rewrite <- app_assoc in H'. exact H'.
Qed.

(** X13. Run over assessment records that all carry a datetime, the loop of
    the insights endpoint that picks the latest assessments ends normally,
    and for each of the types PHQ-9 and GAD-7 it retains nothing when no
    record has that type (compared in upper case), and otherwise the score
    and severity of a record of that type that no other record of the type
    is dated after. *)
Theorem latest_assessment_is_most_recent (docs : list doc) (kind : string) :
  kind = "PHQ-9" \/ kind = "GAD-7" ->
  Forall (fun a => exists q, sample_time "timestamp" a = VTime q) docs ->
  exists s, for_each (assessments_body str_other) docs (∅, ∅) = Next s
            /\ match s.1 !! kind with
               | Some rec =>
                   exists d p, In d docs /\ assessment_kind str_other d = kind
                     /\ sample_time "timestamp" d = VTime p
                     /\ rec = assessment_record d
                     /\ forall d' q, In d' docs -> assessment_kind str_other d' = kind ->
                          sample_time "timestamp" d' = VTime q -> (q <= p)%Z
               | None => forall d, In d docs -> assessment_kind str_other d <> kind
               end.
Proof.
  intros Hkind Hdocs.
  destruct (assessments_loop_retains docs [] (∅, ∅) Hdocs) as (s & E & Hs).
  { intros k _. unfold retains_latest. cbn [fst snd]. rewrite !lookup_empty.
    intros d []. }
  exists s. split; [exact E |]. specialize (Hs kind Hkind).
  cbn [app] in Hs. unfold retains_latest in Hs.
  destruct (s.1 !! kind) as [rec |], (s.2 !! kind) as [[| | | | |p|] |]; try contradiction.
  - destruct Hs as ((d & Hd & Hk & Hp & Hrec) & Hmax). exists d, p. auto.
  - exact Hs.
Qed.

(** *** Insights: what the primary scan accumulates *)

Lemma mood_scores_body_counts (start : Z) (d : doc) (b : buckets) (n : nat) :
  is_time_or_null (sample_time "recordedAt" d) = true ->
  exists b',
    mood_scores_body float_of_str start d (b, n)
    = Next (b', (n + length (omap (counted_on float_of_str start) [d]))%nat)
    /\ forall day,
         default 0%nat (counts b' !! day)
         = (default 0%nat (counts b !! day)
            + length (scores_on float_of_str start day [d]))%nat
         /\ (default 0 (daily b' !! day)
             == default 0 (daily b !! day) + Qsum (scores_on float_of_str start day [d]))%Q.
Proof.
  intros Hd. unfold mood_scores_body, to_naive_utc. fold (sample_time "recordedAt" d).
  cbn [fst snd]. unfold add_point, scores_on, counted_on.
  cbn [omap list_omap].
  destruct (sample_time "recordedAt" d) as [| | | | |t|]; try discriminate Hd.
  { rewrite bool_decide_eq_false_2 by auto. exists b. cbn [length Qsum fold_right].
    split; [f_equal; f_equal; lia |]. intros day. split; [lia | ring]. }
  cbn [py_ltb num_of]. rewrite Z.leb_antisym.
  destruct (t <? start)%Z eqn:Hlt; cbn [negb].
  { rewrite bool_decide_eq_false_2 by auto. exists b. cbn [length Qsum fold_right].
    split; [f_equal; f_equal; lia |]. intros day. split; [lia | ring]. }
  destruct (py_float float_of_str (dget d "score")) as [val |]; cbn [option_map].
  2: { rewrite bool_decide_eq_false_2 by auto. exists b. cbn [length Qsum fold_right].
       split; [f_equal; f_equal; lia |]. intros day. split; [lia | ring]. }
  cbn [counts].
  rewrite bool_decide_eq_true_2.
  2: { intros E. apply (f_equal (fun m => m !! date_of t)) in E.
       rewrite lookup_insert_eq in E.
       destruct (counts b !! date_of t) as [k |]; cbn in E; [| discriminate].
       injection E. lia. }
  eexists. split; [cbn [length]; f_equal; f_equal; lia |].
  intros day. cbn [counts daily].
  destruct (Z.eqb_spec (date_of t) day) as [<- | Hne].
  - rewrite !lookup_insert_eq. cbn [default from_option Datatypes.id length Qsum fold_right].
    split; [reflexivity | ring].
  - rewrite !lookup_insert_ne by exact Hne. cbn [length Qsum fold_right].
    split; [lia | ring].
Qed.

Lemma scores_on_cons (start day : Z) (d : doc) (docs : list doc) :
  scores_on float_of_str start day (d :: docs)
  = (scores_on float_of_str start day [d] ++ scores_on float_of_str start day docs)%list.
Proof.
  unfold scores_on. cbn [omap list_omap].
  destruct (counted_on float_of_str start d) as [[day' v] |]; [| reflexivity].
  destruct (day' =? day)%Z; reflexivity.
Qed.

Lemma Qsum_app (l k : list Q) : (Qsum (l ++ k) == Qsum l + Qsum k)%Q.
Proof.
  unfold Qsum. induction l as [| x l IH]; cbn [app fold_right].
  - ring.
  - rewrite IH. ring.
Qed.

Lemma mood_scores_loop_sums (start : Z) (docs : list doc) (b : buckets) (n : nat) :
  Forall (fun d => is_time_or_null (sample_time "recordedAt" d) = true) docs ->
  exists b',
    for_each (mood_scores_body float_of_str start) docs (b, n)
    = Next (b', (n + length (omap (counted_on float_of_str start) docs))%nat)
    /\ forall day,
         default 0%nat (counts b' !! day)
         = (default 0%nat (counts b !! day)
            + length (scores_on float_of_str start day docs))%nat
         /\ (default 0 (daily b' !! day)
             == default 0 (daily b !! day) + Qsum (scores_on float_of_str start day docs))%Q.
Proof.
  intros Hd. revert b n. induction Hd as [| d docs Hd _ IH]; intros b n; cbn [for_each].
  - exists b. split; [cbn [omap list_omap length]; f_equal; f_equal; lia |].
    intros day. cbn [scores_on omap list_omap length Qsum fold_right]. split; [lia | ring].
  - destruct (mood_scores_body_counts start d b n Hd) as (b1 & E & H1).
    rewrite E.
    destruct (IH b1 (n + length (omap (counted_on float_of_str start) [d]))%nat)
      as (b' & E' & H').
    exists b'. split.
    + rewrite E'. f_equal. f_equal. cbn [omap list_omap].
      destruct (counted_on float_of_str start d); cbn [length]; lia.
    + intros day. destruct (H1 day) as [C1 S1], (H' day) as [C' S'].
      rewrite scores_on_cons, length_app, Qsum_app. split.
      * rewrite C', C1. lia.
      * rewrite S', S1. ring.
Qed.

(** X14. Run over primary mood records whose timestamp is a datetime or
    missing, the primary scan of the insights endpoint ends normally; it
    counts exactly the records dated at or after the window start that
    carry a numeric score, and for every day it holds the number and the
    sum of the scores of the counted records of that day. *)
Theorem primary_scan_counts_and_sums (start : Z) (docs : list doc) :
  Forall (fun d => is_time_or_null (sample_time "recordedAt" d) = true) docs ->
  exists b,
    for_each (mood_scores_body float_of_str start) docs (Buckets ∅ ∅, 0%nat)
    = Next (b, length (omap (counted_on float_of_str start) docs))
    /\ forall day,
         default 0%nat (counts b !! day) = length (scores_on float_of_str start day docs)
         /\ (default 0 (daily b !! day) == Qsum (scores_on float_of_str start day docs))%Q.
Proof.
  intros Hd.
  destruct (mood_scores_loop_sums start docs (Buckets ∅ ∅) 0%nat Hd) as (b & E & H).
  exists b. split; [exact E |].
  intros day. destruct (H day) as [C S]. revert C S. cbn [counts daily].
  rewrite !lookup_empty. cbn [default from_option Datatypes.id]. intros C S.
  split; [exact C |]. rewrite S. ring.
Qed.

(** *** Mail *)

#[local] Instance silent_unless_configured_preorder : PreOrder silent_unless_configured.
Proof.
  split.
  - intros w. split; reflexivity.
  - intros w1 w2 w3 [H1 H2] [H3 H4]. split; [congruence |].
    intros Hc. rewrite H4, H2; [reflexivity | exact Hc | rewrite H1; exact Hc].
Qed.

Lemma unconfigured_store_call {A} (c : coll) (a : access) (f : store -> outcome A * store) :
  preserves silent_unless_configured (store_call c a f).
Proof. refine (preserves_store_call _ _ _ _ _ _); intros; split; reflexivity. Qed.

Lemma unconfigured_clock : preserves silent_unless_configured now.
Proof. intros w. split; reflexivity. Qed.

Lemma unconfigured_send_email to_email subject html text :
  preserves silent_unless_configured (send_email to_email subject html text).
Proof.
  intros w. unfold silent_unless_configured. unfold send_email, smtp_configured.
  fold (sender_of (smtp w)).
  destruct (py_int _) as [port |]; [| split; reflexivity].
  destruct (negb (String.eqb (getenv_or (SMTP_HOST (smtp w)) "") "")); cbn [andb negb];
    [| split; reflexivity].
  destruct (negb (port =? 0)%Z); cbn [andb negb]; [| split; reflexivity].
  destruct (negb (String.eqb (sender_of (smtp w)) "")); cbn [andb negb];
    [| split; reflexivity].
  destruct (truthy to_email); cbn [negb]; [| split; reflexivity].
  destruct to_email; try (split; reflexivity).
  destruct (smtp_failing w); (split; [reflexivity | intros Hc; first [reflexivity | discriminate Hc]]).
Qed.

Ltac unconfigured :=
  first [ apply unconfigured_store_call | apply unconfigured_clock
        | apply unconfigured_send_email ].

(** X15. Without a usable SMTP configuration (no host, a port that is 0 or
    not a number, or an empty sender address) no endpoint that changes an
    appointment hands over any mail, for every request and whatever call
    fails. *)
Theorem unconfigured_smtp_sends_nothing
    (op : transition) (id : string) (data : doc) (w : world) :
  smtp_configured (smtp w) = false ->
  outbox (run_transition str_other op id data w).2 = outbox w.
Proof.
  intros Hc.
  assert (H : silent_unless_configured w (run_transition str_other op id data w).2).
  { destruct op; cbn [run_transition];
      apply (preserves_handler silent_unless_configured);
      unfold lowered_status, lookup_user_email, free_slot; frame unconfigured. }
  apply H, Hc.
Qed.

Lemma run_send_email_configured (e subject html text : string) (w : world) :
  smtp_configured (smtp w) = true ->
  e <> "" ->
  send_email (VStr e) subject html text w
  = if smtp_failing w then (Ok false, w)
    else (Ok true, post (Email (sender_of (smtp w)) e subject html text) w).
Proof.
  intros Hc He. unfold send_email. fold (sender_of (smtp w)).
  unfold smtp_configured in Hc.
  destruct (py_int _) as [port |]; [| rewrite andb_false_r in Hc; discriminate Hc].
  rewrite Hc. cbn [truthy andb negb].
  apply String.eqb_neq in He. rewrite He. reflexivity.
Qed.

Lemma run_notify_no_mail (cond : bool) (mk : Z -> doc) (w : world) (st : store) :
  db w = Some st ->
  exists w',
    when cond (try_except (bind now (fun t => add_notification (mk t))) (ret tt)) w
      = (Ok tt, w')
    /\ outbox w' = outbox w.
Proof.
  intros Hdb. destruct cond; cbn [when].
  2: { eexists. split; reflexivity. }
  unfold try_except, bind, now.
  rewrite (run_add_notification _ (tick w) _ Hdb). cbn [failing tick].
  destruct (failing w Notifications Write); eexists; split; reflexivity.
Qed.

(** X16. Completing an appointment that carries the student's address, on a
    server with SMTP configured, answers success and hands over exactly one
    mail: to that address, from the configured sender, asking for feedback;
    when the SMTP server cannot be reached the answer is still success and
    no mail goes out. *)
Theorem complete_mails_feedback_request
    (id e : string) (data appt : doc) (w : world) (st : store) :
  db w = Some st ->
  truthy (dget data "counsellorId") = true ->
  appointments st !! id = Some appt ->
  py_eqb (dget appt "counsellorId") (dget data "counsellorId") = true ->
  failing w Appointments Read = false ->
  failing w Appointments Write = false ->
  student_email_of appt = VStr e ->
  e <> "" ->
  smtp_configured (smtp w) = true ->
  exists (wf : world) (m : email),
    counsellor_complete_appointment str_other id data w = (Response 200 JSuccess, wf)
    /\ outbox wf = (if smtp_failing w then outbox w else m :: outbox w)
    /\ mail_to m = e
    /\ mail_from m = sender_of (smtp w)
    /\ mail_subject m = "We value your feedback for today's session".
Proof.
  intros Hdb Hc Hl Hown Hr Hw Hmail He Hcfg.
  unfold counsellor_complete_appointment, handler.
  rewrite (bind_eq _ _ _ _ _ (run_db_ready _ _ Hdb)). cbn [negb]. rewrite Hc. cbn [negb].
  erewrite bind_eq.
  2: { rewrite (run_get_doc appointments_tbl _ _ _ Hdb).
       cbn [t_coll t_get appointments_tbl]. rewrite Hr, Hl. reflexivity. }
  cbv beta iota. rewrite Hown. cbn [negb].
  rewrite (bind_eq now _ (log (Appointments, Read) w) _ _ eq_refl).
  erewrite bind_eq.
  2: { apply (run_update_doc appointments_tbl id _ appt _ st); cbn; assumption. }
  cbv zeta. rewrite Hmail.
  assert (Ht : truthy (VStr e) = true).
  { cbn [truthy]. apply String.eqb_neq in He. rewrite He. reflexivity. }
  rewrite Ht. cbn [when].
  set (w1 := set_db _ _).
  assert (Hdb1 : exists st1, db w1 = Some st1) by (eexists; reflexivity).
  destruct Hdb1 as (st1 & Hdb1).
  match goal with
  | |- context [send_email (VStr e) ?s ?h ?t] =>
      pose proof (run_send_email_configured e s h t w1 Hcfg He) as Es;
      set (m := Email (sender_of (smtp w1)) e s h t) in *
  end.
  change (smtp_failing w1) with (smtp_failing w) in Es.
  unfold bind at 1. unfold bind at 1. rewrite Es.
  destruct (smtp_failing w); unfold ret at 1; cbv beta iota.
  - match goal with
    | |- context [when ?c (try_except (bind now (fun t' => add_notification (@?mk t'))) _)] =>
        destruct (run_notify_no_mail c mk w1 st1 Hdb1) as (w3 & E3 & Ho)
    end.
    cbv beta in E3. unfold bind at 1. rewrite E3.
    exists w3, m. split; [reflexivity |]. split; [exact Ho |]. repeat split.
  - match goal with
    | |- context [when ?c (try_except (bind now (fun t' => add_notification (@?mk t'))) _)] =>
        destruct (run_notify_no_mail c mk (post m w1) st1 Hdb1) as (w3 & E3 & Ho)
    end.
    cbv beta in E3. unfold bind at 1. rewrite E3.
    exists w3, m. split; [reflexivity |]. split; [exact Ho |]. repeat split.
Qed.

(** *** The appointment listing *)

(** X17. The appointment listing reads [limit] before it checks
    [counsellorId]: a limit that is not a number gives 500 whether or not a
    counsellor is named; with a readable limit, a missing or empty
    [counsellorId] gives 400.  Neither touches the store. *)
Theorem listing_refusals (args : gmap string string) (w : world) :
  (py_int (default "100" (args !! "limit")) = None ->
   list_counsellor_appointments str_other args w
   = (Response 500 (JError "Internal server error"), w))
  /\ (is_Some (py_int (default "100" (args !! "limit"))) ->
      default "" (args !! "counsellorId") = "" ->
      list_counsellor_appointments str_other args w
      = (Response 400 (JError "counsellorId is required"), w)).
Proof.
  unfold list_counsellor_appointments, handler. split.
  - intros ->. reflexivity.
  - intros [n ->] ->. reflexivity.
Qed.






(** *** Deleting is all or nothing for the appointment *)

Lemma keeps_appointments_db (w w' : world) (st : store) :
  keeps appointments w w' -> db w = Some st ->
  exists st', db w' = Some st' /\ appointments st' = appointments st.
Proof.
  unfold keeps. intros Hk Hdb. rewrite Hdb in Hk.
  destruct (db w') as [st' |]; [| discriminate Hk].
  exists st'. split; [reflexivity |]. injection Hk as Hk. exact Hk.
Qed.

Lemma all_or_nothing_bind {A} (id : string) (c : M A) (k : A -> M response) :
  preserves (keeps appointments) c ->
  (forall a, all_or_nothing id (k a)) ->
  all_or_nothing id (bind c k).
Proof.
  intros Hc Hk w st Hdb. unfold bind.
  destruct (keeps_appointments_db w (c w).2 st (Hc w) Hdb) as (st1 & Hdb1 & Ha1).
  destruct (c w) as [[a |] w1]; cbn [fst snd] in *.
  - destruct (Hk a w1 st1 Hdb1) as (st' & Hdb' & Ha'). exists st'.
    split; [exact Hdb' |]. rewrite Ha', Ha1. reflexivity.
  - exists st1. split; [exact Hdb1 | exact Ha1].
Qed.

Lemma all_or_nothing_delete (id : string) :
  all_or_nothing id (bind (delete_doc appointments_tbl id) (fun _ => ret (jsonify JSuccess))).
Proof.
  intros w st Hdb. unfold bind, delete_doc, store_call. cbn [db log]. rewrite Hdb.
  cbn [t_coll appointments_tbl failing log].
  destruct (failing w Appointments Write); cbn [fst snd].
  - exists st. split; [exact Hdb | reflexivity].
  - eexists. split; [reflexivity |]. reflexivity.
Qed.

Lemma all_or_nothing_refusal (id : string) (code : Z) (msg : string) :
  code <> 200%Z -> all_or_nothing id (ret (error code msg)).
Proof.
  intros Hcode w st Hdb. exists st. split; [exact Hdb |]. cbn.
  destruct (Z.eqb_spec code 200); [contradiction | reflexivity].
Qed.

(** X19. Whatever fails on the way, a delete request is all or nothing for
    the appointment document: an answer of 200 means the appointment is no
    longer stored, and any other answer (a refusal, or a 500 from a failing
    store call or from the mail step) leaves every appointment as it was. *)
Theorem delete_is_all_or_nothing
    (id : string) (data : doc) (w : world) (st : store) :
  db w = Some st ->
  exists st',
    db (counsellor_delete_appointment str_other id data w).2 = Some st'
    /\ appointments st'
       = if (status_code (counsellor_delete_appointment str_other id data w).1 =? 200)%Z
         then delete id (appointments st)
         else appointments st.
Proof.
  intros Hdb.
  remember (counsellor_delete_appointment str_other id data w) as res eqn:E. revert E.
  unfold counsellor_delete_appointment, handler.
  rewrite (bind_eq _ _ _ _ _ (run_db_ready _ _ Hdb)). cbn [negb].
  destruct (truthy (dget data "counsellorId")); cbn [negb].
  2: { intros ->. exists st. split; [exact Hdb | reflexivity]. }
  unfold bind at 1. rewrite (run_get_doc appointments_tbl _ _ _ Hdb).
  cbn [t_coll t_get appointments_tbl].
  destruct (failing w Appointments Read).
  { intros ->. exists st. split; [exact Hdb | reflexivity]. }
  destruct (appointments st !! id) as [appt |] eqn:Hl.
  2: { intros ->. exists st. split; [exact Hdb |]. cbn. symmetry. apply delete_id, Hl. }
  destruct (py_eqb (dget appt "counsellorId") (dget data "counsellorId")); cbn [negb].
  2: { intros ->. exists st. split; [exact Hdb | reflexivity]. }
  cbv zeta.
  match goal with
  | |- context [bind ?c ?k (log (Appointments, Read) w)] =>
      assert (HT : all_or_nothing id (bind c k))
  end.
  { refine (all_or_nothing_bind _ _ _ _ _);
      [unfold free_slot; frame others | intros _].
    refine (all_or_nothing_bind _ _ _ _ _);
      [unfold lookup_user_email; frame others | intros [email name]].
    refine (all_or_nothing_bind _ _ _ _ _); [frame others | intros _].
    refine (all_or_nothing_bind _ _ _ _ _); [frame others | intros _].
    apply all_or_nothing_delete. }
  destruct (HT (log (Appointments, Read) w) st Hdb) as (st' & Hdb' & Ha').
  destruct (bind _ _ (log (Appointments, Read) w)) as [[r |] w'];
    intros ->; cbn [fst snd] in *; exists st'; (split; [exact Hdb' | exact Ha']).
Qed.

(** *** The address looked up in [users] *)

Lemma run_lookup_user_email (uid : string) (e0 name : value) (u : doc)
    (w : world) (st : store) :
  db w = Some st ->
  uid <> "" ->
  truthy e0 = false ->
  failing w Users Read = false ->
  users st !! uid = Some u ->
  exists name',
    lookup_user_email (VStr uid) e0 name w
    = (Ok (dget_or u "email" (VStr ""), name'), log (Users, Read) w).
Proof.
  intros Hdb Huid He Hr Hu. unfold lookup_user_email.
  rewrite (bind_eq _ _ _ _ _ (run_db_ready _ _ Hdb)).
  rewrite He. cbn [truthy negb andb]. apply String.eqb_neq in Huid. rewrite Huid.
  cbn [negb]. unfold try_except, bind.
  rewrite (run_get_doc users_tbl _ _ _ Hdb). cbn [t_coll t_get users_tbl].
  rewrite Hr, Hu. destruct (negb (truthy name)); eexists; reflexivity.
Qed.

Lemma run_lookup_user_email_unknown (uid : string) (e0 name : value)
    (w : world) (st : store) :
  db w = Some st ->
  uid <> "" ->
  truthy e0 = false ->
  failing w Users Read = false ->
  users st !! uid = None ->
  lookup_user_email (VStr uid) e0 name w = (Ok (e0, name), log (Users, Read) w).
Proof.
  intros Hdb Huid He Hr Hu. unfold lookup_user_email.
  rewrite (bind_eq _ _ _ _ _ (run_db_ready _ _ Hdb)).
  rewrite He. cbn [truthy negb andb]. apply String.eqb_neq in Huid. rewrite Huid.
  cbn [negb]. unfold try_except, bind.
  rewrite (run_get_doc users_tbl _ _ _ Hdb). cbn [t_coll t_get users_tbl].
  rewrite Hr, Hu. reflexivity.
Qed.

Lemma run_guarded_no_mail (c : M unit) (w : world) :
  preserves no_mail c ->
  exists w', try_except c (ret tt) w = (Ok tt, w') /\ outbox w' = outbox w.
Proof.
  intros Hc. pose proof (preserves_try no_mail c (ret tt) Hc (preserves_ret no_mail tt) w) as H.
  unfold try_except in *. destruct (c w) as [[[] |] w']; eexists; (split; [reflexivity | exact H]).
Qed.

Lemma run_send_email_configured_any (to_email : value) (subject html text : string)
    (w : world) :
  smtp_configured (smtp w) = true ->
  forall e, to_email = VStr e -> e <> "" ->
    send_email to_email subject html text w
    = if smtp_failing w then (Ok false, w)
      else (Ok true, post (Email (sender_of (smtp w)) e subject html text) w).
Proof. intros Hc e -> He. apply run_send_email_configured; assumption. Qed.

(** X20. When the appointment carries no email address, a status update
    looks the student up in [users]: with SMTP configured and reachable,
    the mail about the new status goes to the address on file there, and
    when the student has no [users] document no mail goes out; either way
    the update answers success. *)
Theorem update_status_mails_address_on_file
    (id s uid : string) (data appt : doc) (w : world) (st : store) :
  db w = Some st ->
  py_or (dget data "status") (VStr "") = VStr s ->
  str_in (py_lower s) valid_statuses = true ->
  truthy (dget data "counsellorId") = true ->
  appointments st !! id = Some appt ->
  py_eqb (dget appt "counsellorId") (dget data "counsellorId") = true ->
  failing w Appointments Read = false ->
  failing w Appointments Write = false ->
  failing w Users Read = false ->
  truthy (student_email_of appt) = false ->
  student_id_of appt = VStr uid ->
  uid <> "" ->
  smtp_configured (smtp w) = true ->
  smtp_failing w = false ->
  exists wf : world,
    counsellor_update_status str_other id data w = (Response 200 JSuccess, wf)
    /\ match users st !! uid with
       | None => outbox wf = outbox w
       | Some u =>
           forall e, dget_or u "email" (VStr "") = VStr e -> e <> "" ->
             exists m, outbox wf = m :: outbox w
               /\ mail_to m = e
               /\ mail_from m = sender_of (smtp w)
               /\ mail_subject m
                  = String.concat ""
                      [ "Your session on ";
                        py_str str_other (py_or (dget appt "appointmentDate") (VStr ""));
                        " ";
                        py_str str_other (py_or (dget appt "appointmentTime") (VStr ""));
                        " was "; status_nice (py_lower s) ]
       end.
Proof.
  intros Hdb Hs Hok Hc Hl Hown Hr Hw Hur Hmail Hsid Huid Hcfg Hsf.
  unfold counsellor_update_status, handler.
  rewrite (bind_eq _ _ _ _ _ (run_db_ready _ _ Hdb)). cbn [negb].
  unfold lowered_status. rewrite Hs.
  rewrite (bind_eq (ret (py_lower s)) _ w _ _ eq_refl).
  rewrite Hok, Hc. cbn [negb].
  erewrite bind_eq.
  2: { rewrite (run_get_doc appointments_tbl _ _ _ Hdb).
       cbn [t_coll t_get appointments_tbl]. rewrite Hr, Hl. reflexivity. }
  cbv beta iota. rewrite Hown. cbn [negb].
  rewrite (bind_eq now _ (log (Appointments, Read) w) _ _ eq_refl).
  erewrite bind_eq.
  2: { apply (run_update_doc appointments_tbl id _ appt _ st); cbn; assumption. }
  cbv zeta. rewrite Hsid.
  set (st1 := t_set appointments_tbl _ st).
  set (w1 := set_db (Some st1) _).
  assert (Hdb1 : db w1 = Some st1) by reflexivity.
  assert (Hur1 : failing w1 Users Read = false) by exact Hur.
  assert (Hcfg1 : smtp_configured (smtp (log (Users, Read) w1)) = true) by exact Hcfg.
  assert (Hport : smtp_port_ok (log (Users, Read) w1)).
  { unfold smtp_port_ok. unfold smtp_configured in Hcfg1.
    destruct (py_int _); [eexists; reflexivity |].
    rewrite andb_false_r in Hcfg1. discriminate Hcfg1. }
  destruct (users st !! uid) as [u |] eqn:Hu.
  - assert (Hu1 : users st1 !! uid = Some u) by exact Hu.
    destruct (run_lookup_user_email uid (student_email_of appt)
                (py_or (dget appt "studentName") (VStr "")) u w1 st1
                Hdb1 Huid Hmail Hur1 Hu1) as (name' & El).
    rewrite (bind_eq _ _ _ _ _ El). cbv beta iota.
    set (w2 := log (Users, Read) w1) in *.
    match goal with
    | |- context [bind (when ?c (bind (send_email ?e ?sb ?h ?t) ?k)) _ w2] =>
        destruct (maybe_send_quiet c e sb h t w2 Hport) as ([] & w3 & E3 & Hs3);
        pose proof (run_send_email_configured_any e sb h t w2 Hcfg1) as Es
    end.
    rewrite (bind_eq _ _ _ _ _ E3).
    match goal with
    | |- context [bind (try_except ?c (ret tt)) _ w3] =>
        destruct (run_guarded_no_mail c w3) as (w4 & E4 & Ho4); [frame mailless |]
    end.
    rewrite (bind_eq _ _ _ _ _ E4).
    exists w4. split; [reflexivity |].
    intros e Ee Hne. rewrite Ee in E3, Es.
    assert (Ht : truthy (VStr e) = true).
    { cbn [truthy]. apply String.eqb_neq in Hne. rewrite Hne. reflexivity. }
    rewrite Ht in E3. cbn [when] in E3. unfold bind in E3.
    rewrite (Es e eq_refl Hne) in E3.
    change (smtp_failing w2) with (smtp_failing w) in E3. rewrite Hsf in E3.
    injection E3 as E3. eexists. rewrite Ho4, <- E3. repeat split.
  - assert (Hu1 : users st1 !! uid = None) by exact Hu.
    rewrite (bind_eq _ _ _ _ _
               (run_lookup_user_email_unknown uid (student_email_of appt)
                  (py_or (dget appt "studentName") (VStr "")) w1 st1
                  Hdb1 Huid Hmail Hur1 Hu1)).
    cbv beta iota. rewrite Hmail. cbn [when].
    rewrite (bind_eq (ret tt) _ (log (Users, Read) w1) _ _ eq_refl).
    match goal with
    | |- context [bind (try_except ?c (ret tt)) _ ?w3] =>
        destruct (run_guarded_no_mail c w3) as (w4 & E4 & Ho4); [frame mailless |]
    end.
    rewrite (bind_eq _ _ _ _ _ E4).
    exists w4. split; [reflexivity | exact Ho4].
Qed.
End Properties.

(* ================================================================== *)
(** ** The properties on the sample data *)
(* ================================================================== *)

(** A side condition on the sample data, settled by evaluation. *)
Ltac computed := first [ reflexivity | vm_compute; reflexivity ].


(** The deletion, start and completion of the unknown id [zz] on the demo
    store. *)
Lemma delete_absent_witness :
  (counsellor_delete_appointment demo_str "zz" {[ "counsellorId" := VStr "c1" ]} demo_world).1
    = Response 200 JSuccess
  /\ db (counsellor_delete_appointment demo_str "zz" {[ "counsellorId" := VStr "c1" ]} demo_world).2
       = Some demo_store
  /\ (counsellor_start_appointment "zz" {[ "counsellorId" := VStr "c1" ]} demo_world).1
       = Response 404 (JError "Not found")
  /\ (counsellor_complete_appointment demo_str "zz" {[ "counsellorId" := VStr "c1" ]} demo_world).1
       = Response 404 (JError "Not found").
Proof.
  apply (delete_absent_succeeds_start_complete_not_found demo_str "zz"
           {[ "counsellorId" := VStr "c1" ]} demo_world demo_store);
    computed.
Defined.

(** C1, the claim as first stated fails: a counsellor who does not own
    appointment [a1] and sends the status [done] gets 400, not 403. *)
Lemma non_owner_invalid_status_is_400 :
  db demo_world = Some demo_store
  /\ appointments demo_store !! "a1" = Some demo_appt
  /\ py_eqb (dget demo_appt "counsellorId") (VStr "c2") = false
  /\ (counsellor_update_status demo_str "a1"
        {[ "status" := VStr "done"; "counsellorId" := VStr "c2" ]} demo_world).1
       = Response 400 (JError "Invalid status")
  /\ status_code (counsellor_update_status demo_str "a1"
        {[ "status" := VStr "done"; "counsellorId" := VStr "c2" ]} demo_world).1
       <> 403%Z.
Proof.
  split; [reflexivity |]. split; [reflexivity |]. split; [reflexivity |].
  split; [reflexivity |]. vm_compute. discriminate.
Qed.

(** The same caller with an accepted status is refused with 403. *)
Lemma non_owner_forbidden_witness :
  (run_transition demo_str OpUpdateStatus "a1"
     {[ "status" := VStr "approved"; "counsellorId" := VStr "c2" ]} demo_world).1
    = Response 403 (JError "Not your appointment")
  /\ db (run_transition demo_str OpUpdateStatus "a1"
     {[ "status" := VStr "approved"; "counsellorId" := VStr "c2" ]} demo_world).2
    = Some demo_store
  /\ outbox (run_transition demo_str OpUpdateStatus "a1"
     {[ "status" := VStr "approved"; "counsellorId" := VStr "c2" ]} demo_world).2
    = [].
Proof.
  destruct (non_owner_forbidden_no_change demo_str OpUpdateStatus "a1"
              {[ "status" := VStr "approved"; "counsellorId" := VStr "c2" ]}
              demo_world demo_store demo_appt) as (H1 & H2 & H3);
    [computed | computed | computed |].
  split; [apply H1; computed | split; assumption].
Defined.

(** C3, the claim as first stated fails: without a store client the
    appointment listing answers 200 with an empty list. *)
Lemma listing_without_db_is_200 :
  db demo_world_nodb = None
  /\ list_counsellor_appointments demo_str {[ "counsellorId" := "c1" ]} demo_world_nodb
       = (Response 200 (JAppointments []), demo_world_nodb)
  /\ status_code (list_counsellor_appointments demo_str
                    {[ "counsellorId" := "c1" ]} demo_world_nodb).1 <> 500%Z.
Proof.
  split; [reflexivity |]. split; [reflexivity |]. vm_compute. discriminate.
Qed.

Lemma no_db_witness :
  counsellor_start_appointment "a1" ∅ demo_world_nodb
    = (Response 500 (JError "Database not available"), demo_world_nodb)
  /\ list_counsellor_appointments demo_str {[ "counsellorId" := "c1" ]} demo_world_nodb
       = (Response 200 (JAppointments []), demo_world_nodb).
Proof.
  destruct (no_db_is_500_except_listing demo_str demo_float "a1" "c1" ∅
              {[ "counsellorId" := "c1" ]} demo_world_nodb eq_refl)
    as (H1 & _ & _ & _ & _ & _ & _ & _ & _ & _ & _ & H12).
  split; [exact H1 | apply H12; [discriminate | eexists; reflexivity]].
Defined.

(** C4 on the sample data: the owner sends [Approved]; [approved] is stored
    and the notification says [confirmed]. *)
Lemma update_status_approved_witness :
  exists (wf : world) (st' : store) (appt' note : doc) (text : string),
    counsellor_update_status demo_str "a1"
      {[ "status" := VStr "Approved"; "counsellorId" := VStr "c1" ]} demo_world
      = (Response 200 JSuccess, wf)
    /\ db wf = Some st'
    /\ appointments st' !! "a1" = Some appt'
    /\ appt' !! "status" = Some (VStr "approved")
    /\ notifications st' = [note]
    /\ note !! "body" = Some (VStr text)
    /\ substring_of "confirmed" text = true.
Proof.
  destruct (update_status_validates_and_normalises demo_str "a1"
              {[ "status" := VStr "Approved"; "counsellorId" := VStr "c1" ]}
              "Approved" demo_world demo_store)
    as (_ & H & _ & _); [computed | computed |].
  destruct (H demo_appt) as (wf & st' & appt' & note & text & H1 & H2 & H3 & H4 & _ & H6 & _ & H8 & H9);
    [computed | computed | computed | computed | computed
    | computed | computed | computed | eexists; computed |].
  exists wf, st', appt', note, text. repeat split; assumption.
Defined.

(** C5 on the sample data: the owner deletes [a1]; its slot is freed. *)
Lemma delete_frees_slot_witness :
  exists (wf : world) (st' : store) (slot' : doc),
    counsellor_delete_appointment demo_str "a1" {[ "counsellorId" := VStr "c1" ]} demo_world
      = (Response 200 JSuccess, wf)
    /\ db wf = Some st'
    /\ appointments st' !! "a1" = None
    /\ slots st' !! ("c1", "2025-01-15", "10:00") = Some slot'
    /\ slot' !! "booked" = Some (VBool false)
    /\ slot' !! "bookedBy" = Some VNull
    /\ slot' !! "sessionId" = Some VNull.
Proof.
  destruct (delete_frees_slot_and_swallows_failure demo_str "a1"
              {[ "counsellorId" := VStr "c1" ]} demo_appt "c1" "2025-01-15" "10:00"
              demo_slot demo_world demo_store)
    as (wf & st' & H1 & H2 & H3 & _ & H5);
    [computed | computed | computed | computed | computed | computed
    | eexists; computed | computed | computed | computed
    | discriminate | discriminate | discriminate | computed |].
  destruct (H5 eq_refl) as (slot' & S1 & S2 & S3 & S4 & _).
  exists wf, st', slot'. repeat split; assumption.
Defined.

(** The same deletion while the slots collection is unreachable still
    succeeds and leaves the slot as it was. *)
Example delete_with_slots_down :
  let r := counsellor_delete_appointment demo_str "a1" {[ "counsellorId" := VStr "c1" ]}
             demo_world_slots_down in
  r.1 = Response 200 JSuccess
  /\ (slots <$> db r.2) = Some (slots demo_store)
  /\ ((fun s => appointments s !! "a1") <$> db r.2) = Some None.
Proof. cbv zeta. split; [reflexivity |]. split; reflexivity. Qed.

(** C10 on the sample data: switching the booked slot off keeps it booked. *)
Lemma toggle_witness :
  exists (wf : world) (st' : store) (slot' : doc),
    counsellor_toggle_availability demo_str demo_toggle demo_world
      = (Response 200 JSuccess, wf)
    /\ db wf = Some st'
    /\ slots st' !! ("c1", "2025-01-15", "10:00") = Some slot'
    /\ slot' !! "active" = Some (VBool false)
    /\ slot' !! "booked" = Some (VBool true)
    /\ slot' !! "bookedBy" = Some (VStr "s1")
    /\ slot' !! "sessionId" = Some (VStr "a1").
Proof.
  destruct (toggle_changes_only_active_and_updatedAt demo_str demo_toggle
              demo_world demo_store)
    as (wf & st' & slot' & H1 & H2 & H3 & H4 & _ & H6);
    [computed | computed | computed | computed | computed | computed |].
  change (slots demo_store !! slot_path demo_str (dget demo_toggle "counsellorId")
            (dget demo_toggle "dateKey") (dget demo_toggle "time"))
    with (Some demo_slot) in H6.
  destruct H6 as (_ & B1 & B2 & B3).
  exists wf, st', slot'. repeat split; assumption.
Defined.

(** C8 on the sample day. *)
Lemma availability_witness :
  exists (items : list doc),
    counsellor_get_availability demo_str demo_day_args demo_day_world
      = (Response 200 (JSlots items), log (Slots, Read) demo_day_world)
    /\ StronglySorted
         (fun x y => String.leb (time_key demo_str x) (time_key demo_str y) = true) items.
Proof.
  destruct (availability_sorted_by_normalised_time demo_str demo_day_args
              "c1" "2025-01-15" demo_day_world demo_day_store)
    as (items & day & H1 & _ & _ & H4 & _);
    [computed | computed | computed | discriminate | discriminate | computed |].
  exists items. split; assumption.
Defined.

(** The times listed for the sample day, in the order returned. *)
Example availability_times :
  match (counsellor_get_availability demo_str demo_day_args demo_day_world).1 with
  | Response 200 (JSlots items) => map (time_key demo_str) items
  | _ => []
  end = [ "10:00"; "11:45"; "9:30" ].
Proof. vm_compute. reflexivity. Qed.

(** C9, the claim as first stated fails for a score recorded on the scale
    from 0 to 1: the chat record scored 0.5 adds 75 to its day, while the
    linear rescaling of [0, 1] onto [0, 100] gives 50. *)
Lemma chat_score_half_adds_75_not_50 :
  exists q : Q,
    daily (state_of (chats_body demo_float (30 * day_us) demo_chat (Buckets ∅ ∅)))
      !! date_of (39 * day_us) = Some q
    /\ (q == 75)%Q
    /\ (linear_rescale 0 1 (1 # 2) == 50)%Q
    /\ ~ (q == linear_rescale 0 1 (1 # 2))%Q.
Proof.
  eexists. split; [vm_compute; reflexivity |].
  split; [reflexivity |]. split; [reflexivity |].
  intros H. vm_compute in H. discriminate.
Qed.

Lemma chat_score_witness :
  chats_body demo_float (30 * day_us) demo_chat (Buckets ∅ ∅)
    = Next (Buckets
              (<[ date_of (39 * day_us) := (0 + chat_norm (1 # 2))%Q ]> ∅)
              (<[ date_of (39 * day_us) := 1%nat ]> ∅))
  /\ chat_norm (1 # 2) = (((1 # 2) + 1) / 2 * 100)%Q.
Proof.
  destruct (chat_score_rescaled_from_minus_one_one demo_float (30 * day_us) (39 * day_us)
              demo_chat {[ "score" := AFloat (1 # 2); "label" := AStr "neutral" ]}
              (AFloat (1 # 2)) (1 # 2) (Buckets ∅ ∅))
    as (H1 & H2 & _); [computed | discriminate | computed | computed | computed |].
  split; [exact H1 |].
  apply H2; discriminate.
Defined.


(** Without the primary mood score the same request does read them. *)
Example legacy_sources_read_when_no_primary_point :
  legacy_reads (trace (counsellor_appointment_insights demo_str demo_float "a1"
                         demo_insights_args demo_legacy_world).2)
    = [ (ChatConversations, Read); (Moods, Read); (Moods, Read) ].
Proof. vm_compute. reflexivity. Qed.


(** The trend returned for the sample data: the mood score of day 38 and
    nothing else. *)
Example insights_trend :
  match (counsellor_appointment_insights demo_str demo_float "a1"
           demo_insights_args demo_insights_world).1 with
  | Response 200 (JInsights trend _ _) => map (fun e => (e.1, Qred <$> e.2)) trend
  | _ => []
  end
  = [ (34, None); (35, None); (36, None); (37, None); (38, Some (60 # 1)); (39, None);
      (40, None) ]%Z.
Proof. vm_compute. reflexivity. Qed.

(* ================================================================== *)
(** ** Further properties on the sample data *)
(* ================================================================== *)

(** An inequality on the sample data, settled by evaluation. *)
Ltac differs :=
  let E := fresh in
  intros E; first [ discriminate E | cbv in E; discriminate E ].

(** Cancelling [a1] through a status update leaves its slot booked. *)
Lemma status_transitions_witness :
  keeps slots demo_world
    (run_transition demo_str OpUpdateStatus "a1"
       {[ "status" := VStr "cancelled"; "counsellorId" := VStr "c1" ]} demo_world).2.
Proof.
  apply (status_transitions_leave_slots_alone demo_str OpUpdateStatus "a1"
           {[ "status" := VStr "cancelled"; "counsellorId" := VStr "c1" ]} demo_world).
  discriminate.
Defined.

Lemma start_witness :
  (counsellor_start_appointment "a1" {[ "counsellorId" := VStr "c1" ]} demo_world).1
    = Response 200 JSuccess
  /\ outbox (counsellor_start_appointment "a1" {[ "counsellorId" := VStr "c1" ]}
               demo_world).2 = [].
Proof.
  destruct (start_writes_status_only "a1" {[ "counsellorId" := VStr "c1" ]} demo_appt
              demo_world demo_store) as (H1 & _ & H3);
    [computed | computed | computed | computed | computed |].
  split; [exact H1 | exact H3].
Defined.

Lemma complete_witness :
  exists (wf : world) (st' : store),
    counsellor_complete_appointment demo_str "a1" {[ "counsellorId" := VStr "c1" ]} demo_world
      = (Response 200 JSuccess, wf)
    /\ db wf = Some st'
    /\ slots st' = slots demo_store
    /\ length (notifications st') = 1%nat.
Proof.
  destruct (complete_notifies_best_effort demo_str "a1" {[ "counsellorId" := VStr "c1" ]}
              demo_appt demo_world demo_store) as (wf & st' & H1 & H2 & _ & H4 & H5);
    [computed | computed | computed | computed | computed | computed
    | eexists; computed |].
  exists wf, st'. split; [exact H1 |]. split; [exact H2 |]. split; [exact H4 |].
  rewrite H5. reflexivity.
Defined.

Lemma malformed_port_witness :
  exists (wf : world) (st' : store) (appt' : doc),
    counsellor_complete_appointment demo_str "a1" {[ "counsellorId" := VStr "c1" ]}
      demo_bad_port_world
      = (Response 500 (JError "Internal server error"), wf)
    /\ db wf = Some st'
    /\ appointments st' !! "a1" = Some appt'
    /\ appt' !! "status" = Some (VStr "completed").
Proof.
  destruct (complete_with_malformed_port_fails_after_write demo_str "a1"
              {[ "counsellorId" := VStr "c1" ]} demo_mail_appt demo_bad_port_world
              demo_mail_store) as (wf & st' & appt' & H1 & H2 & H3 & H4 & _);
    [computed | computed | computed | computed | computed | computed | computed
    | computed |].
  exists wf, st', appt'. repeat split; assumption.
Defined.

Lemma reschedule_witness :
  exists (wf : world) (appt' : doc),
    counsellor_reschedule "a1"
      {[ "appointmentDate" := VStr "2025-02-01"; "appointmentTime" := VStr "11:00";
         "counsellorId" := VStr "c1" ]} demo_world
      = (Response 200 JSuccess, wf)
    /\ appt' !! "appointmentDate" = Some (VStr "2025-02-01")
    /\ appt' !! "appointmentTime" = Some (VStr "11:00")
    /\ appt' !! "status" = Some (VStr "pending").
Proof.
  destruct (reschedule_overwrites_date_and_time "a1"
              {[ "appointmentDate" := VStr "2025-02-01"; "appointmentTime" := VStr "11:00";
                 "counsellorId" := VStr "c1" ]} demo_appt demo_world demo_store)
    as (wf & appt' & H1 & _ & H3 & H4 & _ & H6);
    [computed | computed | computed | computed | computed | computed | computed
    | computed |].
  exists wf, appt'. split; [exact H1 |]. split; [exact H3 |]. split; [exact H4 |].
  rewrite H6 by discriminate. reflexivity.
Defined.

Lemma invalid_request_witness :
  status_code (run_transition demo_str OpStart "a1" ∅ demo_world).1 = 400%Z
  /\ (run_transition demo_str OpStart "a1" ∅ demo_world).2 = demo_world.
Proof.
  apply (invalid_request_is_400_without_store_call demo_str OpStart "a1" ∅ demo_world
           demo_store); computed.
Defined.



Lemma note_witness :
  (counsellor_put_note "a1" "c1" {[ "text" := VStr "slept badly" ]} demo_world).1
    = Response 200 JSuccess
  /\ exists note : doc,
       (counsellor_get_note "a1" "c1"
          (counsellor_put_note "a1" "c1" {[ "text" := VStr "slept badly" ]} demo_world).2).1
         = Response 200 (JNote (Some note))
       /\ note !! "text" = Some (VStr "slept badly").
Proof.
  destruct (note_saved_is_note_read "a1" "c1" {[ "text" := VStr "slept badly" ]}
              demo_world demo_store) as (H1 & (note & H2 & H3 & _) & _);
    [computed | computed | computed |].
  split; [exact H1 |]. exists note. split; [exact H2 | exact H3].
Defined.

Lemma insights_refusals_witness :
  counsellor_appointment_insights demo_str demo_float "zz"
    {[ "counsellorId" := "c1" ]} demo_world
  = (Response 404 (JError "Appointment not found"), log (Appointments, Read) demo_world).
Proof.
  destruct (insights_refusals demo_str demo_float "zz" {[ "counsellorId" := "c1" ]}
              demo_world demo_store) as (_ & H & _); [computed | computed |].
  apply H; [differs | computed].
Defined.

Lemma latest_assessment_witness :
  exists s,
    for_each (assessments_body demo_str) [ demo_assessment; demo_assessment_later ] (∅, ∅)
      = Next s
    /\ exists rec, s.1 !! "PHQ-9" = Some rec.
Proof.
  destruct (latest_assessment_is_most_recent demo_str
              [ demo_assessment; demo_assessment_later ] "PHQ-9") as (s & E & H).
  - left. reflexivity.
  - constructor; [eexists; computed |]. constructor; [eexists; computed | constructor].
  - exists s. split; [exact E |].
    destruct (s.1 !! "PHQ-9") as [rec |]; [exists rec; reflexivity |].
    exfalso. apply (H demo_assessment_later); [right; left; reflexivity | computed].
Defined.

Lemma primary_scan_witness :
  exists b : buckets,
    for_each (mood_scores_body demo_float (37 * day_us)) [ demo_mood ]
      (Buckets ∅ ∅, 0%nat) = Next (b, 1%nat)
    /\ default 0%nat (counts b !! 38%Z) = 1%nat.
Proof.
  destruct (primary_scan_counts_and_sums demo_float (37 * day_us) [ demo_mood ])
    as (b & E & H).
  - constructor; [computed | constructor].
  - exists b. split; [exact E |].
    destruct (H 38%Z) as [C _]. rewrite C. computed.
Defined.

Lemma unconfigured_smtp_witness :
  outbox (run_transition demo_str OpComplete "a1" {[ "counsellorId" := VStr "c1" ]}
            demo_world).2 = [].
Proof.
  apply (unconfigured_smtp_sends_nothing demo_str OpComplete "a1"
           {[ "counsellorId" := VStr "c1" ]} demo_world).
  computed.
Defined.

Lemma complete_mail_witness :
  exists (wf : world) (m : email),
    counsellor_complete_appointment demo_str "a1" {[ "counsellorId" := VStr "c1" ]}
      demo_mail_world = (Response 200 JSuccess, wf)
    /\ outbox wf = [ m ]
    /\ mail_to m = "sam@example.org"
    /\ mail_from m = "mindly@example.org".
Proof.
  destruct (complete_mails_feedback_request demo_str "a1" "sam@example.org"
              {[ "counsellorId" := VStr "c1" ]} demo_mail_appt demo_mail_world
              demo_mail_store) as (wf & m & H1 & H2 & H3 & H4 & _);
    [computed | computed | computed | computed | computed | computed | computed
    | discriminate | computed |].
  exists wf, m. split; [exact H1 |]. split; [exact H2 |]. split; [exact H3 | exact H4].
Defined.

Lemma listing_refusals_witness :
  list_counsellor_appointments demo_str {[ "limit" := "ten" ]} demo_world
    = (Response 500 (JError "Internal server error"), demo_world)
  /\ list_counsellor_appointments demo_str {[ "limit" := "10" ]} demo_world
    = (Response 400 (JError "counsellorId is required"), demo_world).
Proof.
  split.
  - apply (proj1 (listing_refusals demo_str {[ "limit" := "ten" ]} demo_world)).
    computed.
  - apply (proj2 (listing_refusals demo_str {[ "limit" := "10" ]} demo_world));
      [eexists; computed | computed].
Defined.


Lemma delete_all_or_nothing_witness :
  exists st' : store,
    db (counsellor_delete_appointment demo_str "a1" {[ "counsellorId" := VStr "c1" ]}
          demo_world).2 = Some st'
    /\ appointments st' = delete "a1" (appointments demo_store).
Proof.
  destruct (delete_is_all_or_nothing demo_str "a1" {[ "counsellorId" := VStr "c1" ]}
              demo_world demo_store) as (st' & H1 & H2); [computed |].
  exists st'. split; [exact H1 | exact H2].
Defined.

Lemma update_status_mail_witness :
  exists (wf : world) (m : email),
    counsellor_update_status demo_str "a1"
      {[ "status" := VStr "approved"; "counsellorId" := VStr "c1" ]} demo_users_world
      = (Response 200 JSuccess, wf)
    /\ outbox wf = [ m ]
    /\ mail_to m = "sam@example.org".
Proof.
  destruct (update_status_mails_address_on_file demo_str "a1" "approved" "s1"
              {[ "status" := VStr "approved"; "counsellorId" := VStr "c1" ]}
              demo_appt demo_users_world demo_users_store) as (wf & H1 & H2);
    [computed | computed | computed | computed | computed | computed | computed
    | computed | computed | computed | computed | discriminate | computed
    | computed |].
  change (users demo_users_store !! "s1") with (Some demo_user) in H2.
  destruct (H2 "sam@example.org") as (m & M1 & M2 & _); [computed | discriminate |].
  exists wf, m. split; [exact H1 |]. split; [exact M1 | exact M2].
Defined.
